(** * Intrusion detection over ssh logs: a shallow embedding

    The program downloads a log over HTTP, splits every line into
    whitespace separated fields, and reports a line when its IP is banned
    or when its user logged in more than 3 times within 20 seconds.

    The development follows the source file function by function:
    [loadLookup], [toSeconds], [setupDownload], [frequencyHacking],
    [loginTime], [processLogs], [breakDownURL] and [main].  The parts of
    the C and C++ libraries the program calls ([std::string::find] and
    [substr], formatted extraction with [>>], [std::getline], [strptime]
    and [mktime]) are modelled in the modules [Std] and [Libc].

    What [mktime] returns depends on the time zone of the process.
    Section [Program] has the program in a zone whose offset from UTC
    never changes; module [Tz] has it with the [mktime] of any zone, and
    the theorems about the ordinals themselves state the zone they need
    as a hypothesis ([constant_offset]).

    The module [Homework2] embeds the second program of the repository,
    which answers group ids from the files passwd and groups:
    [memberInfo], [groupMembers], [processInput] and its [main]. *)

From stdpp Require Import gmap strings list pretty.
From Stdlib Require Import ZArith Lia Ascii String.

Open Scope Z_scope.

(* ===================================================================== *)
(** ** Machine integers *)
(* ===================================================================== *)

Module Mach.

(** [size_t] is an unsigned 64-bit integer; arithmetic is modulo 2^64. *)
Definition size_modulus : Z := 2 ^ 64.

(** [std::string::npos], the largest [size_t]. *)
Definition npos : Z := size_modulus - 1.

Definition size_add (a b : Z) : Z := (a + b) mod size_modulus.

(** [long] is a signed 64-bit integer, [int] a signed 32-bit one. *)
Definition LONG_MAX : Z := 2 ^ 63 - 1.
Definition LONG_MIN : Z := - 2 ^ 63.
Definition INT_MAX : Z := 2 ^ 31 - 1.
Definition INT_MIN : Z := - 2 ^ 31.

Definition is_long (z : Z) : Prop := LONG_MIN <= z <= LONG_MAX.
Definition is_int (z : Z) : Prop := INT_MIN <= z <= INT_MAX.

(** Two's complement wrap-around of a mathematical result. *)
Definition wrap_long (z : Z) : Z := (z + 2 ^ 63) mod 2 ^ 64 - 2 ^ 63.
Definition wrap_int (z : Z) : Z := (z + 2 ^ 31) mod 2 ^ 32 - 2 ^ 31.

Definition long_sub (a b : Z) : Z := wrap_long (a - b).

(** [x++] on an [int]. *)
Definition int_incr (x : Z) : Z := wrap_int (x + 1).

End Mach.

(* ===================================================================== *)
(** ** The C++ string and stream operations the program uses *)
(* ===================================================================== *)

Module Std.
Import Mach.

Definition size (s : string) : Z := Z.of_nat (String.length s).

(** [s.find(needle)]: position of the first occurrence, or [npos]. *)
Fixpoint find_from (needle s : string) (i : Z) : Z :=
  if String.prefix needle s then i
  else match s with
       | EmptyString => npos
       | String _ s' => find_from needle s' (i + 1)
       end.

Definition find (s needle : string) : Z := find_from needle s 0.

(** [s.find(c)] for a single character. *)
Definition find_char (s : string) (c : ascii) : Z :=
  find s (String c EmptyString).

(** [s.substr(pos, n)]: throws [std::out_of_range] ([None]) when
    [pos > s.size()]; otherwise the characters from [pos], at most [n]
    of them.  [n] defaults to [npos]. *)
Definition substr (s : string) (pos n : Z) : option string :=
  if size s <? pos then None
  else Some (String.substring (Z.to_nat pos)
                              (Z.to_nat (Z.min n (size s - pos))) s).

(** [isspace] in the "C" locale: space, \t, \n, \v, \f, \r. *)
Definition isspace (c : ascii) : bool :=
  let n := N_of_ascii c in ((n =? 32) || ((9 <=? n) && (n <=? 13)))%N.

(** The whitespace separated words of a text, in order: what repeated
    [is >> word] yields until the stream fails.  [cur] is the word being
    read, reversed. *)
Fixpoint words_from (cur : list ascii) (s : string) : list string :=
  match s with
  | EmptyString =>
      match cur with
      | [] => []
      | _ => [string_of_list_ascii (rev cur)]
      end
  | String c s' =>
      if isspace c then
        match cur with
        | [] => words_from [] s'
        | _ => string_of_list_ascii (rev cur) :: words_from [] s'
        end
      else words_from (c :: cur) s'
  end.

Definition words (s : string) : list string := words_from [] s.

(** One formatted extraction [is >> var].  The stream is the list of
    words not read yet.  When no word is left the extraction fails: the
    stream stays failed (empty) and [var] KEEPS ITS VALUE, since
    [operator>>] erases the string only once its sentry succeeded. *)
Definition extract (strm : list string) (var : string)
  : list string * string :=
  match strm with
  | [] => ([], var)
  | w :: strm' => (strm', w)
  end.

(** The lines [std::getline] yields from a text until it fails: each
    line ends at a newline (dropped) or at the end of the text; nothing
    is yielded once no character is left. *)
Fixpoint lines_from (cur : list ascii) (s : string) : list string :=
  match s with
  | EmptyString =>
      match cur with
      | [] => []
      | _ => [string_of_list_ascii (rev cur)]
      end
  | String c s' =>
      if Ascii.eqb c "010" then
        string_of_list_ascii (rev cur) :: lines_from [] s'
      else lines_from (c :: cur) s'
  end.

Definition getlines (s : string) : list string := lines_from [] s.

End Std.

(* ===================================================================== *)
(** ** The C library's [strptime] and [mktime] *)
(* ===================================================================== *)

Module Libc.
Import Mach Std.

(** [struct tm], the fields [strptime] writes for this format and
    [mktime] reads ([tm_wday] and [tm_yday] are outputs of both and are
    read by neither). *)
Record tm : Type := mk_tm {
  tm_sec : Z;
  tm_min : Z;
  tm_hour : Z;
  tm_mday : Z;
  tm_mon : Z;
  tm_year : Z;
  tm_isdst : Z
}.

Definition set_sec (t : tm) (v : Z) : tm :=
  mk_tm v (tm_min t) (tm_hour t) (tm_mday t) (tm_mon t) (tm_year t) (tm_isdst t).
Definition set_min (t : tm) (v : Z) : tm :=
  mk_tm (tm_sec t) v (tm_hour t) (tm_mday t) (tm_mon t) (tm_year t) (tm_isdst t).
Definition set_hour (t : tm) (v : Z) : tm :=
  mk_tm (tm_sec t) (tm_min t) v (tm_mday t) (tm_mon t) (tm_year t) (tm_isdst t).
Definition set_mday (t : tm) (v : Z) : tm :=
  mk_tm (tm_sec t) (tm_min t) (tm_hour t) v (tm_mon t) (tm_year t) (tm_isdst t).
Definition set_mon (t : tm) (v : Z) : tm :=
  mk_tm (tm_sec t) (tm_min t) (tm_hour t) (tm_mday t) v (tm_year t) (tm_isdst t).

Definition is_digit (c : ascii) : bool :=
  let n := N_of_ascii c in ((48 <=? n) && (n <=? 57))%N.

Definition digit_val (c : ascii) : Z := Z.of_N (N_of_ascii c) - 48.

Definition tolower (c : ascii) : ascii :=
  let n := N_of_ascii c in
  if ((65 <=? n) && (n <=? 90))%N then ascii_of_N (n + 32) else c.

Fixpoint skip_space (rp : string) : string :=
  match rp with
  | String c rp' => if isspace c then skip_space rp' else rp
  | EmptyString => rp
  end.

(** [match_string]: the input starts with [name], letter case ignored;
    the result is the input after it. *)
Fixpoint match_string (name rp : string) : option string :=
  match name with
  | EmptyString => Some rp
  | String a name' =>
      match rp with
      | String b rp' =>
          if Ascii.eqb (tolower a) (tolower b) then match_string name' rp'
          else None
      | EmptyString => None
      end
  end.

Definition month_name : list string :=
  ["January"; "February"; "March"; "April"; "May"; "June"; "July";
   "August"; "September"; "October"; "November"; "December"]%string.

Definition ab_month_name : list string :=
  ["Jan"; "Feb"; "Mar"; "Apr"; "May"; "Jun"; "Jul"; "Aug"; "Sep"; "Oct";
   "Nov"; "Dec"]%string.

(** One candidate name for month [cnt]: it replaces the best match so
    far when it matches and reaches further into the input. *)
Definition try_name (rp : string) (cnt : Z) (name : string)
           (best : option (Z * string)) : option (Z * string) :=
  match match_string name rp with
  | Some trp =>
      match best with
      | Some (_, rp_longest) =>
          if (String.length trp <? String.length rp_longest)%nat
          then Some (cnt, trp) else best
      | None => Some (cnt, trp)
      end
  | None => best
  end.

Fixpoint match_month_from (rp : string) (cnt : Z) (names : list (string * string))
         (best : option (Z * string)) : option (Z * string) :=
  match names with
  | [] => best
  | (full, ab) :: names' =>
      match_month_from rp (cnt + 1) names'
        (try_name rp cnt ab (try_name rp cnt full best))
  end.

(** [%B]: the longest full or abbreviated month name at the input. *)
Definition match_month (rp : string) : option (Z * string) :=
  match_month_from rp 0 (combine month_name ab_month_name) None.

(** The loop of [get_number] once a first digit [c] is known: [k] more
    digits may follow, as long as the value can still stay within [to]. *)
Fixpoint get_number_loop (k : nat) (to val : Z) (c : ascii) (rp : string)
  : Z * string :=
  let val' := val * 10 + digit_val c in
  match k with
  | O => (val', rp)
  | S k' =>
      if val' * 10 <=? to then
        match rp with
        | String d rp' =>
            if is_digit d then get_number_loop k' to val' d rp'
            else (val', rp)
        | EmptyString => (val', rp)
        end
      else (val', rp)
  end.

(** [get_number (from, to, n)]: skip white space, read at most [n]
    digits, fail ([None]) without a digit or outside [from..to]. *)
Definition get_number (from to : Z) (n : nat) (rp : string)
  : option (Z * string) :=
  match skip_space rp with
  | String c rp' =>
      if is_digit c then
        let '(val, rest) := get_number_loop (Nat.pred n) to 0 c rp' in
        if (val <? from) || (to <? val) then None else Some (val, rest)
      else None
  | EmptyString => None
  end.

(** One conversion specification.  The first component is [None] when
    [strptime] returns NULL there; the [tm] holds what was stored. *)
Definition conversion (d : ascii) (rp : string) (t : tm) : option string * tm :=
  if Ascii.eqb d "B" || Ascii.eqb d "b" || Ascii.eqb d "h" then
    match match_month rp with
    | Some (cnt, rp') => (Some rp', set_mon t cnt)
    | None => (None, t)
    end
  else if Ascii.eqb d "d" then
    match get_number 1 31 2 rp with
    | Some (v, rp') => (Some rp', set_mday t v)
    | None => (None, t)
    end
  else if Ascii.eqb d "H" then
    match get_number 0 23 2 rp with
    | Some (v, rp') => (Some rp', set_hour t v)
    | None => (None, t)
    end
  else if Ascii.eqb d "M" then
    match get_number 0 59 2 rp with
    | Some (v, rp') => (Some rp', set_min t v)
    | None => (None, t)
    end
  else if Ascii.eqb d "S" then
    match get_number 0 61 2 rp with
    | Some (v, rp') => (Some rp', set_sec t v)
    | None => (None, t)
    end
  else (None, t).

(** [strptime (rp, fmt, &t)] for formats over the conversions above:
    white space in the format skips any white space of the input, a
    conversion stores its field, any other character must be matched.
    On failure the fields stored so far stay in the [tm]. *)
Fixpoint strptime (rp fmt : string) (t : tm) : option string * tm :=
  match fmt with
  | EmptyString => (Some rp, t)
  | String c fmt' =>
      if isspace c then strptime (skip_space rp) fmt' t
      else if Ascii.eqb c "%" then
        match fmt' with
        | String d fmt'' =>
            match conversion d rp t with
            | (Some rp', t') => strptime rp' fmt'' t'
            | (None, t') => (None, t')
            end
        | EmptyString => (None, t)
        end
      else
        match rp with
        | String r rp' =>
            if Ascii.eqb r c then strptime rp' fmt' t else (None, t)
        | EmptyString => (None, t)
        end
  end.

Definition leapyear (year : Z) : bool :=
  (year mod 4 =? 0) && (negb (year mod 100 =? 0) || (year mod 400 =? 0)).

(** Days of the year before the first of each month. *)
Definition mon_yday (leap : bool) (mon : Z) : Z :=
  nth (Z.to_nat mon)
      (if leap
       then [0; 31; 60; 91; 121; 152; 182; 213; 244; 274; 305; 335]
       else [0; 31; 59; 90; 120; 151; 181; 212; 243; 273; 304; 334]) 0.

(** Leap years before [year], counted from year 1. *)
Definition leaps_before (year : Z) : Z :=
  (year - 1) / 4 - (year - 1) / 100 + (year - 1) / 400.

(** Days from 1970-01-01 to the first of January of [year]. *)
Definition days_before_year (year : Z) : Z :=
  365 * (year - 1970) + (leaps_before year - leaps_before 1970).

Section Zone.
(** [mktime] in a zone whose rules never change: [gmtoff] is its
    standard-time offset, seconds east of UTC.  The program leaves
    [tm_isdst] at 0, so [mktime] reads the fields as standard time all
    year.  Where the rules of the zone change, [mktime] is no constant
    shift of the calendar and can fail with -1: see [Tz] and
    [constant_offset]. *)
Variable gmtoff : Z.

(** [mktime]: the fields need not be in range; months carry into the
    year and everything else counts linearly.  With [int] fields the
    result always fits a 64-bit [time_t]. *)
Definition mktime (t : tm) : Z :=
  let year := tm_year t + 1900 + tm_mon t / 12 in
  let yday := mon_yday (leapyear year) (tm_mon t mod 12) + tm_mday t - 1 in
  let days := days_before_year year + yday in
  ((days * 24 + tm_hour t) * 60 + tm_min t) * 60 + tm_sec t - gmtoff.
End Zone.

End Libc.

(* ===================================================================== *)
(** ** The program *)
(* ===================================================================== *)

Import Mach Std Libc.

(** [LookupMap]: banned IPs or authorized users; the value is a place
    holder, always [true]. *)
Abbreviation LookupMap := (gmap string bool).

(** [LoginTimes]: user ID to the seconds of that user's log entries. *)
Abbreviation LoginTimes := (gmap string (list Z)).

(** What the program prints, one constructor per output statement. *)
Inductive Output : Type :=
| BannedIP (line : string)
| Frequency (line : string)
| Summary (lineCount hackCount : Z).

(** The text of each output line, without its newline. *)
Definition render (o : Output) : string :=
  match o with
  | BannedIP line => "Hacking due to banned IP. Line: " +:+ line
  | Frequency line => "Hacking due to frequency. Line: " +:+ line
  | Summary lineCount hackCount =>
      "Processed " +:+ pretty lineCount +:+ " lines. Found "
      +:+ pretty hackCount +:+ " possible hacking attempts."
  end.

(** The string variables [processLogs] declares before its loop; they
    keep their values from one line to the next. *)
Record Fields : Type := mk_fields {
  f_month : string;
  f_day : string;
  f_time : string;
  f_userID : string;
  f_ip : string;
  f_dummy : string
}.

(** The local state of [processLogs]. *)
Record LogState : Type := mk_state {
  fields : Fields;
  lineCount : Z;
  hackCount : Z;
  loginTimes : LoginTimes;
  output : list Output
}.

(** The TCP stream after [setupDownload]: where it connected and what
    was written to it. *)
Record Connection : Type := mk_conn {
  conn_host : string;
  conn_port : string;
  conn_request : string
}.

(** How [main] ends. *)
Inductive Outcome : Type :=
| ExitUsage
    (* fewer than 2 arguments: the usage message, exit code 1 *)
| Terminated (conn : option Connection)
    (* an exception left [main]; [conn] is the connection made before it *)
| Exit0 (conn : Connection) (out : list Output).
    (* exit code 0 *)

(** The world outside the program: the reply of a server to a request
    (empty when the connection fails, the stream is then in error and
    every read fails), and the content of the files that can be opened. *)
Record Env : Type := mk_env {
  reply : Connection -> string;
  file : string -> option string
}.

Definition CR : string := String "013" EmptyString.
Definition CRLF : string := String "013" (String "010" EmptyString).

(** [struct tm tstamp = { .tm_year = year - 1900 }]: every other field
    is zero. *)
Definition initial_tm (year : Z) : tm :=
  mk_tm 0 0 0 0 0 (wrap_int (year - 1900)) 0.

Definition timestamp_format : string := "%B %d %H:%M:%S".

Section Program.
Variable gmtoff : Z.

(** [toSeconds]: the result of [strptime] is not looked at. *)
Definition toSeconds (timestamp : string) (year : Z) : Z :=
  let tstamp := initial_tm year in
  let '(_, tstamp') := strptime timestamp timestamp_format tstamp in
  mktime gmtoff tstamp'.

(** [loadLookup]: throws ([None]) when the file cannot be opened. *)
Definition loadLookup (env : Env) (fileName : string) : option LookupMap :=
  match file env fileName with
  | None => None
  | Some text =>
      Some (fold_left (fun lookup entry => <[entry := true]> lookup)
                      (words text) ∅)
  end.

(** [setupDownload]; [port] is the parameter that defaults to "80". *)
Definition setupDownload (hostName path port : string) : Connection :=
  mk_conn hostName port
    ("GET " +:+ path +:+ " HTTP/1.1" +:+ CRLF
     +:+ "Host: " +:+ hostName +:+ CRLF
     +:+ "Connection: Close" +:+ CRLF +:+ CRLF).

(** [operator[]] of the map: a missing key is first inserted with an
    empty vector. *)
Definition subscript (loginTimes : LoginTimes) (userID : string)
  : list Z * LoginTimes :=
  match loginTimes !! userID with
  | Some vec => (vec, loginTimes)
  | None => ([], <[userID := []]> loginTimes)
  end.

(** [vec[i]] of the vector (only used in range). *)
Definition at_index (vec : list Z) (i : Z) : Z := nth (Z.to_nat i) vec 0.

(** [frequencyHacking]: the verdict, and the map after the subscripts. *)
Definition frequencyHacking (loginTimes : LoginTimes)
           (authorizedUsers : LookupMap) (userID : string)
  : bool * LoginTimes :=
  match authorizedUsers !! userID with
  | None =>
      let '(vec, loginTimes') := subscript loginTimes userID in
      if 3 <? Z.of_nat (List.length vec) then
        let i := Z.of_nat (List.length vec) - 1 in
        if long_sub (at_index vec i) (at_index vec (i - 3)) <=? 20
        then (true, loginTimes')
        else (false, loginTimes')
      else (false, loginTimes')
  | Some _ => (false, loginTimes)
  end.

(** The second half of [loginTime]: store [seconds] for [userID]. *)
Definition record_seconds (seconds : Z) (userID : string)
           (loginTimes : LoginTimes) : LoginTimes :=
  match loginTimes !! userID with
  | None => <[userID := [seconds]]> loginTimes
  | Some vec => <[userID := vec ++ [seconds]]> loginTimes
  end.

Definition loginTime (month day time userID : string)
           (loginTimes : LoginTimes) : LoginTimes :=
  let timeStamp := month +:+ " " +:+ day +:+ " " +:+ time in
  let seconds := toSeconds timeStamp 2021 in
  record_seconds seconds userID loginTimes.

(** The extraction statement of the loop:
    [istringstream(line) >> month >> day >> time >> dummy >> dummy >>
     dummy >> dummy >> dummy >> userID >> dummy >> ip]. *)
Definition parseLine (line : string) (f : Fields) : Fields :=
  let s := words line in
  let '(s, month) := extract s (f_month f) in
  let '(s, day) := extract s (f_day f) in
  let '(s, time) := extract s (f_time f) in
  let '(s, dummy) := extract s (f_dummy f) in
  let '(s, dummy) := extract s dummy in
  let '(s, dummy) := extract s dummy in
  let '(s, dummy) := extract s dummy in
  let '(s, dummy) := extract s dummy in
  let '(s, userID) := extract s (f_userID f) in
  let '(s, dummy) := extract s dummy in
  let '(_, ip) := extract s (f_ip f) in
  mk_fields month day time userID ip dummy.

(** One iteration of the loop of [processLogs]. *)
Definition processLine (bannedIPs authorizedUsers : LookupMap)
           (st : LogState) (line : string) : LogState :=
  let f := parseLine line (fields st) in
  match bannedIPs !! f_ip f with
  | Some _ =>
      mk_state f (int_incr (lineCount st)) (int_incr (hackCount st))
               (loginTimes st) (output st ++ [BannedIP line])
  | None =>
      let lt := loginTime (f_month f) (f_day f) (f_time f) (f_userID f)
                          (loginTimes st) in
      let '(violation, lt') :=
        frequencyHacking lt authorizedUsers (f_userID f) in
      if violation then
        mk_state f (int_incr (lineCount st)) (int_incr (hackCount st))
                 lt' (output st ++ [Frequency line])
      else
        mk_state f (int_incr (lineCount st)) (hackCount st) lt' (output st)
  end.

Definition initial_state : LogState :=
  mk_state (mk_fields "" "" "" "" "" "") 0 0 ∅ [].

(** The loop of [processLogs] over the lines [getline] yields. *)
Definition run_loop (bannedIPs authorizedUsers : LookupMap)
           (lines : list string) (st : LogState) : LogState :=
  fold_left (processLine bannedIPs authorizedUsers) lines st.

(** [processLogs]: the state at the end of the stream, with the summary
    printed last. *)
Definition processLogs (lines : list string)
           (bannedIPs authorizedUsers : LookupMap) : LogState :=
  let st := run_loop bannedIPs authorizedUsers lines initial_state in
  mk_state (fields st) (lineCount st) (hackCount st) (loginTimes st)
           (output st ++ [Summary (lineCount st) (hackCount st)]).

(** [breakDownURL]: [None] when a [substr] throws. *)
Definition breakDownURL (url : string) : option (string * string * string) :=
  let start := size_add (find url "//") 2 in
  hostName ← substr url start npos;
  '(end_, port) ←
    (if negb (find_char hostName ":" =? npos) then
       let end_ := find_char hostName ":" in
       port ← substr hostName (size_add end_ 1) npos;
       port ← substr port 0 (find_char port "/");
       Some (end_, port)
     else Some (find_char hostName "/", "80"%string));
  path ← substr hostName (find_char hostName "/") npos;
  hostName ← substr hostName 0 end_;
  Some (hostName, port, path).

(** The loop of [main] that skips the response header: lines are read
    up to and including the first empty line or lone carriage return. *)
Fixpoint skip_header (lines : list string) : list string :=
  match lines with
  | [] => []
  | hdr :: rest =>
      if String.eqb hdr "" || String.eqb hdr CR then rest
      else skip_header rest
  end.

(** [main] with [argv] as a list ([argc] is its length). *)
Definition main (env : Env) (argv : list string) : Outcome :=
  match argv with
  | _ :: url :: _ =>
      match breakDownURL url with
      | None => Terminated None
      | Some (host, port, path) =>
          let conn := setupDownload host path "80" in
          let body := skip_header (getlines (reply env conn)) in
          match loadLookup env "banned_ips.txt" with
          | None => Terminated (Some conn)
          | Some bannedIPs =>
              match loadLookup env "authorized_users.txt" with
              | None => Terminated (Some conn)
              | Some authorizedUsers =>
                  Exit0 conn
                    (output (processLogs body bannedIPs authorizedUsers))
              end
          end
      end
  | _ => ExitUsage
  end.

End Program.

(** Where [main] connected, if it got that far. *)
Definition connection_of (o : Outcome) : option Connection :=
  match o with
  | ExitUsage => None
  | Terminated conn => conn
  | Exit0 conn _ => Some conn
  end.

(** The flags among the printed lines. *)
Definition is_banned_flag (o : Output) : bool :=
  match o with BannedIP _ => true | _ => false end.

Definition is_frequency_flag (o : Output) : bool :=
  match o with Frequency _ => true | _ => false end.

Definition count_flags (p : Output -> bool) (out : list Output) : Z :=
  Z.of_nat (List.length (List.filter p out)).

(** The calendar, counted month by month, to say what the ordinals
    should measure.  Months are numbered from 0 as in [tm_mon]. *)
Definition days_in_month (leap : bool) (mon : Z) : Z :=
  if mon =? 1 then (if leap then 29 else 28)
  else if (mon =? 3) || (mon =? 5) || (mon =? 8) || (mon =? 10) then 30
  else 31.

Definition days_before_month (leap : bool) (mon : Z) : Z :=
  foldr Z.add 0
        (List.map (fun m => days_in_month leap (Z.of_nat m))
                  (seq 0 (Z.to_nat mon))).

Definition day_of_year (leap : bool) (mon mday : Z) : Z :=
  days_before_month leap mon + mday - 1.

(** Seconds from the start of the year to the instant the fields name. *)
Definition second_of_year (leap : bool) (t : tm) : Z :=
  ((day_of_year leap (tm_mon t) (tm_mday t) * 24 + tm_hour t) * 60
   + tm_min t) * 60 + tm_sec t.



(** The ranges [strptime] keeps the fields in. *)
Definition fields_in_range (t : tm) : Prop :=
  0 <= tm_mon t <= 11 /\ 0 <= tm_mday t <= 31 /\ 0 <= tm_hour t <= 23
  /\ 0 <= tm_min t <= 59 /\ 0 <= tm_sec t <= 61.

(** What one iteration prints for its line, if anything. *)
Inductive LineFlag (line : string) : list Output -> Prop :=
| NotFlagged : LineFlag line []
| FlaggedBannedIP : LineFlag line [BannedIP line]
| FlaggedFrequency : LineFlag line [Frequency line].

(** The lines flagged by either rule. *)
Definition flagged (out : list Output) : Z :=
  count_flags is_banned_flag out + count_flags is_frequency_flag out.

(* ===================================================================== *)
(** ** The program in the zone of the process *)
(* ===================================================================== *)

(** The [mktime] of the C library follows the rules of the time zone the
    process runs in (the tz database) and keeps, between calls, its guess
    of the zone's offset; the program sets neither.  Here it is a
    parameter: from the state of the library and the fields it gives the
    [time_t] returned and the next state.  The definitions of section
    [Program] are these for a zone whose offset never changes. *)
Module Tz.
Section Library.
Context {Lib : Type}.
Variable libc_mktime : Lib -> tm -> Z * Lib.

(** [toSeconds]: the result of [strptime] is not looked at. *)
Definition toSeconds (lib : Lib) (timestamp : string) (year : Z) : Z * Lib :=
  let tstamp := initial_tm year in
  let '(_, tstamp') := strptime timestamp timestamp_format tstamp in
  libc_mktime lib tstamp'.

Definition loginTime (lib : Lib) (month day time userID : string)
           (loginTimes : LoginTimes) : LoginTimes * Lib :=
  let timeStamp := month +:+ " " +:+ day +:+ " " +:+ time in
  let '(seconds, lib') := toSeconds lib timeStamp 2021 in
  (record_seconds seconds userID loginTimes, lib').

(** One iteration of the loop of [processLogs]. *)
Definition processLine (bannedIPs authorizedUsers : LookupMap)
           (st : LogState * Lib) (line : string) : LogState * Lib :=
  let '(st, lib) := st in
  let f := parseLine line (fields st) in
  match bannedIPs !! f_ip f with
  | Some _ =>
      (mk_state f (int_incr (lineCount st)) (int_incr (hackCount st))
                (loginTimes st) (output st ++ [BannedIP line]), lib)
  | None =>
      let '(lt, lib') := loginTime lib (f_month f) (f_day f) (f_time f)
                                   (f_userID f) (loginTimes st) in
      let '(violation, lt') :=
        frequencyHacking lt authorizedUsers (f_userID f) in
      if violation then
        (mk_state f (int_incr (lineCount st)) (int_incr (hackCount st))
                  lt' (output st ++ [Frequency line]), lib')
      else
        (mk_state f (int_incr (lineCount st)) (hackCount st) lt' (output st),
         lib')
  end.

Definition run_loop (bannedIPs authorizedUsers : LookupMap)
           (lines : list string) (st : LogState * Lib) : LogState * Lib :=
  fold_left (processLine bannedIPs authorizedUsers) lines st.

Definition processLogs (lib : Lib) (lines : list string)
           (bannedIPs authorizedUsers : LookupMap) : LogState * Lib :=
  let '(st, lib') :=
    run_loop bannedIPs authorizedUsers lines (initial_state, lib) in
  (mk_state (fields st) (lineCount st) (hackCount st) (loginTimes st)
            (output st ++ [Summary (lineCount st) (hackCount st)]), lib').

End Library.
End Tz.

(** The zone assumption: around the assumed year the offset of the zone
    from UTC is the one constant [gmtoff], so that [mktime], called with
    [tm_isdst = 0] on fields in the ranges [strptime] keeps, returns the
    calendar count shifted by it, whatever the state of the library. *)
Definition constant_offset {Lib : Type} (libc_mktime : Lib -> tm -> Z * Lib)
           (year gmtoff : Z) : Prop :=
  forall (lib : Lib) (t : tm),
    tm_year t = year - 1900 -> tm_isdst t = 0 -> fields_in_range t ->
    (libc_mktime lib t).1 = mktime gmtoff t.

(* ===================================================================== *)
(** ** Sample inputs *)
(* ===================================================================== *)

(** A log line in the layout the program expects: 11 words, the user the
    9th and the IP the 11th. *)
Definition sample_line : string :=
  "Jun 10 03:32:36 host sshd[1]: Failed password for bob from 10.0.0.5".

(** Four logins of one user within 18 seconds, from an IP not banned. *)
Definition bob_lines : list string :=
  ["Jun 10 10:00:00 host sshd[1]: Failed password for bob from 10.0.0.7";
   "Jun 10 10:00:05 host sshd[1]: Failed password for bob from 10.0.0.7";
   "Jun 10 10:00:10 host sshd[1]: Failed password for bob from 10.0.0.7";
   "Jun 10 10:00:18 host sshd[1]: Failed password for bob from 10.0.0.7"]%string.

(** The reply of a server: a status line and a header, the blank line,
    then the four lines of [bob_lines]. *)
Definition sample_reply : string :=
  "HTTP/1.1 200 OK" +:+ CRLF +:+ "Content-Type: text/plain" +:+ CRLF +:+ CRLF
  +:+ foldr (fun line rest => line +:+ String "010" rest) EmptyString bob_lines.

(** A world with both lookup files and a server that sends nothing. *)
Definition sample_env : Env :=
  mk_env (fun _ => EmptyString)
         (fun name => if String.eqb name "banned_ips.txt" then Some "10.0.0.5"%string
                      else if String.eqb name "authorized_users.txt"
                           then Some "alice"%string
                           else None).

(** The same world with a server that sends [sample_reply]. *)
Definition serving_env : Env := mk_env (fun _ => sample_reply) (file sample_env).

(** A world whose lookup files cannot be opened. *)
Definition bare_env : Env := mk_env (fun _ => sample_reply) (fun _ => None).

(** The library in a zone whose offset never changes. *)
Definition fixed_zone (gmtoff : Z) (lib : unit) (t : tm) : Z * unit :=
  (mktime gmtoff t, lib).

(** A zone whose clocks skip an hour of standard time: local time runs
    8 hours ahead of UTC up to 01:00:00 of October 3 2021 and 9 hours
    ahead from 02:00:00 on.  Fields in the skipped hour name no local
    time, and [mktime] fails for them with -1. *)
Definition skipping_zone (lib : unit) (t : tm) : Z * unit :=
  let count := mktime 0 t in
  if count <? 1633222800 then (count - 28800, lib)
  else if count <? 1633226400 then (-1, lib)
  else (count - 32400, lib).

(* ===================================================================== *)
(** ** Well-formed inputs *)
(* ===================================================================== *)

(** A word as [>>] reads one: not empty and free of white space. *)
Definition is_word (w : string) : Prop :=
  w <> EmptyString
  /\ Forall (fun c => isspace c = false) (list_ascii_of_string w).

(** A line as [getline] reads one: free of newlines. *)
Definition is_line (l : string) : Prop :=
  Forall (fun c => Ascii.eqb c "010" = false) (list_ascii_of_string l).

(** Lines written out, each followed by a newline. *)
Definition unlines (lines : list string) : string :=
  foldr (fun line rest => line +:+ String "010" rest) EmptyString lines.

(** The test that ends the header loop of [main]. *)
Definition blank (hdr : string) : bool :=
  String.eqb hdr "" || String.eqb hdr CR.

(** All logins held in the history, over all users. *)
Definition total_logins (lt : LoginTimes) : Z :=
  map_fold (fun _ vec n => Z.of_nat (List.length vec) + n) 0 lt.

(** The input line a flag echoes. *)
Definition flagged_line (o : Output) : option string :=
  match o with
  | BannedIP line => Some line
  | Frequency line => Some line
  | Summary _ _ => None
  end.

(** The flag for a line that came with a carriage return at its end. *)
Definition with_cr (o : Output) : Output :=
  match o with
  | BannedIP line => BannedIP (line +:+ CR)
  | Frequency line => Frequency (line +:+ CR)
  | Summary n h => Summary n h
  end.

(** The ordinals [toSeconds] can return for the year 2021 in the zone of
    constant offset [gmtoff]. *)
Definition in_window (gmtoff x : Z) : Prop :=
  (days_before_year 2021 - 1) * 86400 <= x + gmtoff
  < (days_before_year 2021 + 367) * 86400.

(* ===================================================================== *)
(** ** The group lookup program (homework2/main.cpp) *)
(* ===================================================================== *)

Module Homework2.

(** [std::replace (copy.begin (), copy.end (), from, to)]. *)
Fixpoint replace (from to : ascii) (copy : string) : string :=
  match copy with
  | EmptyString => EmptyString
  | String c copy' =>
      String (if Ascii.eqb c from then to else c) (replace from to copy')
  end.

(** An [istringstream]: the characters not read yet and the fail bit. *)
Record isstream : Type := mk_is {
  unread : string;
  failed : bool
}.

Definition istringstream (s : string) : isstream := mk_is s false.

(** The characters of a word: up to the next white space. *)
Fixpoint read_word (s : string) : string * string :=
  match s with
  | EmptyString => (EmptyString, EmptyString)
  | String c s' =>
      if isspace c then (EmptyString, s)
      else let '(w, r) := read_word s' in (String c w, r)
  end.

(** [is >> var] for a [std::string].  On a failed stream, or when only
    white space is left, nothing is stored and the stream is failed. *)
Definition get_string (strm : isstream) (var : string) : isstream * string :=
  if failed strm then (strm, var)
  else match skip_space (unread strm) with
       | EmptyString => (mk_is EmptyString true, var)
       | String _ _ as s => let '(w, r) := read_word s in (mk_is r false, w)
       end.

(** The digits at the front of [s], accumulated onto [acc]. *)
Fixpoint read_digits (acc : Z) (s : string) : Z * string :=
  match s with
  | String c s' =>
      if is_digit c then read_digits (acc * 10 + digit_val c) s' else (acc, s)
  | EmptyString => (acc, s)
  end.

Definition starts_with_digit (s : string) : bool :=
  match s with
  | String c _ => is_digit c
  | EmptyString => false
  end.

(** An optional sign: whether it is '-', and what follows it. *)
Definition read_sign (s : string) : bool * string :=
  match s with
  | String c s' =>
      if Ascii.eqb c "-" then (true, s')
      else if Ascii.eqb c "+" then (false, s')
      else (false, s)
  | EmptyString => (false, s)
  end.

Definition clamp_int (v : Z) : Z := Z.max INT_MIN (Z.min INT_MAX v).

(** [is >> var] for an [int]; [None] is an [int] that was never given a
    value.  On a failed stream, or when only white space is left, nothing
    is stored.  Otherwise a value is always stored: 0 when no number is
    there, the nearest [int] when the number does not fit (both fail the
    stream), else the number. *)
Definition get_int (strm : isstream) (var : option Z) : isstream * option Z :=
  if failed strm then (strm, var)
  else match skip_space (unread strm) with
       | EmptyString => (mk_is EmptyString true, var)
       | String _ _ as s =>
           let '(negative, body) := read_sign s in
           if starts_with_digit body then
             let '(v, r) := read_digits 0 body in
             let v := if negative then - v else v in
             if (INT_MIN <=? v) && (v <=? INT_MAX) then (mk_is r false, Some v)
             else (mk_is r true, Some (clamp_int v))
           else (mk_is body true, Some 0)
       end.

(** One round of the loop of [memberInfo].  [None]: the program reads
    the [int id] that no extraction has written (undefined behaviour). *)
Definition memberInfo_line (copy : string) (userMap : gmap Z string)
  : option (gmap Z string) :=
  let copy := replace ":" " " copy in
  let strm := istringstream copy in
  let '(strm, name) := get_string strm EmptyString in
  let '(strm, pass) := get_string strm EmptyString in
  let '(strm, id) := get_int strm None in
  match id with
  | Some id => Some (<[id := name]> userMap)
  | None => None
  end.

Fixpoint memberInfo_loop (lines : list string) (userMap : gmap Z string)
  : option (gmap Z string) :=
  match lines with
  | [] => Some userMap
  | copy :: lines' =>
      match memberInfo_line copy userMap with
      | Some userMap' => memberInfo_loop lines' userMap'
      | None => None
      end
  end.

(** [memberInfo] over the lines [getline] yields from the stream. *)
Definition memberInfo (lines : list string) : option (gmap Z string) :=
  memberInfo_loop lines ∅.

(** [while (is >> id) uids.push_back (id)], with the number of rounds
    bounded by [fuel]; every round that goes on reads a character. *)
Fixpoint read_ids (fuel : nat) (strm : isstream) (uids : list Z) : list Z :=
  match fuel with
  | O => uids
  | S fuel' =>
      let '(strm', id) := get_int strm None in
      if failed strm' then uids
      else match id with
           | Some id => read_ids fuel' strm' (uids ++ [id])
           | None => uids
           end
  end.

(** One round of the loop of [groupMembers]. *)
Definition groupMembers_line (copy : string) (userIDs : gmap Z (list Z))
  : option (gmap Z (list Z)) :=
  let copy := replace ":" " " copy in
  let copy := replace "," " " copy in
  let strm := istringstream copy in
  let '(strm, group) := get_string strm EmptyString in
  let '(strm, pass) := get_string strm EmptyString in
  let '(strm, gid) := get_int strm None in
  let uids := read_ids (S (String.length (unread strm))) strm [] in
  match gid with
  | Some gid => Some (<[gid := uids]> userIDs)
  | None => None
  end.

Fixpoint groupMembers_loop (lines : list string) (userIDs : gmap Z (list Z))
  : option (gmap Z (list Z)) :=
  match lines with
  | [] => Some userIDs
  | copy :: lines' =>
      match groupMembers_line copy userIDs with
      | Some userIDs' => groupMembers_loop lines' userIDs'
      | None => None
      end
  end.

Definition groupMembers (lines : list string) : option (gmap Z (list Z)) :=
  groupMembers_loop lines ∅.

(** How a run ends, with what was printed up to there. *)
Inductive Run : Type :=
| Undefined
    (* an [int] without a value was read *)
| Threw (out : string)
    (* [at] threw [std::out_of_range] and nothing catches it *)
| Done (out : string).

Definition NL : string := String "010" EmptyString.

(** The inner loop of [processInput]: the members of one group. *)
Fixpoint print_members (memberUID : gmap Z string) (uniqueID : list Z)
         (out : string) : Run :=
  match uniqueID with
  | [] => Done out
  | uid :: uniqueID' =>
      match memberUID !! uid with
      | None => Threw out
      | Some name =>
          print_members memberUID uniqueID'
            (out +:+ " " +:+ name +:+ "(" +:+ pretty uid +:+ ")")
      end
  end.

(** The outer loop of [processInput]. *)
Fixpoint print_groups (memberUID : gmap Z string) (members : gmap Z (list Z))
         (theGroups : gmap Z string) (groupIds : list Z) (out : string) : Run :=
  match groupIds with
  | [] => Done out
  | gid :: groupIds' =>
      match theGroups !! gid with
      | None =>
          print_groups memberUID members theGroups groupIds'
            (out +:+ pretty gid +:+ " = Group not found." +:+ NL)
      | Some groupID =>
          match members !! gid with
          | None => Threw out
          | Some uniqueID =>
              match print_members memberUID uniqueID
                      (out +:+ pretty gid +:+ " = " +:+ groupID +:+ ":") with
              | Done out' =>
                  print_groups memberUID members theGroups groupIds'
                    (out' +:+ NL)
              | stopped => stopped
              end
          end
      end
  end.

(** The lines of a file; a file that cannot be opened yields none. *)
Definition file_lines (fs : string -> option string) (name : string)
  : list string :=
  match fs name with
  | Some text => getlines text
  | None => []
  end.

Definition processInput (fs : string -> option string) (groupIds : list Z)
  : Run :=
  match memberInfo (file_lines fs "passwd") with
  | None => Undefined
  | Some memberUID =>
      match groupMembers (file_lines fs "groups") with
      | None => Undefined
      | Some members =>
          match memberInfo (file_lines fs "groups") with
          | None => Undefined
          | Some theGroups =>
              print_groups memberUID members theGroups groupIds EmptyString
          end
      end
  end.

(** [atoi]: white space, an optional sign, digits; 0 without digits.
    [None]: the number does not fit an [int] (undefined behaviour). *)
Definition atoi (s : string) : option Z :=
  let '(negative, body) := read_sign (skip_space s) in
  let '(v, _) := read_digits 0 body in
  let v := if negative then - v else v in
  if (INT_MIN <=? v) && (v <=? INT_MAX) then Some v else None.

Fixpoint atoi_all (args : list string) : option (list Z) :=
  match args with
  | [] => Some []
  | arg :: args' =>
      match atoi arg, atoi_all args' with
      | Some v, Some vs => Some (v :: vs)
      | _, _ => None
      end
  end.

(** [main]: every argument after the program name is a group id. *)
Definition main (fs : string -> option string) (argv : list string) : Run :=
  match atoi_all (tail argv) with
  | Some groupIds => processInput fs groupIds
  | None => Undefined
  end.

(** *** Well-formed files *)

(** A character that is no white space, colon or comma. *)
Definition plain (c : ascii) : Prop :=
  isspace c = false /\ c <> ":"%char /\ c <> ","%char.

(** A field of a colon separated line: not empty, plain characters. *)
Definition is_field (w : string) : Prop :=
  w <> EmptyString /\ Forall plain (list_ascii_of_string w).

(** A line of the form name:pass:id, followed by nothing or by a colon
    and anything. *)
Record Entry : Type := mk_entry {
  e_name : string;
  e_pass : string;
  e_id : Z;
  e_rest : string
}.

Definition entry_line (e : Entry) : string :=
  e_name e +:+ ":" +:+ e_pass e +:+ ":" +:+ pretty (e_id e) +:+ e_rest e.

Definition well_formed_entry (e : Entry) : Prop :=
  is_field (e_name e) /\ is_field (e_pass e) /\ is_int (e_id e)
  /\ (e_rest e = EmptyString \/ exists r, e_rest e = String ":" r).

(** A line of the groups file: name:pass:gid:uid,uid,... *)
Record Group : Type := mk_group {
  g_name : string;
  g_pass : string;
  g_id : Z;
  g_members : list Z
}.

Definition group_line (g : Group) : string :=
  g_name g +:+ ":" +:+ g_pass g +:+ ":" +:+ pretty (g_id g) +:+ ":"
  +:+ String.concat "," (pretty <$> g_members g).

Definition well_formed_group (g : Group) : Prop :=
  is_field (g_name g) /\ is_field (g_pass g) /\ is_int (g_id g)
  /\ Forall is_int (g_members g).

(** The group as [memberInfo] sees its line. *)
Definition group_entry (g : Group) : Entry :=
  mk_entry (g_name g) (g_pass g) (g_id g)
           (":" +:+ String.concat "," (pretty <$> g_members g)).

(** The maps the files stand for: a later line replaces an earlier one
    with the same id. *)
Definition names_of (es : list Entry) : gmap Z string :=
  foldl (fun m e => <[e_id e := e_name e]> m) ∅ es.

Definition members_of (gs : list Group) : gmap Z (list Z) :=
  foldl (fun m g => <[g_id g := g_members g]> m) ∅ gs.

(** Sample files: three users, three groups; the last group lists a
    user id that is not in passwd. *)
Definition sample_users : list Entry :=
  [mk_entry "root" "x" 0 ":0:root:/root:/bin/bash";
   mk_entry "bob" "x" 1000 ":1000::/home/bob:/bin/sh";
   mk_entry "eve" "x" 1001 ""].

Definition sample_groups : list Group :=
  [mk_group "wheel" "x" 10 [0; 1000];
   mk_group "nobody" "x" 30 [];
   mk_group "staff" "x" 20 [1000; 1001; 7; 0]].

Definition sample_fs (name : string) : option string :=
  if String.eqb name "passwd" then Some (unlines (entry_line <$> sample_users))
  else if String.eqb name "groups"
       then Some (unlines (group_line <$> sample_groups))
       else None.

(** A run that goes on after [out] was printed. *)
Definition after (out : string) (r : Run) : Run :=
  match r with
  | Undefined => Undefined
  | Threw o => Threw (out +:+ o)
  | Done o => Done (out +:+ o)
  end.

End Homework2.

(* ===================================================================== *)
(** ** Machine arithmetic *)
(* ===================================================================== *)

Lemma wrap_long_id z : is_long z -> wrap_long z = z.
Proof.
  unfold is_long, LONG_MIN, LONG_MAX, wrap_long. intros H.
  rewrite Z.mod_small; lia.
Qed.

Lemma wrap_int_id z : is_int z -> wrap_int z = z.
Proof.
  unfold is_int, INT_MIN, INT_MAX, wrap_int. intros H.
  rewrite Z.mod_small; lia.
Qed.

Lemma int_incr_succ x : INT_MIN <= x < INT_MAX -> int_incr x = x + 1.
Proof.
  intros H. unfold int_incr. apply wrap_int_id.
  unfold is_int. lia.
Qed.

(* ===================================================================== *)
(** ** The frequency rule *)
(* ===================================================================== *)

Lemma subscript_fst (loginTimes : LoginTimes) userID :
  (subscript loginTimes userID).1 = default [] (loginTimes !! userID).
Proof. unfold subscript. by destruct (loginTimes !! userID). Qed.

(** The verdict of [frequencyHacking] for a user outside the authorized
    list, read off the user's vector. *)
Lemma frequencyHacking_verdict (loginTimes : LoginTimes)
      (authorizedUsers : LookupMap) userID :
  authorizedUsers !! userID = None ->
  let vec := default [] (loginTimes !! userID) in
  let i := Z.of_nat (List.length vec) - 1 in
  (frequencyHacking loginTimes authorizedUsers userID).1 =
  (3 <? Z.of_nat (List.length vec))
  && (long_sub (at_index vec i) (at_index vec (i - 3)) <=? 20).
Proof.
  intros Hauth. cbv zeta. unfold frequencyHacking. rewrite Hauth.
  rewrite <- subscript_fst.
  destruct (subscript loginTimes userID) as [vec lt']. cbn [fst].
  destruct (3 <? Z.of_nat (List.length vec)); [|done].
  by destruct (long_sub _ _ <=? 20).
Qed.

Lemma record_seconds_lookup seconds userID (loginTimes : LoginTimes) :
  record_seconds seconds userID loginTimes !! userID =
  Some (default [] (loginTimes !! userID) ++ [seconds]).
Proof.
  unfold record_seconds.
  destruct (loginTimes !! userID) eqn:E; by rewrite lookup_insert_eq.
Qed.

Lemma record_seconds_other seconds userID other (loginTimes : LoginTimes) :
  userID <> other ->
  record_seconds seconds userID loginTimes !! other = loginTimes !! other.
Proof.
  intros Hne. unfold record_seconds.
  destruct (loginTimes !! userID); by rewrite lookup_insert_ne.
Qed.

(** C3: a user in the authorized list is never reported by the frequency
    rule, whatever that user's recorded logins are; the map is not even
    touched. *)
Theorem authorized_user_never_flagged (loginTimes : LoginTimes)
        (authorizedUsers : LookupMap) (userID : string) :
  is_Some (authorizedUsers !! userID) ->
  frequencyHacking loginTimes authorizedUsers userID = (false, loginTimes).
Proof.
  intros [b Hb]. unfold frequencyHacking. by rewrite Hb.
Qed.

Lemma authorized_user_never_flagged_witness :
  is_Some (({["alice" := true]} : LookupMap) !! "alice")
  /\ frequencyHacking {["alice" := [100; 101; 102; 103; 104]]}
                      {["alice" := true]} "alice"
     = (false, {["alice" := [100; 101; 102; 103; 104]]}).
Proof.
  split.
  - exists true. reflexivity.
  - apply authorized_user_never_flagged. exists true. reflexivity.
Defined.

(** C1: for a user outside the authorized list with no earlier logins,
    after the four ordinals t0 < t1 < t2 < t3 are recorded the frequency
    rule reports a violation exactly when t3 - t0 <= 20 (the subtraction
    is the program's [long] one, so it must not overflow).  In general,
    for any login map, a violation is reported iff the user's vector has
    more than 3 entries and its last entry minus the entry 3 places
    before it is at most 20. *)
Theorem frequency_violation_iff (authorizedUsers : LookupMap)
        (userID : string) (loginTimes : LoginTimes) (t0 t1 t2 t3 : Z) :
  authorizedUsers !! userID = None ->
  loginTimes !! userID = None ->
  t0 < t1 -> t1 < t2 -> t2 < t3 ->
  t3 - t0 <= LONG_MAX ->
  ((frequencyHacking
      (record_seconds t3 userID
         (record_seconds t2 userID
            (record_seconds t1 userID
               (record_seconds t0 userID loginTimes))))
      authorizedUsers userID).1 = true
   <-> t3 - t0 <= 20)
  /\ (forall (lt : LoginTimes) (vec : list Z),
        lt !! userID = Some vec ->
        let last := at_index vec (Z.of_nat (List.length vec) - 1) in
        let fourth_last := at_index vec (Z.of_nat (List.length vec) - 4) in
        is_long (last - fourth_last) ->
        ((frequencyHacking lt authorizedUsers userID).1 = true
         <-> (3 < List.length vec)%nat /\ last - fourth_last <= 20))
  /\ (forall lt : LoginTimes,
        lt !! userID = None ->
        (frequencyHacking lt authorizedUsers userID).1 = false).
Proof.
  intros Hauth Hnew H01 H12 H23 Hfit. split; [|split].
  - rewrite frequencyHacking_verdict by done.
    rewrite !record_seconds_lookup, Hnew.
    change ((long_sub t3 t0 <=? 20) = true <-> t3 - t0 <= 20).
    unfold long_sub. rewrite wrap_long_id.
    + apply Z.leb_le.
    + unfold is_long, LONG_MIN, LONG_MAX in *. lia.
  - intros lt vec Hvec. cbv zeta. intros Hdiff.
    rewrite frequencyHacking_verdict by done.
    rewrite Hvec. change (default [] (Some vec)) with vec.
    replace (Z.of_nat (List.length vec) - 1 - 3)
      with (Z.of_nat (List.length vec) - 4) by lia.
    unfold long_sub. rewrite wrap_long_id by done.
    rewrite andb_true_iff, Z.ltb_lt, Z.leb_le. lia.
  - intros lt Hnone.
    rewrite frequencyHacking_verdict by done.
    by rewrite Hnone.
Qed.

Lemma frequency_violation_iff_witness :
  ((frequencyHacking
      (record_seconds 118 "bob"
         (record_seconds 110 "bob"
            (record_seconds 105 "bob"
               (record_seconds 100 "bob" ∅))))
      ∅ "bob").1 = true
   <-> 118 - 100 <= 20).
Proof.
  apply (frequency_violation_iff ∅ "bob" ∅ 100 105 110 118);
    first [ reflexivity | unfold LONG_MAX; lia ].
Defined.

(* ===================================================================== *)
(** ** One line of the log *)
(* ===================================================================== *)

(** The three ways through the loop body. *)
Lemma processLine_cases gmtoff (bannedIPs authorizedUsers : LookupMap) st line :
  let f := parseLine line (fields st) in
  let st' := processLine gmtoff bannedIPs authorizedUsers st line in
  fields st' = f /\ lineCount st' = int_incr (lineCount st) /\
  ((is_Some (bannedIPs !! f_ip f)
    /\ output st' = output st ++ [BannedIP line]
    /\ hackCount st' = int_incr (hackCount st)
    /\ loginTimes st' = loginTimes st)
   \/ (bannedIPs !! f_ip f = None
       /\ output st' = output st ++ [Frequency line]
       /\ hackCount st' = int_incr (hackCount st))
   \/ (bannedIPs !! f_ip f = None
       /\ output st' = output st
       /\ hackCount st' = hackCount st)).
Proof.
  cbv zeta. unfold processLine.
  destruct (bannedIPs !! f_ip (parseLine line (fields st))) as [b|] eqn:Hip.
  - cbn. split; [done|]. split; [done|]. left. eauto.
  - destruct (frequencyHacking _ authorizedUsers _) as [[|] lt'].
    + cbn. split; [done|]. split; [done|]. right. left. done.
    + cbn. split; [done|]. split; [done|]. right. right. done.
Qed.

(** C2: a line whose extracted IP is banned prints the banned-IP flag,
    increments the hack count and leaves the login history as it was; and
    no line at all gets both flags: every line prints nothing, the
    banned-IP flag alone (IP banned), or the frequency flag alone (IP not
    banned). *)
Theorem banned_line_bypasses_history gmtoff
        (bannedIPs authorizedUsers : LookupMap) (st : LogState) (line : string) :
  is_Some (bannedIPs !! f_ip (parseLine line (fields st))) ->
  let st' := processLine gmtoff bannedIPs authorizedUsers st line in
  output st' = output st ++ [BannedIP line]
  /\ hackCount st' = int_incr (hackCount st)
  /\ (INT_MIN <= hackCount st < INT_MAX -> hackCount st' = hackCount st + 1)
  /\ loginTimes st' = loginTimes st
  /\ (forall (st0 : LogState) (line0 : string),
        let st1 := processLine gmtoff bannedIPs authorizedUsers st0 line0 in
        exists new, output st1 = output st0 ++ new /\ LineFlag line0 new
          /\ (In (BannedIP line0) new ->
              is_Some (bannedIPs !! f_ip (parseLine line0 (fields st0))))
          /\ (In (Frequency line0) new ->
              bannedIPs !! f_ip (parseLine line0 (fields st0)) = None)).
Proof.
  intros Hip. cbv zeta.
  destruct (processLine_cases gmtoff bannedIPs authorizedUsers st line)
    as (_ & _ & [(_ & Hout & Hhack & Hlt) | [(Hno & _) | (Hno & _)]]);
    try (rewrite Hno in Hip; by destruct Hip).
  split; [done|]. split; [done|]. split.
  { intros Hrange. rewrite Hhack. by apply int_incr_succ. }
  split; [done|].
  intros st0 line0. cbv zeta.
  destruct (processLine_cases gmtoff bannedIPs authorizedUsers st0 line0)
    as (_ & _ & [(Hb & Hout0 & _) | [(Hb & Hout0 & _) | (Hb & Hout0 & _)]]).
  - exists [BannedIP line0]. split; [done|]. split; [constructor|].
    split; [done|]. intros [Heq | []]. discriminate.
  - exists [Frequency line0]. split; [done|]. split; [constructor|].
    split; [|done]. intros [Heq | []]. discriminate.
  - exists []. rewrite app_nil_r. split; [done|]. split; [constructor|].
    split; intros [].
Qed.

Lemma banned_line_bypasses_history_witness :
  let st' := processLine 0 {["10.0.0.5" := true]} ∅ initial_state sample_line in
  output st' = [BannedIP sample_line]
  /\ hackCount st' = 1
  /\ loginTimes st' = ∅.
Proof.
  cbv zeta.
  destruct (banned_line_bypasses_history 0 {["10.0.0.5" := true]} ∅
              initial_state sample_line)
    as (Hout & Hhack & _ & Hlt & _).
  - exists true. vm_compute. reflexivity.
  - rewrite Hout, Hhack, Hlt. repeat split.
Defined.

(* ===================================================================== *)
(** ** The whole run *)
(* ===================================================================== *)

Lemma flagged_app out new : flagged (out ++ new) = flagged out + flagged new.
Proof.
  unfold flagged, count_flags.
  rewrite !List.filter_app, !List.length_app. lia.
Qed.

Lemma run_loop_snoc gmtoff (bannedIPs authorizedUsers : LookupMap) lines line st :
  run_loop gmtoff bannedIPs authorizedUsers (lines ++ [line]) st =
  processLine gmtoff bannedIPs authorizedUsers
    (run_loop gmtoff bannedIPs authorizedUsers lines st) line.
Proof. unfold run_loop. by rewrite fold_left_app. Qed.

(** The counters after any number of lines that fits an [int]. *)
Lemma run_loop_counts gmtoff (bannedIPs authorizedUsers : LookupMap) lines :
  Z.of_nat (List.length lines) <= INT_MAX ->
  let st := run_loop gmtoff bannedIPs authorizedUsers lines initial_state in
  lineCount st = Z.of_nat (List.length lines)
  /\ hackCount st = flagged (output st)
  /\ 0 <= hackCount st <= lineCount st.
Proof.
  induction lines as [|line lines IH] using rev_ind; intros Hlen; cbv zeta.
  - cbn. unfold flagged, count_flags. cbn. lia.
  - rewrite List.length_app in Hlen. cbn [List.length] in Hlen.
    rewrite run_loop_snoc.
    destruct IH as (Hn & Hh & Hle); [lia|].
    set (st := run_loop gmtoff bannedIPs authorizedUsers lines initial_state) in *.
    assert (Hincr : int_incr (lineCount st) = lineCount st + 1).
    { apply int_incr_succ. unfold INT_MIN, INT_MAX in *. lia. }
    assert (Hincr' : int_incr (hackCount st) = hackCount st + 1).
    { apply int_incr_succ. unfold INT_MIN, INT_MAX in *. lia. }
    destruct (processLine_cases gmtoff bannedIPs authorizedUsers st line)
      as (_ & Hline & [(_ & Hout & Hhack & _) | [(_ & Hout & Hhack) | (_ & Hout & Hhack)]]);
      rewrite Hline, Hout, Hhack, ?flagged_app, List.length_app;
      cbn [List.length]; unfold flagged, count_flags in *; cbn; lia.
Qed.

(** C4: at the end of a stream (of at most INT_MAX lines, the range of
    the program's [int] counters) the summary holds the number of lines
    read and the number of lines flagged by the banned-IP rule plus the
    number flagged by the frequency rule; it is the last line printed. *)
Theorem summary_counts gmtoff (lines : list string)
        (bannedIPs authorizedUsers : LookupMap) :
  Z.of_nat (List.length lines) <= INT_MAX ->
  let st := processLogs gmtoff lines bannedIPs authorizedUsers in
  lineCount st = Z.of_nat (List.length lines)
  /\ hackCount st = count_flags is_banned_flag (output st)
                  + count_flags is_frequency_flag (output st)
  /\ List.last (output st) (Summary 0 0) = Summary (lineCount st) (hackCount st).
Proof.
  intros Hlen. cbv zeta. unfold processLogs. cbn.
  destruct (run_loop_counts gmtoff bannedIPs authorizedUsers lines Hlen)
    as (Hn & Hh & _).
  split; [done|]. split.
  - fold (flagged (output (run_loop gmtoff bannedIPs authorizedUsers lines
                                    initial_state)
                   ++ [Summary
                         (lineCount (run_loop gmtoff bannedIPs authorizedUsers
                                              lines initial_state))
                         (hackCount (run_loop gmtoff bannedIPs authorizedUsers
                                              lines initial_state))])).
    rewrite flagged_app, Hh. unfold flagged, count_flags. cbn. lia.
  - apply List.last_last.
Qed.

Lemma summary_counts_witness :
  let st := processLogs 0 bob_lines {["10.0.0.5" := true]} ∅ in
  lineCount st = 4
  /\ hackCount st = count_flags is_banned_flag (output st)
                  + count_flags is_frequency_flag (output st)
  /\ List.last (output st) (Summary 0 0) = Summary (lineCount st) (hackCount st).
Proof.
  apply (summary_counts 0 bob_lines {["10.0.0.5" := true]} ∅).
  vm_compute. discriminate.
Defined.

(* ===================================================================== *)
(** ** Lines with missing fields *)
(* ===================================================================== *)

(** The fields after the extraction statement: the word at the field's
    position, or the value the variable had before when the line has no
    such word. *)
Lemma parseLine_fields line f :
  let ws := words line in
  let f' := parseLine line f in
  f_month f' = nth 0 ws (f_month f)
  /\ f_day f' = nth 1 ws (f_day f)
  /\ f_time f' = nth 2 ws (f_time f)
  /\ f_userID f' = nth 8 ws (f_userID f)
  /\ f_ip f' = nth 10 ws (f_ip f).
Proof.
  cbv zeta. unfold parseLine.
  generalize (words line) as l. intros l.
  do 11 (destruct l as [|? l]; [cbn; done|]).
  cbn. done.
Qed.

Lemma words_from_nonempty s : forall cur,
  Forall (fun w => w <> EmptyString) (words_from cur s).
Proof.
  assert (Hne : forall c cur, string_of_list_ascii (rev (c :: cur)) <> EmptyString).
  { intros c cur. cbn [rev]. destruct (rev cur); discriminate. }
  induction s as [|c s IH]; intros cur; cbn.
  - destruct cur; constructor; [apply Hne | constructor].
  - destruct (isspace c); [|apply IH].
    destruct cur; [apply IH|]. constructor; [apply Hne | apply IH].
Qed.

Lemma lookup_fold_insert (ws : list string) : forall (m : LookupMap) k,
  ~ In k ws -> m !! k = None ->
  fold_left (fun lookup entry => <[entry := true]> lookup) ws m !! k = None.
Proof.
  induction ws as [|w ws IH]; intros m k Hin Hm; cbn; [done|].
  apply IH.
  - intros H. apply Hin. by right.
  - rewrite lookup_insert_ne; [done|]. intros ->. apply Hin. by left.
Qed.

(** No set that [loadLookup] builds holds the empty string. *)
Lemma loadLookup_no_empty env fileName (lookup : LookupMap) :
  loadLookup env fileName = Some lookup -> lookup !! EmptyString = None.
Proof.
  unfold loadLookup. destruct (file env fileName) as [text|]; [|done].
  intros [= <-]. apply lookup_fold_insert; [|done].
  intros Hin.
  pose proof (words_from_nonempty text []) as Hall.
  rewrite List.Forall_forall in Hall. by apply (Hall _ Hin).
Qed.

(** C5, as the program has it: a line with fewer than 11 words does not
    stop the run (it is counted like any other), and each field whose
    word is missing KEEPS THE VALUE IT HAD BEFORE THE LINE: the empty
    string when no earlier line set it (the first line of a stream), the
    previous line's value otherwise.  The IP is the 11th word, so it is
    always one of the kept fields.  No loaded set holds the empty string,
    so when the kept IP is empty the line is not flagged by the banned-IP
    rule and goes through the frequency rule. *)
Theorem short_line_keeps_fields gmtoff (env : Env) (fileName : string)
        (bannedIPs authorizedUsers : LookupMap) (st : LogState) (line : string) :
  (List.length (words line) < 11)%nat ->
  loadLookup env fileName = Some bannedIPs ->
  let ws := words line in
  let f := fields st in
  let f' := parseLine line f in
  let st' := processLine gmtoff bannedIPs authorizedUsers st line in
  lineCount st' = int_incr (lineCount st)
  /\ fields st' = f'
  /\ f_month f' = nth 0 ws (f_month f)
  /\ f_day f' = nth 1 ws (f_day f)
  /\ f_time f' = nth 2 ws (f_time f)
  /\ f_userID f' = nth 8 ws (f_userID f)
  /\ f_ip f' = f_ip f
  /\ (f = fields initial_state ->
      f_month f' = nth 0 ws EmptyString
      /\ f_day f' = nth 1 ws EmptyString
      /\ f_time f' = nth 2 ws EmptyString
      /\ f_userID f' = nth 8 ws EmptyString
      /\ f_ip f' = EmptyString)
  /\ (f_ip f = EmptyString ->
      bannedIPs !! f_ip f' = None
      /\ (output st' = output st \/ output st' = output st ++ [Frequency line])).
Proof.
  intros Hshort Hload. cbv zeta.
  destruct (parseLine_fields line (fields st)) as (Hm & Hd & Ht & Hu & Hi).
  cbv zeta in Hm, Hd, Ht, Hu, Hi.
  rewrite nth_overflow in Hi by lia.
  destruct (processLine_cases gmtoff bannedIPs authorizedUsers st line)
    as (Hf & Hline & Hcases).
  repeat (split; [done|]). split.
  - intros Hinit. rewrite Hm, Hd, Ht, Hu, Hi, Hinit. done.
  - intros Hempty. rewrite Hi, Hempty.
    pose proof (loadLookup_no_empty env fileName bannedIPs Hload) as Hno.
    split; [done|].
    destruct Hcases as [(Hb & _) | [(_ & Hout & _) | (_ & Hout & _)]].
    + rewrite Hi, Hempty, Hno in Hb. by destruct Hb.
    + by right.
    + by left.
Qed.

Lemma short_line_keeps_fields_witness :
  let st' := processLine 0 {["10.0.0.5" := true]} ∅ initial_state "Jun 10" in
  lineCount st' = 1
  /\ f_month (fields st') = "Jun"%string
  /\ f_userID (fields st') = EmptyString
  /\ f_ip (fields st') = EmptyString
  /\ output st' = [].
Proof.
  cbv zeta.
  destruct (short_line_keeps_fields 0 sample_env "banned_ips.txt"
              {["10.0.0.5" := true]} ∅ initial_state "Jun 10")
    as (Hline & Hf & Hm & _ & _ & Hu & Hi & _ & _).
  - vm_compute. lia.
  - reflexivity.
  - rewrite Hf, Hline, Hm, Hu, Hi. vm_compute. repeat split.
Defined.

(** C5 as the claim words it fails: after a full line from a banned IP,
    a line of a single word still carries that IP (and that user), and is
    flagged by the banned-IP rule. *)
Lemma short_line_counterexample :
  let bannedIPs : LookupMap := {["10.0.0.5" := true]} in
  let st1 := processLine 0 bannedIPs ∅ initial_state sample_line in
  let st2 := processLine 0 bannedIPs ∅ st1 "short" in
  (List.length (words "short") < 11)%nat
  /\ f_ip (fields st2) = "10.0.0.5"%string
  /\ f_userID (fields st2) = "bob"%string
  /\ output st2 = [BannedIP sample_line; BannedIP "short"]
  /\ hackCount st2 = 2.
Proof.
  vm_compute. repeat split. lia.
Qed.

(** A stream of four blank lines: the empty user is in no authorized
    list, the four ordinals are equal, and the fourth line is flagged. *)
Example blank_lines_flagged :
  output (processLogs 0 [""; ""; ""; ""]%string {["10.0.0.5" := true]} ∅)
  = [Frequency ""; Summary 4 1].
Proof. vm_compute. reflexivity. Qed.

(* ===================================================================== *)
(** ** Strings: [find] and [substr] *)
(* ===================================================================== *)

Lemma size_nonneg s : 0 <= size s.
Proof. unfold size. lia. Qed.

Lemma substring_length_le s : forall n m,
  (String.length (String.substring n m s) <= String.length s)%nat.
Proof.
  induction s as [|c s IH]; intros [|n] [|m]; cbn; try lia.
  - specialize (IH 0%nat m). lia.
  - specialize (IH n 0%nat). lia.
  - specialize (IH n (S m)). lia.
Qed.

Lemma substring_whole s : String.substring 0 (String.length s) s = s.
Proof. induction s as [|c s IH]; cbn; [done|]. by rewrite IH. Qed.

Lemma substr_Some s pos n :
  0 <= pos <= size s -> exists r, substr s pos n = Some r /\ size r <= size s.
Proof.
  intros Hpos. unfold substr.
  destruct (size s <? pos) eqn:E; [apply Z.ltb_lt in E; lia|].
  eexists. split; [reflexivity|].
  unfold size. apply inj_le, substring_length_le.
Qed.

Lemma substr_None s pos n : size s < pos -> substr s pos n = None.
Proof.
  intros H. unfold substr. apply Z.ltb_lt in H. by rewrite H.
Qed.

(** Dropping the first character. *)
Lemma substr_tail c s : size (String c s) < npos -> substr (String c s) 1 npos = Some s.
Proof.
  intros Hsize. unfold substr, size in *. cbn [String.length] in *.
  destruct (Z.of_nat (S (String.length s)) <? 1) eqn:E;
    [apply Z.ltb_lt in E; lia|].
  rewrite Z.min_r by lia.
  replace (Z.to_nat (Z.of_nat (S (String.length s)) - 1))
    with (String.length s) by lia.
  change (Z.to_nat 1) with 1%nat. cbn [String.substring].
  by rewrite substring_whole.
Qed.

(** Where [find] of one character can land. *)
Lemma find_from_char_bound c s : forall i,
  find_from (String c EmptyString) s i = npos
  \/ i <= find_from (String c EmptyString) s i < i + size s.
Proof.
  induction s as [|d s IH]; intros i; cbn [find_from String.prefix].
  - by left.
  - destruct (Ascii.ascii_dec c d) as [Heq|Hne].
    + replace (String.prefix EmptyString s) with true by (by destruct s).
      right. unfold size. cbn [String.length]. lia.
    + destruct (IH (i + 1)) as [H|H]; [by left|].
      right. unfold size in *. cbn [String.length]. lia.
Qed.

Lemma find_char_bound s c :
  find_char s c = npos \/ 0 <= find_char s c < size s.
Proof. apply (find_from_char_bound c s 0). Qed.

(** [breakDownURL] once the host part is known. *)
Lemma breakDownURL_host_part url hostName :
  substr url (size_add (find url "//") 2) npos = Some hostName ->
  breakDownURL url =
  ('(end_, port) ←
     (if negb (find_char hostName ":" =? npos) then
        let end_ := find_char hostName ":" in
        port ← substr hostName (size_add end_ 1) npos;
        port ← substr port 0 (find_char port "/");
        Some (end_, port)
      else Some (find_char hostName "/", "80"%string));
   path ← substr hostName (find_char hostName "/") npos;
   hostName ← substr hostName 0 end_;
   Some (hostName, port, path)).
Proof. intros H. unfold breakDownURL. by rewrite H. Qed.

(** Without a '/' in the host part the resolver throws: [find] gives
    [npos] and [substr] refuses a position past the end. *)
Lemma breakDownURL_no_slash url hostName :
  size hostName < npos ->
  substr url (size_add (find url "//") 2) npos = Some hostName ->
  find_char hostName "/" = npos ->
  breakDownURL url = None.
Proof.
  intros Hsize Hhost Hslash.
  rewrite (breakDownURL_host_part url hostName Hhost), Hslash.
  rewrite (substr_None hostName npos npos Hsize).
  by destruct (if negb _ then _ else _) as [[? ?]|].
Qed.

(** With a '/' in the host part the resolver returns. *)
Lemma breakDownURL_slash url hostName :
  size hostName < npos ->
  substr url (size_add (find url "//") 2) npos = Some hostName ->
  find_char hostName "/" <> npos ->
  exists host port path, breakDownURL url = Some (host, port, path).
Proof.
  intros Hsize Hhost Hslash.
  rewrite (breakDownURL_host_part url hostName Hhost).
  destruct (find_char_bound hostName "/") as [|Hp]; [done|].
  destruct (substr_Some hostName (find_char hostName "/") npos) as (path & Hpath & _);
    [lia|].
  destruct (find_char hostName ":" =? npos) eqn:Hcolon; cbn [negb].
  - destruct (substr_Some hostName 0 (find_char hostName "/")) as (host & Hh & _);
      [lia|].
    exists host, "80"%string, path. cbn. rewrite Hpath. cbn. by rewrite Hh.
  - apply Z.eqb_neq in Hcolon.
    destruct (find_char_bound hostName ":") as [|Hq]; [done|].
    assert (Hadd : size_add (find_char hostName ":") 1 = find_char hostName ":" + 1).
    { unfold size_add, size_modulus. apply Z.mod_small.
      unfold npos, size_modulus in Hsize. lia. }
    destruct (substr_Some hostName (find_char hostName ":" + 1) npos)
      as (port0 & Hport0 & _); [lia|].
    destruct (substr_Some port0 0 (find_char port0 "/")) as (port & Hport & _);
      [pose proof (size_nonneg port0); lia|].
    destruct (substr_Some hostName 0 (find_char hostName ":")) as (host & Hh & _);
      [lia|].
    exists host, port, path. cbn. rewrite Hadd, Hport0. cbn. rewrite Hport. cbn.
    rewrite Hpath. cbn. by rewrite Hh.
Qed.

(** What [main] does with a resolved URL: the connection is made with the
    host and the path alone. *)
Lemma main_connection gmtoff env prog url rest host port path :
  breakDownURL url = Some (host, port, path) ->
  connection_of (main gmtoff env (prog :: url :: rest))
  = Some (setupDownload host path "80").
Proof.
  intros Hurl. unfold main. rewrite Hurl.
  destruct (loadLookup env "banned_ips.txt"); [|done].
  by destruct (loadLookup env "authorized_users.txt").
Qed.

Lemma find_scheme_front hostName : find ("//" +:+ hostName) "//" = 0.
Proof. by destruct hostName. Qed.

Lemma substr_drop2 a b s :
  size s < npos -> substr (String a (String b s)) 2 npos = Some s.
Proof.
  intros Hsize. unfold substr, size in *. cbn [String.length].
  destruct (Z.of_nat (S (S (String.length s))) <? 2) eqn:E;
    [apply Z.ltb_lt in E; lia|].
  rewrite Z.min_r by lia.
  replace (Z.to_nat (Z.of_nat (S (S (String.length s))) - 2))
    with (String.length s) by lia.
  change (Z.to_nat 2) with 2%nat. cbn [String.substring].
  by rewrite substring_whole.
Qed.

(* ===================================================================== *)
(** ** The URL and the connection *)
(* ===================================================================== *)

(** C7: the two URLs of the specification resolve as it says, but a URL
    with no '/' after its host part does not get the default path: the
    [substr] that takes the path throws.  A ':' that only occurs in the
    path is taken for the port separator. *)
Theorem breakDownURL_examples :
  breakDownURL "http://host.example.com:8080/logs/a.txt"
  = Some ("host.example.com", "8080", "/logs/a.txt")%string
  /\ breakDownURL "http://host.example.com/a.txt"
     = Some ("host.example.com", "80", "/a.txt")%string
  /\ breakDownURL "http://host.example.com" = None
  /\ breakDownURL "http://host.example.com:8080" = None
  /\ breakDownURL "http://host/a:b" = Some ("host/a", "b", "/a:b")%string.
Proof. vm_compute. repeat split. Qed.

(** C8, as the program has it: a URL without "//" is not rejected.  The
    not-found position plus 2 wraps around to 1, so the resolver reads the
    host part from the second character on, exactly as if "//" stood in
    place of the first character; when that part holds a '/', [main] goes
    on and connects to the host so resolved. *)
Theorem url_without_scheme_is_resolved gmtoff (env : Env) (prog : string)
        (c : ascii) (hostName : string) :
  find (String c hostName) "//" = npos ->
  size (String c hostName) < npos ->
  breakDownURL (String c hostName) = breakDownURL ("//" +:+ hostName)
  /\ (find_char hostName "/" <> npos ->
      exists host port path,
        breakDownURL (String c hostName) = Some (host, port, path)
        /\ connection_of (main gmtoff env [prog; String c hostName])
           = Some (setupDownload host path "80")).
Proof.
  intros Hfind Hsize.
  assert (Hsize' : size hostName < npos).
  { unfold size in *. cbn [String.length] in Hsize. lia. }
  assert (Hhost : substr (String c hostName)
                         (size_add (find (String c hostName) "//") 2) npos
                  = Some hostName).
  { rewrite Hfind. change (size_add npos 2) with 1. by apply substr_tail. }
  split.
  - rewrite (breakDownURL_host_part _ hostName Hhost).
    symmetry. apply breakDownURL_host_part.
    rewrite find_scheme_front. change (size_add 0 2) with 2.
    by apply substr_drop2.
  - intros Hslash.
    destruct (breakDownURL_slash _ hostName Hsize' Hhost Hslash)
      as (host & port & path & Hurl).
    exists host, port, path. split; [done|].
    by apply main_connection with (port := port).
Qed.

Lemma url_without_scheme_is_resolved_witness :
  breakDownURL "example.com/auth.log" = breakDownURL "//xample.com/auth.log"
  /\ exists host port path,
       breakDownURL "example.com/auth.log" = Some (host, port, path)
       /\ connection_of (main 0 sample_env ["detect"; "example.com/auth.log"]%string)
          = Some (setupDownload host path "80").
Proof.
  destruct (url_without_scheme_is_resolved 0 sample_env "detect" "e"
              "xample.com/auth.log") as [Heq Hconn].
  - reflexivity.
  - reflexivity.
  - split; [exact Heq|]. apply Hconn. vm_compute. discriminate.
Defined.

(** C8 as the claim words it fails: this URL has no "//", and the
    program resolves a host from it, connects, and exits with code 0. *)
Lemma url_without_scheme_counterexample :
  find "example.com/auth.log" "//" = npos
  /\ breakDownURL "example.com/auth.log"
     = Some ("xample.com", "80", "/auth.log")%string
  /\ main 0 sample_env ["detect"; "example.com/auth.log"]%string
     = Exit0 (setupDownload "xample.com" "/auth.log" "80") [Summary 0 0].
Proof. vm_compute. repeat split. Qed.

(** C10: whenever [main] makes a connection, it is to port "80": the
    connection is [setupDownload] of the resolved host and path with the
    default port, whatever port the resolver extracted from the URL. *)
Theorem main_connects_on_port_80 gmtoff (env : Env) (argv : list string)
        (conn : Connection) :
  connection_of (main gmtoff env argv) = Some conn ->
  conn_port conn = "80"%string
  /\ exists prog url rest host port path,
       argv = prog :: url :: rest
       /\ breakDownURL url = Some (host, port, path)
       /\ conn = setupDownload host path "80".
Proof.
  intros Hconn.
  destruct argv as [|prog [|url rest]]; [done..|].
  destruct (breakDownURL url) as [[[host port] path]|] eqn:Hurl.
  - rewrite (main_connection gmtoff env prog url rest host port path Hurl) in Hconn.
    injection Hconn as <-. split; [done|].
    by exists prog, url, rest, host, port, path.
  - unfold main in Hconn. by rewrite Hurl in Hconn.
Qed.

Lemma main_connects_on_port_80_witness :
  breakDownURL "http://host.example.com:8080/logs/a.txt"
  = Some ("host.example.com", "8080", "/logs/a.txt")%string
  /\ conn_port (setupDownload "host.example.com" "/logs/a.txt" "80") = "80"%string.
Proof.
  split; [reflexivity|].
  apply (main_connects_on_port_80 0 sample_env
           ["detect"; "http://host.example.com:8080/logs/a.txt"]%string
           (setupDownload "host.example.com" "/logs/a.txt" "80")).
  reflexivity.
Defined.

(* ===================================================================== *)
(** ** Timestamps *)
(* ===================================================================== *)

Lemma match_month_from_range rp names : forall cnt best c r,
  0 <= cnt ->
  (forall c0 r0, best = Some (c0, r0) -> 0 <= c0 < cnt) ->
  match_month_from rp cnt names best = Some (c, r) ->
  0 <= c < cnt + Z.of_nat (List.length names).
Proof.
  induction names as [|[full ab] names IH]; intros cnt best c r Hcnt Hbest; cbn.
  - intros H. specialize (Hbest _ _ H). lia.
  - intros H. apply IH in H; [lia | lia |].
    intros c0 r0. unfold try_name.
    destruct (match_string ab rp) as [trp|];
      destruct (match_string full rp) as [trp'|];
      destruct best as [[cb rb]|];
      repeat match goal with
             | |- context [if ?b then _ else _] => destruct b
             end;
      intros [= <- <-] || intros [=]; try lia;
      specialize (Hbest _ _ eq_refl); lia.
Qed.

Lemma match_month_range rp c r : match_month rp = Some (c, r) -> 0 <= c <= 11.
Proof.
  intros H. apply match_month_from_range in H; cbn in H; [lia | lia | done].
Qed.

Lemma get_number_range from to n rp v r :
  get_number from to n rp = Some (v, r) -> from <= v <= to.
Proof.
  unfold get_number. destruct (skip_space rp) as [|c rp']; [done|].
  destruct (is_digit c); [|done].
  destruct (get_number_loop _ _ _ _ _) as [val rest].
  destruct (val <? from) eqn:E1; [done|].
  destruct (to <? val) eqn:E2; [done|].
  intros [= <- <-]. apply Z.ltb_ge in E1, E2. lia.
Qed.

Lemma conversion_range d rp t :
  fields_in_range t ->
  fields_in_range (conversion d rp t).2
  /\ tm_year (conversion d rp t).2 = tm_year t.
Proof.
  intros Ht. unfold conversion.
  repeat match goal with
         | |- context [if ?b then _ else _] => destruct b
         end; try done.
  - destruct (match_month rp) as [[c r]|] eqn:E; [|done].
    apply match_month_range in E. unfold fields_in_range in *. cbn. lia.
  - destruct (get_number 1 31 2 rp) as [[v r]|] eqn:E; [|done].
    apply get_number_range in E. unfold fields_in_range in *. cbn. lia.
  - destruct (get_number 0 23 2 rp) as [[v r]|] eqn:E; [|done].
    apply get_number_range in E. unfold fields_in_range in *. cbn. lia.
  - destruct (get_number 0 59 2 rp) as [[v r]|] eqn:E; [|done].
    apply get_number_range in E. unfold fields_in_range in *. cbn. lia.
  - destruct (get_number 0 61 2 rp) as [[v r]|] eqn:E; [|done].
    apply get_number_range in E. unfold fields_in_range in *. cbn. lia.
Qed.

(** Whatever the input and the format, and whether it succeeds or not,
    [strptime] leaves every field in its range and the year alone. *)
Lemma strptime_range (n : nat) : forall fmt rp t,
  (String.length fmt <= n)%nat ->
  fields_in_range t ->
  fields_in_range (strptime rp fmt t).2
  /\ tm_year (strptime rp fmt t).2 = tm_year t.
Proof.
  induction n as [|n IH]; intros fmt rp t Hlen Ht.
  - destruct fmt; [done | cbn in Hlen; lia].
  - destruct fmt as [|c fmt']; [done|]. cbn [String.length] in Hlen.
    cbn [strptime].
    destruct (isspace c); [apply IH; [lia | done]|].
    destruct (Ascii.eqb c "%").
    + destruct fmt' as [|d fmt'']; [done|]. cbn [String.length] in Hlen.
      destruct (conversion_range d rp t Ht) as [Hr Hy].
      destruct (conversion d rp t) as [[rp'|] t']; cbn [snd] in *; [|done].
      destruct (IH fmt'' rp' t') as [Hr' Hy']; [lia | done |].
      split; [done | congruence].
    + destruct rp as [|r rp']; [done|].
      destruct (Ascii.eqb r c); [|done]. apply IH; [lia | done].
Qed.

Lemma initial_tm_range year : fields_in_range (initial_tm year).
Proof. unfold fields_in_range. cbn. lia. Qed.

(** [toSeconds] is [mktime] of a [tm] with every field in range. *)
Lemma toSeconds_fields gmtoff ts year :
  is_int (year - 1900) ->
  let t := (strptime ts timestamp_format (initial_tm year)).2 in
  toSeconds gmtoff ts year = mktime gmtoff t
  /\ fields_in_range t /\ tm_year t = year - 1900.
Proof.
  intros Hyear. cbv zeta.
  destruct (strptime_range (String.length timestamp_format) timestamp_format ts
              (initial_tm year)) as [Hr Hy]; [done | apply initial_tm_range |].
  unfold toSeconds.
  destruct (strptime ts timestamp_format (initial_tm year)) as [res t].
  cbn [snd] in *. split; [done|]. split; [done|].
  rewrite Hy. cbn. by apply wrap_int_id.
Qed.

Lemma month_cases mon :
  0 <= mon <= 11 ->
  mon = 0 \/ mon = 1 \/ mon = 2 \/ mon = 3 \/ mon = 4 \/ mon = 5 \/ mon = 6
  \/ mon = 7 \/ mon = 8 \/ mon = 9 \/ mon = 10 \/ mon = 11.
Proof. lia. Qed.

Ltac each_month H :=
  apply month_cases in H;
  destruct H as [-> | [-> | [-> | [-> | [-> | [-> | [-> | [-> | [-> | [-> | [-> | ->]]]]]]]]]]].

(** The table of [mktime] agrees with counting the months one by one. *)
Lemma mon_yday_days_before_month leap mon :
  0 <= mon <= 11 -> mon_yday leap mon = days_before_month leap mon.
Proof. intros H. each_month H; by destruct leap. Qed.

Lemma mon_yday_range leap mon :
  0 <= mon <= 11 -> 0 <= mon_yday leap mon <= 335.
Proof. intros H. each_month H; by destruct leap. Qed.

Lemma mon_yday_day_of_year leap mon mday :
  0 <= mon <= 11 ->
  mon_yday leap mon + mday - 1 = day_of_year leap mon mday.
Proof.
  intros H. unfold day_of_year. by rewrite mon_yday_days_before_month.
Qed.


(** [mktime] of a [tm] whose month is in range: the start of the year
    plus the second of the year, shifted by the zone. *)
Lemma mktime_second_of_year gmtoff t year :
  0 <= tm_mon t <= 11 ->
  tm_year t = year - 1900 ->
  mktime gmtoff t
  = days_before_year year * 86400 + second_of_year (leapyear year) t - gmtoff.
Proof.
  intros Hmon Hyear. unfold mktime, second_of_year.
  rewrite Hyear, Z.div_small, Z.mod_small by lia.
  replace (year - 1900 + 1900 + 0) with year by lia.
  rewrite <- mon_yday_day_of_year by done. lia.
Qed.



Lemma mktime_zone gmtoff t : mktime gmtoff t = mktime 0 t - gmtoff.
Proof. unfold mktime. lia. Qed.

Lemma toSeconds_zone gmtoff ts year :
  toSeconds gmtoff ts year = toSeconds 0 ts year - gmtoff.
Proof.
  unfold toSeconds. destruct (strptime ts timestamp_format (initial_tm year)).
  apply mktime_zone.
Qed.

(* ===================================================================== *)
(** ** The zone of the process *)
(* ===================================================================== *)

Lemma conversion_keeps_isdst d rp t :
  tm_isdst (conversion d rp t).2 = tm_isdst t.
Proof.
  unfold conversion.
  repeat match goal with
         | |- context [if ?b then _ else _] => destruct b
         | |- context [match ?o with Some _ => _ | None => _ end] =>
             destruct o as [[? ?]|]
         end; reflexivity.
Qed.

(** [strptime] never stores [tm_isdst]. *)
Lemma strptime_keeps_isdst (n : nat) : forall fmt rp t,
  (String.length fmt <= n)%nat ->
  tm_isdst (strptime rp fmt t).2 = tm_isdst t.
Proof.
  induction n as [|n IH]; intros fmt rp t Hlen.
  - destruct fmt; [done | cbn in Hlen; lia].
  - destruct fmt as [|c fmt']; [done|]. cbn [String.length] in Hlen.
    cbn [strptime].
    destruct (isspace c); [apply IH; lia|].
    destruct (Ascii.eqb c "%").
    + destruct fmt' as [|d fmt'']; [done|]. cbn [String.length] in Hlen.
      pose proof (conversion_keeps_isdst d rp t) as Hd.
      destruct (conversion d rp t) as [[rp'|] t']; cbn [snd] in *; [|done].
      rewrite IH by lia. done.
    + destruct rp as [|r rp']; [done|].
      destruct (Ascii.eqb r c); [|done]. apply IH; lia.
Qed.

(** In a zone of constant offset [toSeconds] is the count of the
    calendar shifted by the offset. *)
Lemma toSeconds_constant_offset {Lib : Type}
      (libc_mktime : Lib -> tm -> Z * Lib) (lib : Lib) gmtoff ts year :
  constant_offset libc_mktime year gmtoff ->
  is_int (year - 1900) ->
  (Tz.toSeconds libc_mktime lib ts year).1 = toSeconds gmtoff ts year.
Proof.
  intros Hzone Hyear.
  destruct (toSeconds_fields gmtoff ts year Hyear) as (E & Hr & Hy).
  pose proof (strptime_keeps_isdst (String.length timestamp_format)
                timestamp_format ts (initial_tm year) (le_n _)) as Hdst.
  rewrite E. unfold Tz.toSeconds.
  destruct (strptime ts timestamp_format (initial_tm year)) as [res t].
  cbn [snd] in *. by apply Hzone.
Qed.

Lemma processLine_constant_offset {Lib : Type}
      (libc_mktime : Lib -> tm -> Z * Lib) gmtoff
      (bannedIPs authorizedUsers : LookupMap) (st : LogState) (lib : Lib)
      (line : string) :
  constant_offset libc_mktime 2021 gmtoff ->
  (Tz.processLine libc_mktime bannedIPs authorizedUsers (st, lib) line).1
  = processLine gmtoff bannedIPs authorizedUsers st line.
Proof.
  intros Hzone. unfold Tz.processLine, processLine.
  destruct (bannedIPs !! f_ip (parseLine line (fields st))); [done|].
  unfold Tz.loginTime, loginTime.
  set (f := parseLine line (fields st)).
  set (ts := f_month f +:+ " " +:+ f_day f +:+ " " +:+ f_time f).
  assert (Hyear : is_int (2021 - 1900)) by (vm_compute; split; discriminate).
  pose proof (toSeconds_constant_offset libc_mktime lib gmtoff ts 2021
                Hzone Hyear) as E.
  destruct (Tz.toSeconds libc_mktime lib ts 2021) as [seconds lib'].
  cbn [fst] in E. subst seconds.
  destruct (frequencyHacking _ _ _) as [[|] lt']; reflexivity.
Qed.

Lemma run_loop_constant_offset {Lib : Type}
      (libc_mktime : Lib -> tm -> Z * Lib) gmtoff
      (bannedIPs authorizedUsers : LookupMap) (lines : list string) :
  constant_offset libc_mktime 2021 gmtoff ->
  forall (st : LogState) (lib : Lib),
    (Tz.run_loop libc_mktime bannedIPs authorizedUsers lines (st, lib)).1
    = run_loop gmtoff bannedIPs authorizedUsers lines st.
Proof.
  intros Hzone. unfold Tz.run_loop, run_loop.
  induction lines as [|line lines IH]; intros st lib; [done|].
  cbn [fold_left].
  pose proof (processLine_constant_offset libc_mktime gmtoff bannedIPs
                authorizedUsers st lib line Hzone) as E.
  destruct (Tz.processLine libc_mktime bannedIPs authorizedUsers (st, lib) line)
    as [st' lib'].
  cbn [fst] in E. rewrite <- E. apply IH.
Qed.

(** In a zone of constant offset the program is that of section
    [Program]. *)
Lemma processLogs_constant_offset {Lib : Type}
      (libc_mktime : Lib -> tm -> Z * Lib) gmtoff (lib : Lib)
      (lines : list string) (bannedIPs authorizedUsers : LookupMap) :
  constant_offset libc_mktime 2021 gmtoff ->
  (Tz.processLogs libc_mktime lib lines bannedIPs authorizedUsers).1
  = processLogs gmtoff lines bannedIPs authorizedUsers.
Proof.
  intros Hzone. unfold Tz.processLogs, processLogs.
  pose proof (run_loop_constant_offset libc_mktime gmtoff bannedIPs
                authorizedUsers lines Hzone initial_state lib) as E.
  destruct (Tz.run_loop libc_mktime bannedIPs authorizedUsers lines
              (initial_state, lib)) as [st lib'].
  cbn [fst] in E. by rewrite <- E.
Qed.

Lemma fixed_zone_constant_offset gmtoff year :
  constant_offset (fixed_zone gmtoff) year gmtoff.
Proof. intros lib t _ _ _. reflexivity. Qed.





(** The zone assumption of C6 is needed: where the clocks skip an hour,
    [mktime] fails for a timestamp in the skipped hour, and the -1 it
    returns comes before the ordinal of an earlier timestamp. *)
Example skipped_hour_breaks_order :
  (Tz.toSeconds skipping_zone tt "Oct 3 00:00:30" 2021).1 = 1633190430
  /\ (Tz.toSeconds skipping_zone tt "Oct 3 01:00:00" 2021).1 = -1.
Proof. vm_compute. done. Qed.

(** The validity hypothesis of C6 is needed: [strptime] accepts a 30th
    of February and [mktime] carries it into March. *)
Example february_30_is_march_2 :
  (strptime "Feb 30 00:00:00" timestamp_format (initial_tm 2021)).1
  = Some EmptyString
  /\ toSeconds 0 "Feb 30 00:00:00" 2021 = toSeconds 0 "Mar 2 00:00:00" 2021.
Proof. vm_compute. done. Qed.

Lemma strptime_conversion d fmt rp t :
  strptime rp (String "%" (String d fmt)) t
  = match conversion d rp t with
    | (Some rp', t') => strptime rp' fmt t'
    | (None, t') => (None, t')
    end.
Proof. reflexivity. Qed.

Lemma strptime_space fmt rp t :
  strptime rp (String " " fmt) t = strptime (skip_space rp) fmt t.
Proof. reflexivity. Qed.

Lemma strptime_colon fmt rp t :
  strptime rp (String ":" fmt) t
  = match rp with
    | String r rp' => if Ascii.eqb r ":" then strptime rp' fmt t else (None, t)
    | EmptyString => (None, t)
    end.
Proof. reflexivity. Qed.

(** A conversion that fails stores nothing. *)
Lemma conversion_failure d rp t t' : conversion d rp t = (None, t') -> t' = t.
Proof.
  unfold conversion.
  repeat match goal with
         | |- context [if ?b then _ else _] => destruct b
         | |- context [match ?o with Some _ => _ | None => _ end] =>
             destruct o as [[? ?]|]
         end; congruence.
Qed.

(** Only [%S] stores the seconds. *)
Lemma conversion_keeps_sec d rp t :
  Ascii.eqb d "S" = false -> tm_sec (conversion d rp t).2 = tm_sec t.
Proof.
  intros HS. unfold conversion. rewrite HS.
  repeat match goal with
         | |- context [if ?b then _ else _] => destruct b
         | |- context [match ?o with Some _ => _ | None => _ end] =>
             destruct o as [[? ?]|]
         end; reflexivity.
Qed.

(** When the timestamp format fails, the seconds were not stored. *)
Lemma strptime_failure_sec ts t :
  (strptime ts timestamp_format t).1 = None ->
  tm_sec (strptime ts timestamp_format t).2 = tm_sec t.
Proof.
  unfold timestamp_format. rewrite strptime_conversion.
  pose proof (conversion_keeps_sec "B" ts t eq_refl) as HB.
  destruct (conversion "B" ts t) as [[rp1|] t1]; cbn [snd] in HB; [|done].
  rewrite strptime_space, strptime_conversion.
  pose proof (conversion_keeps_sec "d" (skip_space rp1) t1 eq_refl) as Hd.
  destruct (conversion "d" (skip_space rp1) t1) as [[rp2|] t2];
    cbn [snd] in Hd; [|intros _; cbn; congruence].
  rewrite strptime_space, strptime_conversion.
  pose proof (conversion_keeps_sec "H" (skip_space rp2) t2 eq_refl) as HH.
  destruct (conversion "H" (skip_space rp2) t2) as [[rp3|] t3];
    cbn [snd] in HH; [|intros _; cbn; congruence].
  rewrite strptime_colon.
  destruct rp3 as [|r3 rp3]; [intros _; cbn; congruence|].
  destruct (Ascii.eqb r3 ":"); [|intros _; cbn; congruence].
  rewrite strptime_conversion.
  pose proof (conversion_keeps_sec "M" rp3 t3 eq_refl) as HM.
  destruct (conversion "M" rp3 t3) as [[rp4|] t4];
    cbn [snd] in HM; [|intros _; cbn; congruence].
  rewrite strptime_colon.
  destruct rp4 as [|r4 rp4]; [intros _; cbn; congruence|].
  destruct (Ascii.eqb r4 ":"); [|intros _; cbn; congruence].
  rewrite strptime_conversion.
  destruct (conversion "S" rp4 t4) as [[rp5|] t5] eqn:ES; [done|].
  apply conversion_failure in ES. subst t5. intros _. cbn. congruence.
Qed.

(** C9, as the program has it: for an input that [strptime] rejects
    the conversion neither fails nor marks the input.  The failure is
    ignored and the value returned is the one [mktime] returns for the
    fields stored before it, the others (the seconds among them) staying
    0 and all in their normal ranges: the value of every input, accepted
    or not, that leaves the same fields.  In a zone whose offset from UTC
    is constant around the assumed year that value is an ordinary
    ordinal, from 00:00:00 of the day before the assumed year on and less
    than 366 days after the year's start. *)
Theorem toSeconds_unparseable_is_ordinary {Lib : Type}
        (libc_mktime : Lib -> tm -> Z * Lib) (lib : Lib)
        (ts : string) (year : Z) :
  is_int (year - 1900) ->
  (strptime ts timestamp_format (initial_tm year)).1 = None ->
  let t := (strptime ts timestamp_format (initial_tm year)).2 in
  Tz.toSeconds libc_mktime lib ts year = libc_mktime lib t
  /\ fields_in_range t
  /\ tm_sec t = 0
  /\ (forall ts' : string,
        (strptime ts' timestamp_format (initial_tm year)).2 = t ->
        Tz.toSeconds libc_mktime lib ts' year
        = Tz.toSeconds libc_mktime lib ts year)
  /\ (forall gmtoff : Z,
        constant_offset libc_mktime year gmtoff ->
        (Tz.toSeconds libc_mktime lib ts year).1
        = days_before_year year * 86400
          + second_of_year (leapyear year) t - gmtoff
        /\ (days_before_year year - 1) * 86400
           <= (Tz.toSeconds libc_mktime lib ts year).1 + gmtoff
           < (days_before_year year + 366) * 86400).
Proof.
  intros Hyear Hfail. cbv zeta.
  destruct (toSeconds_fields 0 ts year Hyear) as (_ & Hr & Hy).
  pose proof (strptime_failure_sec ts (initial_tm year) Hfail) as Hsec.
  cbn [initial_tm tm_sec] in Hsec.
  assert (Hcall : forall ts' : string,
             Tz.toSeconds libc_mktime lib ts' year
             = libc_mktime lib
                 (strptime ts' timestamp_format (initial_tm year)).2).
  { intros ts'. unfold Tz.toSeconds.
    by destruct (strptime ts' timestamp_format (initial_tm year)). }
  set (t := (strptime ts timestamp_format (initial_tm year)).2) in *.
  split; [apply Hcall|]. split; [done|]. split; [done|].
  split; [intros ts' Hsame; by rewrite !Hcall, Hsame|].
  intros gmtoff Hzone.
  rewrite (toSeconds_constant_offset libc_mktime lib gmtoff) by done.
  destruct (toSeconds_fields gmtoff ts year Hyear) as (E & _ & _).
  fold t in E.
  assert (E' : toSeconds gmtoff ts year
               = days_before_year year * 86400
                 + second_of_year (leapyear year) t - gmtoff).
  { rewrite E. apply mktime_second_of_year; [apply Hr | done]. }
  split; [done|].
  rewrite E'. unfold second_of_year, day_of_year. rewrite Hsec.
  destruct Hr as (Hmon & Hday & Hhour & Hmin & _).
  rewrite <- mon_yday_days_before_month by done.
  pose proof (mon_yday_range (leapyear year) (tm_mon t) Hmon).
  lia.
Qed.

Lemma toSeconds_unparseable_is_ordinary_witness :
  Tz.toSeconds (fixed_zone 3600) tt "Jun 10 xx" 2021
  = fixed_zone 3600 tt (mk_tm 0 0 0 10 5 121 0)
  /\ Tz.toSeconds (fixed_zone 3600) tt "Jun 10 00:00:00" 2021
     = Tz.toSeconds (fixed_zone 3600) tt "Jun 10 xx" 2021
  /\ (days_before_year 2021 - 1) * 86400
     <= (Tz.toSeconds (fixed_zone 3600) tt "Jun 10 xx" 2021).1 + 3600
     < (days_before_year 2021 + 366) * 86400.
Proof.
  destruct (toSeconds_unparseable_is_ordinary (fixed_zone 3600) tt
              "Jun 10 xx" 2021)
    as (Hmk & _ & _ & Hsame & Hzone).
  - vm_compute. split; discriminate.
  - reflexivity.
  - split; [exact Hmk|]. split; [apply Hsame; reflexivity|].
    apply (Hzone 3600). intros lib t _ _ _. reflexivity.
Defined.

(** C9 as the claim words it fails: "Jun 10 xx" is rejected by
    [strptime], yet [toSeconds] returns for it the very ordinal of the
    well-formed "Jun 10 00:00:00". *)
Lemma unparseable_timestamp_counterexample :
  (strptime "Jun 10 xx" timestamp_format (initial_tm 2021)).1 = None
  /\ (strptime "Jun 10 00:00:00" timestamp_format (initial_tm 2021)).1
     = Some EmptyString
  /\ toSeconds 0 "Jun 10 xx" 2021 = 1623283200
  /\ toSeconds 0 "Jun 10 00:00:00" 2021 = 1623283200.
Proof. vm_compute. done. Qed.

(* ===================================================================== *)
(** ** A constant offset does not matter to the detection *)
(* ===================================================================== *)

Lemma record_seconds_shift g seconds userID (lt : LoginTimes) :
  record_seconds (seconds - g) userID (List.map (fun x => x - g) <$> lt)
  = List.map (fun x => x - g) <$> record_seconds seconds userID lt.
Proof.
  unfold record_seconds. rewrite lookup_fmap.
  destruct (lt !! userID) as [vec|]; cbn; rewrite fmap_insert; [|done].
  by rewrite List.map_app.
Qed.

Lemma long_sub_shift g a b : long_sub (a - g) (b - g) = long_sub a b.
Proof. unfold long_sub. f_equal. lia. Qed.

Lemma at_index_shift g vec i :
  0 <= i < Z.of_nat (List.length vec) ->
  at_index (List.map (fun x => x - g) vec) i = at_index vec i - g.
Proof.
  intros Hi. unfold at_index.
  rewrite (nth_indep _ 0 (0 - g)) by (rewrite List.length_map; lia).
  apply (List.map_nth (fun x => x - g)).
Qed.

Lemma frequencyHacking_shift g (lt : LoginTimes) (authorizedUsers : LookupMap) userID :
  frequencyHacking (List.map (fun x => x - g) <$> lt) authorizedUsers userID
  = ((frequencyHacking lt authorizedUsers userID).1,
     List.map (fun x => x - g) <$> (frequencyHacking lt authorizedUsers userID).2).
Proof.
  unfold frequencyHacking. destruct (authorizedUsers !! userID); [done|].
  unfold subscript. rewrite lookup_fmap.
  destruct (lt !! userID) as [vec|]; cbn.
  - rewrite List.length_map.
    destruct (3 <? Z.of_nat (List.length vec)) eqn:Hsize; [|done].
    apply Z.ltb_lt in Hsize.
    rewrite !at_index_shift, long_sub_shift by lia.
    by destruct (long_sub _ _ <=? 20).
  - change (3 <? Z.of_nat 0) with false. cbn. by rewrite fmap_insert.
Qed.

(** Two runs in zones [g] and UTC stay in step: same fields, counters
    and output, and login times that differ by [g] throughout. *)
Lemma processLine_zone g (bannedIPs authorizedUsers : LookupMap) st0 stg line :
  fields stg = fields st0 -> lineCount stg = lineCount st0 ->
  hackCount stg = hackCount st0 -> output stg = output st0 ->
  loginTimes stg = (List.map (fun x => x - g) <$> loginTimes st0) ->
  let st0' := processLine 0 bannedIPs authorizedUsers st0 line in
  let stg' := processLine g bannedIPs authorizedUsers stg line in
  fields stg' = fields st0' /\ lineCount stg' = lineCount st0'
  /\ hackCount stg' = hackCount st0' /\ output stg' = output st0'
  /\ loginTimes stg' = (List.map (fun x => x - g) <$> loginTimes st0').
Proof.
  intros Hf Hl Hh Ho Hlt. cbv zeta. unfold processLine.
  rewrite Hf, Hl, Hh, Ho, Hlt.
  destruct (bannedIPs !! f_ip (parseLine line (fields st0))); [done|].
  unfold loginTime. rewrite (toSeconds_zone g), record_seconds_shift,
    frequencyHacking_shift.
  destruct (frequencyHacking _ authorizedUsers _) as [[|] lt']; done.
Qed.

Lemma run_loop_zone g (bannedIPs authorizedUsers : LookupMap) lines :
  let st0 := run_loop 0 bannedIPs authorizedUsers lines initial_state in
  let stg := run_loop g bannedIPs authorizedUsers lines initial_state in
  fields stg = fields st0 /\ lineCount stg = lineCount st0
  /\ hackCount stg = hackCount st0 /\ output stg = output st0
  /\ loginTimes stg = (List.map (fun x => x - g) <$> loginTimes st0).
Proof.
  induction lines as [|line lines IH] using rev_ind; cbv zeta.
  - cbn. by rewrite fmap_empty.
  - rewrite !run_loop_snoc.
    destruct IH as (Hf & Hl & Hh & Ho & Hlt).
    by apply processLine_zone.
Qed.

Lemma processLogs_zone gmtoff (lines : list string)
      (bannedIPs authorizedUsers : LookupMap) :
  output (processLogs gmtoff lines bannedIPs authorizedUsers)
  = output (processLogs 0 lines bannedIPs authorizedUsers)
  /\ lineCount (processLogs gmtoff lines bannedIPs authorizedUsers)
     = lineCount (processLogs 0 lines bannedIPs authorizedUsers)
  /\ hackCount (processLogs gmtoff lines bannedIPs authorizedUsers)
     = hackCount (processLogs 0 lines bannedIPs authorizedUsers).
Proof.
  destruct (run_loop_zone gmtoff bannedIPs authorizedUsers lines)
    as (_ & Hl & Hh & Ho & _).
  unfold processLogs. cbn. by rewrite Hl, Hh, Ho.
Qed.

(** X1: what [processLogs] prints and counts is the same in any two
    zones whose offset from UTC is constant around 2021, UTC among them:
    a constant offset shifts every ordinal alike and the frequency rule
    only looks at differences. *)
Theorem detection_is_zone_independent {Lib1 Lib2 : Type}
        (mktime1 : Lib1 -> tm -> Z * Lib1) (mktime2 : Lib2 -> tm -> Z * Lib2)
        (gmtoff1 gmtoff2 : Z) (lib1 : Lib1) (lib2 : Lib2)
        (lines : list string) (bannedIPs authorizedUsers : LookupMap) :
  constant_offset mktime1 2021 gmtoff1 ->
  constant_offset mktime2 2021 gmtoff2 ->
  let st1 := (Tz.processLogs mktime1 lib1 lines bannedIPs authorizedUsers).1 in
  let st2 := (Tz.processLogs mktime2 lib2 lines bannedIPs authorizedUsers).1 in
  output st1 = output st2
  /\ lineCount st1 = lineCount st2
  /\ hackCount st1 = hackCount st2.
Proof.
  intros Hzone1 Hzone2. cbv zeta.
  rewrite (processLogs_constant_offset mktime1 gmtoff1) by done.
  rewrite (processLogs_constant_offset mktime2 gmtoff2) by done.
  destruct (processLogs_zone gmtoff1 lines bannedIPs authorizedUsers)
    as (-> & -> & ->).
  destruct (processLogs_zone gmtoff2 lines bannedIPs authorizedUsers)
    as (-> & -> & ->).
  done.
Qed.

Lemma detection_is_zone_independent_witness :
  output (Tz.processLogs (fixed_zone 3600) tt bob_lines ∅ ∅).1
  = output (Tz.processLogs (fixed_zone 0) tt bob_lines ∅ ∅).1.
Proof.
  apply (detection_is_zone_independent (fixed_zone 3600) (fixed_zone 0)
           3600 0 tt tt bob_lines ∅ ∅).
  - intros lib t _ _ _. reflexivity.
  - intros lib t _ _ _. reflexivity.
Defined.

(* ===================================================================== *)
(** ** End-to-end scenarios *)
(* ===================================================================== *)

(** Four logins of "bob" at 10:00:00, 10:00:05, 10:00:10 and
    10:00:18 from an IP that is not banned, nobody authorized: exactly the
    fourth line is flagged, 4 lines and 1 hack are reported. *)
Example scenario_fourth_login_flagged gmtoff :
  let st := processLogs gmtoff bob_lines {["10.0.0.5" := true]} ∅ in
  output st
  = [Frequency "Jun 10 10:00:18 host sshd[1]: Failed password for bob from 10.0.0.7";
     Summary 4 1]
  /\ lineCount st = 4 /\ hackCount st = 1.
Proof.
  cbv zeta.
  destruct (processLogs_zone gmtoff bob_lines {["10.0.0.5" := true]} ∅)
    as (-> & -> & ->).
  vm_compute. done.
Qed.

(** The same stream with "bob" authorized: nothing is flagged. *)
Example scenario_authorized_user gmtoff :
  let st := processLogs gmtoff bob_lines {["10.0.0.5" := true]}
                        {["bob" := true]} in
  output st = [Summary 4 0] /\ lineCount st = 4 /\ hackCount st = 0.
Proof.
  cbv zeta.
  destruct (processLogs_zone gmtoff bob_lines {["10.0.0.5" := true]}
              {["bob" := true]}) as (-> & -> & ->).
  vm_compute. done.
Qed.

(** One line from the banned IP: 1 hack, and the login history stays
    empty. *)
Example scenario_banned_ip gmtoff :
  let st := processLogs gmtoff [sample_line] {["10.0.0.5" := true]} ∅ in
  output st = [BannedIP sample_line; Summary 1 1]
  /\ hackCount st = 1
  /\ loginTimes st = ∅.
Proof. vm_compute. done. Qed.

Lemma main_zone gmtoff env argv : main gmtoff env argv = main 0 env argv.
Proof.
  unfold main. destruct argv as [|prog [|url rest]]; [done..|].
  destruct (breakDownURL url) as [[[host port] path]|]; [|done].
  destruct (loadLookup env "banned_ips.txt") as [bannedIPs|]; [|done].
  destruct (loadLookup env "authorized_users.txt") as [authorizedUsers|]; [|done].
  f_equal. apply processLogs_zone.
Qed.

(** A whole run of [main]: the request goes to the resolved host,
    the response header is skipped up to its blank line, and the body is
    processed. *)
Example main_end_to_end gmtoff :
  main gmtoff serving_env ["detect"; "http://host.example.com/logs/a.txt"]%string
  = Exit0 (mk_conn "host.example.com" "80"
             ("GET /logs/a.txt HTTP/1.1" +:+ CRLF +:+ "Host: host.example.com"
              +:+ CRLF +:+ "Connection: Close" +:+ CRLF +:+ CRLF))
          [Frequency "Jun 10 10:00:18 host sshd[1]: Failed password for bob from 10.0.0.7";
           Summary 4 1].
Proof. rewrite main_zone. vm_compute. reflexivity. Qed.

(** With fewer than 2 arguments [main] prints the usage message and
    returns 1, before any URL is looked at. *)
Example main_usage gmtoff (env : Env) (prog : string) :
  main gmtoff env [] = ExitUsage /\ main gmtoff env [prog] = ExitUsage.
Proof. done. Qed.

(** X14: when a lookup file cannot be opened, [loadLookup] throws and
    [main] ends by that exception, after the connection was made and
    before any log line is processed. *)
Theorem missing_lookup_file_is_fatal gmtoff (env : Env) (prog url : string)
        (host port path fileName : string) :
  breakDownURL url = Some (host, port, path) ->
  fileName = "banned_ips.txt"%string \/ fileName = "authorized_users.txt"%string ->
  file env fileName = None ->
  loadLookup env fileName = None
  /\ main gmtoff env [prog; url] = Terminated (Some (setupDownload host path "80")).
Proof.
  intros Hurl Hname Hfile.
  assert (Hload : loadLookup env fileName = None).
  { unfold loadLookup. by rewrite Hfile. }
  split; [done|]. unfold main. rewrite Hurl.
  destruct Hname as [-> | ->]; rewrite Hload; [done|].
  by destruct (loadLookup env "banned_ips.txt").
Qed.

Lemma missing_lookup_file_is_fatal_witness :
  main 0 bare_env ["detect"; "http://host.example.com/logs/a.txt"]%string
  = Terminated (Some (setupDownload "host.example.com" "/logs/a.txt" "80")).
Proof.
  apply (missing_lookup_file_is_fatal 0 bare_env "detect"
           "http://host.example.com/logs/a.txt"
           "host.example.com" "80" "/logs/a.txt" "banned_ips.txt").
  - reflexivity.
  - left. reflexivity.
  - reflexivity.
Defined.

(** The text of the output lines. *)
Example render_summary :
  render (Summary 4 1)
  = "Processed 4 lines. Found 1 possible hacking attempts."%string
  /\ render (BannedIP "x") = "Hacking due to banned IP. Line: x"%string
  /\ render (Frequency "x") = "Hacking due to frequency. Line: x"%string.
Proof. vm_compute. done. Qed.

(** X13: the members of a loaded set are exactly the whitespace separated
    words of the file; a word that occurs twice is one member. *)
Theorem loadLookup_members (env : Env) (fileName text : string) :
  file env fileName = Some text ->
  exists lookup : LookupMap,
    loadLookup env fileName = Some lookup
    /\ forall w, lookup !! w = Some true <-> In w (words text).
Proof.
  intros Hfile. unfold loadLookup. rewrite Hfile. eexists. split; [done|].
  intros w.
  assert (Hgen : forall (ws : list string) (m : LookupMap),
             fold_left (fun lookup entry => <[entry := true]> lookup) ws m !! w
             = Some true <-> In w ws \/ m !! w = Some true).
  { induction ws as [|x ws IH]; intros m; cbn.
    - tauto.
    - rewrite IH. destruct (decide (x = w)) as [->|Hne].
      + rewrite lookup_insert_eq. tauto.
      + rewrite lookup_insert_ne by done. tauto. }
  rewrite Hgen, lookup_empty. intuition discriminate.
Qed.

Lemma loadLookup_members_witness :
  exists lookup : LookupMap,
    loadLookup sample_env "banned_ips.txt" = Some lookup
    /\ forall w, lookup !! w = Some true <-> In w ["10.0.0.5"%string].
Proof.
  apply (loadLookup_members sample_env "banned_ips.txt" "10.0.0.5").
  reflexivity.
Defined.

(* ===================================================================== *)
(** ** Words and lines *)
(* ===================================================================== *)

Lemma append_cons c s t : String c s +:+ t = String c (s +:+ t).
Proof. reflexivity. Qed.

Lemma append_nil_r s : s +:+ EmptyString = s.
Proof. induction s as [|c s IH]; [done|]. by rewrite append_cons, IH. Qed.

Lemma append_assoc a b c : (a +:+ b) +:+ c = a +:+ (b +:+ c).
Proof. induction a as [|x a IH]; [done|]. by rewrite !append_cons, IH. Qed.

Lemma length_append a b :
  String.length (a +:+ b) = (String.length a + String.length b)%nat.
Proof.
  induction a as [|x a IH]; [done|]. rewrite append_cons. cbn. by rewrite IH.
Qed.

Lemma string_of_rev_chars w :
  string_of_list_ascii (rev (rev (list_ascii_of_string w))) = w.
Proof. by rewrite rev_involutive, string_of_list_ascii_of_string. Qed.

Lemma words_from_word w : forall s cur,
  Forall (fun c => isspace c = false) (list_ascii_of_string w) ->
  words_from cur (w +:+ s) = words_from (rev (list_ascii_of_string w) ++ cur) s.
Proof.
  induction w as [|c w IH]; intros s cur Hw; [done|].
  cbn in Hw. apply Forall_cons in Hw as [Hc Hw].
  simpl. rewrite Hc, IH by done.
  cbn [list_ascii_of_string rev]. by rewrite <- app_assoc.
Qed.

Lemma words_from_space c s cur :
  isspace c = true -> cur <> [] ->
  words_from cur (String c s)
  = string_of_list_ascii (rev cur) :: words_from [] s.
Proof. intros Hc Hcur. cbn. rewrite Hc. by destruct cur. Qed.

Lemma is_word_chars w :
  is_word w -> rev (list_ascii_of_string w) <> [].
Proof.
  intros [Hne _] Hrev. apply Hne.
  destruct w; [done|]. cbn in Hrev.
  apply app_eq_nil in Hrev as [_ Hrev]. discriminate.
Qed.

(** Words joined by single spaces are read back one by one. *)
Lemma words_concat ws :
  Forall is_word ws -> words (String.concat " " ws) = ws.
Proof.
  unfold words. induction ws as [|w ws IH]; intros Hws; [done|].
  apply Forall_cons in Hws as [Hw Hws].
  destruct ws as [|w' ws].
  - cbn [String.concat].
    rewrite <- (append_nil_r w) at 1.
    rewrite words_from_word by apply Hw. cbn. rewrite app_nil_r.
    pose proof (is_word_chars w Hw).
    destruct (rev (list_ascii_of_string w)) eqn:E; [done|].
    by rewrite <- E, string_of_rev_chars.
  - change (String.concat " " (w :: w' :: ws))
      with (w +:+ String " " (String.concat " " (w' :: ws))).
    rewrite words_from_word by apply Hw. rewrite app_nil_r.
    rewrite words_from_space; [|done|by apply is_word_chars].
    by rewrite string_of_rev_chars, IH.
Qed.

Lemma words_from_trailing_space c : forall s cur,
  isspace c = true ->
  words_from cur (s +:+ String c EmptyString) = words_from cur s.
Proof.
  intros s cur Hc. revert cur.
  induction s as [|d s IH]; intros cur.
  - change (words_from cur (String c EmptyString) = words_from cur EmptyString).
    cbn. rewrite Hc. by destruct cur.
  - rewrite append_cons. cbn.
    destruct (isspace d); [|apply IH]. destruct cur; by rewrite IH.
Qed.

Lemma lines_from_line l : forall s cur,
  is_line l ->
  lines_from cur (l +:+ String "010" s)
  = string_of_list_ascii (rev (rev (list_ascii_of_string l) ++ cur))
    :: lines_from [] s.
Proof.
  induction l as [|c l IH]; intros s cur Hl; [done|].
  apply Forall_cons in Hl as [Hc Hl].
  simpl. rewrite Hc, IH by done.
  cbn [list_ascii_of_string rev]. by rewrite <- app_assoc.
Qed.

Lemma lines_from_last l : forall cur,
  is_line l ->
  rev (list_ascii_of_string l) ++ cur <> [] ->
  lines_from cur l
  = [string_of_list_ascii (rev (rev (list_ascii_of_string l) ++ cur))].
Proof.
  induction l as [|c l IH]; intros cur Hl Hne.
  - cbn in *. by destruct cur.
  - apply Forall_cons in Hl as [Hc Hl]. cbn [lines_from]. rewrite Hc.
    cbn [list_ascii_of_string rev] in *. rewrite <- app_assoc in *.
    by apply IH.
Qed.

(** [getline] reads back what was written line by line: newline
    terminated lines come back one by one, and a last line without its
    newline still counts when it is not empty. *)
Lemma getlines_unlines (lines : list string) (last : string) :
  Forall is_line lines ->
  is_line last ->
  getlines (unlines lines) = lines
  /\ (last <> EmptyString ->
      getlines (unlines lines +:+ last) = lines ++ [last]).
Proof.
  intros Hlines Hlast. unfold getlines.
  induction lines as [|l lines IH].
  - split; [done|]. intros Hne. cbn.
    rewrite lines_from_last; [|done|].
    + by rewrite app_nil_r, string_of_rev_chars.
    + rewrite app_nil_r. destruct last; [done|]. cbn.
      intros H. apply app_eq_nil in H as [_ H]. discriminate.
  - apply Forall_cons in Hlines as [Hl Hlines].
    destruct (IH Hlines) as [IH1 IH2].
    cbn [unlines foldr]. fold (unlines lines).
    split.
    + rewrite lines_from_line by done.
      by rewrite app_nil_r, string_of_rev_chars, IH1.
    + intros Hne.
      rewrite append_assoc, append_cons.
      rewrite lines_from_line by done.
      by rewrite app_nil_r, string_of_rev_chars, IH2.
Qed.

(* ===================================================================== *)
(** ** The extraction statement *)
(* ===================================================================== *)

(** X2: the extraction statement of [processLogs] reads a line of at
    least 11 words by position: month, day and time are the first three
    words, the user is the 9th and the IP the 11th; whatever follows the
    11th word is ignored, and so is the value every variable had before. *)
Theorem parseLine_by_position
        (month day time d1 d2 d3 d4 d5 userID d6 ip : string)
        (more : list string) (f : Fields) :
  Forall is_word
         ([month; day; time; d1; d2; d3; d4; d5; userID; d6; ip] ++ more) ->
  parseLine
    (String.concat " "
       ([month; day; time; d1; d2; d3; d4; d5; userID; d6; ip] ++ more)) f
  = mk_fields month day time userID ip d6.
Proof.
  intros Hws. unfold parseLine. by rewrite (words_concat _ Hws).
Qed.

Lemma parseLine_by_position_witness :
  parseLine
    (String.concat " "
       (["Jun"; "10"; "03:32:36"; "host"; "sshd[1]:"; "Failed"; "password";
         "for"; "bob"; "from"; "10.0.0.5"]%string
        ++ ["port"; "22"; "ssh2"]%string))
    (mk_fields "a" "b" "c" "d" "e" "f")
  = mk_fields "Jun" "10" "03:32:36" "bob" "10.0.0.5" "from".
Proof.
  apply (parseLine_by_position "Jun" "10" "03:32:36" "host" "sshd[1]:"
           "Failed" "password" "for" "bob" "from" "10.0.0.5"
           ["port"; "22"; "ssh2"]%string).
  repeat constructor; discriminate.
Defined.

Lemma parseLine_cr line f : parseLine (line +:+ CR) f = parseLine line f.
Proof.
  unfold parseLine, words, CR. by rewrite words_from_trailing_space.
Qed.

Lemma processLine_cr gmtoff (bannedIPs authorizedUsers : LookupMap) st st' line :
  fields st' = fields st -> lineCount st' = lineCount st ->
  hackCount st' = hackCount st -> loginTimes st' = loginTimes st ->
  output st' = with_cr <$> output st ->
  let s1 := processLine gmtoff bannedIPs authorizedUsers st line in
  let s2 := processLine gmtoff bannedIPs authorizedUsers st' (line +:+ CR) in
  fields s2 = fields s1 /\ lineCount s2 = lineCount s1
  /\ hackCount s2 = hackCount s1 /\ loginTimes s2 = loginTimes s1
  /\ output s2 = with_cr <$> output s1.
Proof.
  intros Hf Hl Hh Hlt Ho. cbv zeta. unfold processLine.
  rewrite parseLine_cr, Hf, Hl, Hh, Hlt, Ho.
  destruct (bannedIPs !! f_ip (parseLine line (fields st))).
  - cbn. by rewrite fmap_app.
  - destruct (frequencyHacking _ authorizedUsers _) as [[|] lt']; cbn;
      by rewrite ?fmap_app.
Qed.

(** X3: a log whose lines end in CR LF is judged like the same log with
    bare LF: the carriage return left at the end of each line is skipped
    as white space, so the fields, the counts and the flags are the same;
    only the echoed lines carry the carriage return. *)
Theorem processLogs_crlf gmtoff (lines : list string)
        (bannedIPs authorizedUsers : LookupMap) :
  let s1 := processLogs gmtoff lines bannedIPs authorizedUsers in
  let s2 := processLogs gmtoff ((fun l => l +:+ CR) <$> lines)
                        bannedIPs authorizedUsers in
  lineCount s2 = lineCount s1
  /\ hackCount s2 = hackCount s1
  /\ loginTimes s2 = loginTimes s1
  /\ output s2 = with_cr <$> output s1.
Proof.
  cbv zeta.
  assert (Hloop :
    let r1 := run_loop gmtoff bannedIPs authorizedUsers lines initial_state in
    let r2 := run_loop gmtoff bannedIPs authorizedUsers
                       ((fun l => l +:+ CR) <$> lines) initial_state in
    fields r2 = fields r1 /\ lineCount r2 = lineCount r1
    /\ hackCount r2 = hackCount r1 /\ loginTimes r2 = loginTimes r1
    /\ output r2 = with_cr <$> output r1).
  { induction lines as [|line lines IH] using rev_ind; cbv zeta; [done|].
    rewrite fmap_app. cbn [fmap list_fmap]. rewrite !run_loop_snoc.
    destruct IH as (Hf & Hl & Hh & Hlt & Ho). by apply processLine_cr. }
  destruct Hloop as (_ & Hl & Hh & Hlt & Ho).
  unfold processLogs. cbn. rewrite Hl, Hh, Hlt, Ho.
  by rewrite fmap_app.
Qed.

(* ===================================================================== *)
(** ** The response header *)
(* ===================================================================== *)

Lemma skip_header_split hdrs sep body :
  Forall (fun h => blank h = false) hdrs ->
  blank sep = true ->
  skip_header (hdrs ++ sep :: body) = body.
Proof.
  intros Hhdrs Hsep. induction hdrs as [|h hdrs IH]; cbn.
  - unfold blank in Hsep. by rewrite Hsep.
  - apply Forall_cons in Hhdrs as [Hh Hhdrs]. unfold blank in Hh.
    rewrite Hh. by apply IH.
Qed.

Lemma skip_header_no_blank lines :
  Forall (fun h => blank h = false) lines -> skip_header lines = [].
Proof.
  induction lines as [|h lines IH]; intros Hall; [done|].
  apply Forall_cons in Hall as [Hh Hall]. cbn. unfold blank in Hh.
  rewrite Hh. by apply IH.
Qed.

Lemma blank_is_line sep : blank sep = true -> is_line sep.
Proof.
  unfold blank. intros H. apply orb_true_iff in H as [H|H];
    apply String.eqb_eq in H; subst; repeat constructor.
Qed.

(** X4: a whole run of [main].  When the URL resolves and both lookup
    files load, the request goes to the resolved host on port 80, the
    lines of the reply up to and including the first empty line (or lone
    carriage return) are dropped, and the output is that of [processLogs]
    on the lines after it. *)
Theorem main_processes_body gmtoff (env : Env) (prog url : string)
        (rest : list string) (host port path : string)
        (bannedIPs authorizedUsers : LookupMap)
        (hdrs : list string) (sep : string) (body : list string) :
  breakDownURL url = Some (host, port, path) ->
  loadLookup env "banned_ips.txt" = Some bannedIPs ->
  loadLookup env "authorized_users.txt" = Some authorizedUsers ->
  reply env (setupDownload host path "80") = unlines (hdrs ++ sep :: body) ->
  Forall is_line hdrs -> Forall (fun h => blank h = false) hdrs ->
  blank sep = true ->
  Forall is_line body ->
  main gmtoff env (prog :: url :: rest)
  = Exit0 (setupDownload host path "80")
          (output (processLogs gmtoff body bannedIPs authorizedUsers)).
Proof.
  intros Hurl Hban Hauth Hreply Hhl Hhb Hsep Hbody.
  unfold main. rewrite Hurl, Hban, Hauth, Hreply.
  destruct (getlines_unlines (hdrs ++ sep :: body) EmptyString) as [-> _].
  - apply Forall_app. split; [done|].
    constructor; [by apply blank_is_line | done].
  - constructor.
  - by rewrite skip_header_split.
Qed.

Lemma main_processes_body_witness :
  main 0 serving_env ["detect"; "http://host.example.com/logs/a.txt"]%string
  = Exit0 (setupDownload "host.example.com" "/logs/a.txt" "80")
          (output (processLogs 0 bob_lines {["10.0.0.5" := true]}
                               {["alice" := true]})).
Proof.
  apply (main_processes_body 0 serving_env "detect"
           "http://host.example.com/logs/a.txt" []
           "host.example.com" "80" "/logs/a.txt"
           {["10.0.0.5" := true]} {["alice" := true]}
           ["HTTP/1.1 200 OK" +:+ CR; "Content-Type: text/plain" +:+ CR]
           CR bob_lines).
  - reflexivity.
  - reflexivity.
  - reflexivity.
  - reflexivity.
  - repeat constructor.
  - repeat constructor.
  - reflexivity.
  - repeat constructor.
Defined.

(** X5: when the reply holds no empty line (and so too when there is no
    reply at all, as after a failed connection), every line is taken for
    a header line and nothing is left to process: the program reports 0
    lines and 0 hacks and exits with code 0. *)
Theorem main_without_blank_line gmtoff (env : Env) (prog url : string)
        (rest : list string) (host port path : string)
        (bannedIPs authorizedUsers : LookupMap) :
  breakDownURL url = Some (host, port, path) ->
  loadLookup env "banned_ips.txt" = Some bannedIPs ->
  loadLookup env "authorized_users.txt" = Some authorizedUsers ->
  Forall (fun h => blank h = false)
         (getlines (reply env (setupDownload host path "80"))) ->
  main gmtoff env (prog :: url :: rest)
  = Exit0 (setupDownload host path "80") [Summary 0 0].
Proof.
  intros Hurl Hban Hauth Hnone.
  unfold main. rewrite Hurl, Hban, Hauth.
  by rewrite skip_header_no_blank.
Qed.

Lemma main_without_blank_line_witness :
  main 0 sample_env ["detect"; "http://host.example.com/logs/a.txt"]%string
  = Exit0 (setupDownload "host.example.com" "/logs/a.txt" "80") [Summary 0 0].
Proof.
  apply (main_without_blank_line 0 sample_env "detect"
           "http://host.example.com/logs/a.txt" []
           "host.example.com" "80" "/logs/a.txt"
           {["10.0.0.5" := true]} {["alice" := true]});
    try reflexivity.
  constructor.
Defined.

(* ===================================================================== *)
(** ** Resolving well-formed URLs *)
(* ===================================================================== *)

Lemma size_append a b : size (a +:+ b) = size a + size b.
Proof. unfold size. rewrite length_append. lia. Qed.

Lemma size_cons c s : size (String c s) = 1 + size s.
Proof. unfold size. cbn [String.length]. lia. Qed.

Lemma substring_app_drop a : forall n b,
  String.substring (String.length a) n (a +:+ b) = String.substring 0 n b.
Proof. induction a as [|x a IH]; intros n b; [done|]. apply IH. Qed.

Lemma substring_app_take a : forall b,
  String.substring 0 (String.length a) (a +:+ b) = a.
Proof.
  induction a as [|x a IH]; intros b; [by destruct b|].
  rewrite append_cons. cbn. by rewrite IH.
Qed.

Lemma substr_app_drop a b :
  size (a +:+ b) < npos -> substr (a +:+ b) (size a) npos = Some b.
Proof.
  intros Hsize. unfold substr. rewrite size_append in *.
  pose proof (size_nonneg a). pose proof (size_nonneg b).
  destruct (size a + size b <? size a) eqn:E; [apply Z.ltb_lt in E; lia|].
  rewrite Z.min_r by lia.
  replace (Z.to_nat (size a)) with (String.length a) by (unfold size; lia).
  replace (Z.to_nat (size a + size b - size a)) with (String.length b)
    by (unfold size; lia).
  by rewrite substring_app_drop, substring_whole.
Qed.

Lemma substr_app_take a b : substr (a +:+ b) 0 (size a) = Some a.
Proof.
  unfold substr. rewrite size_append.
  pose proof (size_nonneg a). pose proof (size_nonneg b).
  destruct (size a + size b <? 0) eqn:E; [apply Z.ltb_lt in E; lia|].
  rewrite Z.min_l by lia.
  replace (Z.to_nat (size a)) with (String.length a) by (unfold size; lia).
  change (Z.to_nat 0) with 0%nat. by rewrite substring_app_take.
Qed.

Lemma prefix_nil s : String.prefix EmptyString s = true.
Proof. by destruct s. Qed.

Lemma prefix_char c d s :
  String.prefix (String c EmptyString) (String d s)
  = if Ascii.ascii_dec c d then true else false.
Proof. cbn. destruct (Ascii.ascii_dec c d); [apply prefix_nil | done]. Qed.

(** [find] of a character that first occurs right after [s]. *)
Lemma find_char_app c s : forall rest i,
  ~ In c (list_ascii_of_string s) ->
  find_from (String c EmptyString) (s +:+ String c rest) i = i + size s.
Proof.
  induction s as [|d s IH]; intros rest i Hin.
  - change (EmptyString +:+ String c rest) with (String c rest).
    cbn [find_from]. rewrite prefix_char.
    destruct (Ascii.ascii_dec c c); [|done]. unfold size. cbn. lia.
  - rewrite append_cons. cbn [find_from]. rewrite prefix_char.
    destruct (Ascii.ascii_dec c d) as [->|Hne].
    + exfalso. apply Hin. by left.
    + rewrite IH; [rewrite size_cons; lia|]. intros H. apply Hin. by right.
Qed.

(** [find] of a character that does not occur. *)
Lemma find_char_absent c s : forall i,
  ~ In c (list_ascii_of_string s) ->
  find_from (String c EmptyString) s i = npos.
Proof.
  induction s as [|d s IH]; intros i Hin; [done|].
  cbn [find_from]. rewrite prefix_char.
  destruct (Ascii.ascii_dec c d) as [->|Hne].
  - exfalso. apply Hin. by left.
  - apply IH. intros H. apply Hin. by right.
Qed.

(** When [find] of a character fails, the character does not occur. *)
Lemma find_char_npos c s : forall i,
  0 <= i -> i + size s < npos ->
  find_from (String c EmptyString) s i = npos ->
  ~ In c (list_ascii_of_string s).
Proof.
  induction s as [|d s IH]; intros i Hi Hsize Hfind; [by intros []|].
  cbn [find_from] in Hfind. rewrite prefix_char in Hfind.
  rewrite size_cons in Hsize. pose proof (size_nonneg s).
  destruct (Ascii.ascii_dec c d) as [->|Hne]; [lia|].
  intros [Heq|Hin]; [congruence|].
  by apply (IH (i + 1)); [lia | lia | |].
Qed.

(** [find] of the separator after a scheme that holds no '/'. *)
Lemma find_separator scheme : forall rest i,
  ~ In "/"%char (list_ascii_of_string scheme) ->
  find_from "//" (scheme +:+ "//" +:+ rest) i = i + size scheme.
Proof.
  induction scheme as [|d s IH]; intros rest i Hin.
  - change (EmptyString +:+ "//" +:+ rest) with (String "/" (String "/" rest)).
    cbn [find_from String.prefix].
    destruct (Ascii.ascii_dec "/" "/"); [|done].
    rewrite prefix_nil. unfold size. cbn. lia.
  - rewrite append_cons. cbn [find_from String.prefix].
    destruct (Ascii.ascii_dec "/" d) as [<-|Hne].
    + exfalso. apply Hin. by left.
    + rewrite IH; [rewrite size_cons; lia|]. intros H. apply Hin. by right.
Qed.

(** The host part of a URL with a scheme free of '/'. *)
Lemma host_part scheme rest :
  ~ In "/"%char (list_ascii_of_string scheme) ->
  size (scheme +:+ "//" +:+ rest) < npos ->
  substr (scheme +:+ "//" +:+ rest)
         (size_add (find (scheme +:+ "//" +:+ rest) "//") 2) npos
  = Some rest.
Proof.
  intros Hscheme Hsize. unfold find. rewrite find_separator by done.
  pose proof (size_nonneg scheme). pose proof (size_nonneg rest).
  rewrite <- append_assoc in *.
  rewrite size_append in Hsize.
  assert (Hs2 : size (scheme +:+ "//") = size scheme + 2).
  { rewrite size_append. reflexivity. }
  replace (size_add (0 + size scheme) 2) with (size (scheme +:+ "//")).
  - apply substr_app_drop. rewrite size_append. lia.
  - rewrite Hs2. unfold size_add, size_modulus. rewrite Z.mod_small; [lia|].
    unfold npos, size_modulus in Hsize. lia.
Qed.

Lemma bind_some {A B : Type} (x : A) (f : A -> option B) : Some x ≫= f = f x.
Proof. reflexivity. Qed.

Lemma chars_append a b :
  list_ascii_of_string (a +:+ b)
  = list_ascii_of_string a ++ list_ascii_of_string b.
Proof.
  induction a as [|x a IH]; [done|]. rewrite append_cons. cbn. by rewrite IH.
Qed.

(** X6: a URL of the form scheme//host:port/rest resolves to the host,
    the port and the path "/rest", when the scheme holds no '/', the host
    neither ':' nor '/', and the port no '/'. *)
Theorem breakDownURL_with_port (scheme host port rest : string) :
  ~ In "/"%char (list_ascii_of_string scheme) ->
  ~ In ":"%char (list_ascii_of_string host) ->
  ~ In "/"%char (list_ascii_of_string host) ->
  ~ In "/"%char (list_ascii_of_string port) ->
  size (scheme +:+ "//" +:+ host +:+ ":" +:+ port +:+ String "/" rest) < npos ->
  breakDownURL (scheme +:+ "//" +:+ host +:+ ":" +:+ port +:+ String "/" rest)
  = Some (host, port, String "/" rest).
Proof.
  intros Hscheme Hcolon Hslash Hport Hsize.
  set (hostName := host +:+ ":" +:+ port +:+ String "/" rest) in *.
  rewrite (breakDownURL_host_part _ hostName) by (by apply host_part).
  assert (Hsize' : size hostName < npos).
  { rewrite (size_append scheme), (size_append "//") in Hsize.
    pose proof (size_nonneg scheme). change (size "//") with 2 in Hsize. lia. }
  pose proof (size_nonneg host). pose proof (size_nonneg port).
  pose proof (size_nonneg rest).
  assert (Hfc : find_char hostName ":" = size host).
  { unfold find_char, find, hostName.
    change (host +:+ ":" +:+ port +:+ String "/" rest)
      with (host +:+ String ":" (port +:+ String "/" rest)).
    rewrite find_char_app by done. lia. }
  assert (Hfs : find_char hostName "/" = size (host +:+ ":" +:+ port)).
  { unfold find_char, find, hostName.
    rewrite <- (append_assoc host), <- (append_assoc (host +:+ ":")).
    rewrite (append_assoc host).
    rewrite find_char_app; [apply Z.add_0_l|].
    rewrite !chars_append, !in_app_iff. cbn. intros [?|[[?|[]]|?]]; done. }
  assert (Hsz : size host + 1 <= size hostName).
  { unfold hostName.
    change (host +:+ ":" +:+ port +:+ String "/" rest)
      with (host +:+ String ":" (port +:+ String "/" rest)).
    rewrite size_append, size_cons.
    pose proof (size_nonneg (port +:+ String "/" rest)). lia. }
  rewrite Hfc.
  replace (negb (size host =? npos)) with true
    by (symmetry; apply negb_true_iff, Z.eqb_neq; lia).
  assert (Hport0 : substr hostName (size_add (size host) 1) npos
                   = Some (port +:+ String "/" rest)).
  { replace (size_add (size host) 1) with (size (host +:+ ":")).
    - unfold hostName. rewrite <- (append_assoc host).
      apply substr_app_drop. rewrite append_assoc. by fold hostName.
    - rewrite size_append. change (size ":") with 1.
      unfold size_add, size_modulus. rewrite Z.mod_small; [done|].
      unfold npos, size_modulus in Hsize'. clear -Hsize' Hsz H. lia. }
  assert (Hport' : substr (port +:+ String "/" rest) 0
                          (find_char (port +:+ String "/" rest) "/")
                   = Some port).
  { unfold find_char, find. rewrite find_char_app by done.
    rewrite Z.add_0_l. apply substr_app_take. }
  assert (Hpath : substr hostName (size (host +:+ ":" +:+ port)) npos
                  = Some (String "/" rest)).
  { unfold hostName.
    rewrite <- (append_assoc host), <- (append_assoc (host +:+ ":")).
    rewrite (append_assoc host).
    apply substr_app_drop.
    rewrite (append_assoc host), (append_assoc ":"). by fold hostName. }
  assert (Hhost : substr hostName 0 (size host) = Some host).
  { unfold hostName. apply substr_app_take. }
  cbv zeta. rewrite Hport0, bind_some, Hport', bind_some, bind_some.
  cbv beta iota. by rewrite Hfs, Hpath, bind_some, Hhost.
Qed.

Lemma breakDownURL_with_port_witness :
  breakDownURL ("https:" +:+ "//" +:+ "logs.example.org" +:+ ":" +:+ "8443"
                +:+ String "/" "var/auth.log?day=1:2")
  = Some ("logs.example.org", "8443", String "/" "var/auth.log?day=1:2")%string.
Proof.
  apply breakDownURL_with_port.
  - vm_compute. intuition discriminate.
  - vm_compute. intuition discriminate.
  - vm_compute. intuition discriminate.
  - vm_compute. intuition discriminate.
  - reflexivity.
Defined.

(** X7: a URL of the form scheme//host/rest with no ':' after the
    separator resolves to the host, the default port "80" and the path
    "/rest". *)
Theorem breakDownURL_default_port (scheme host rest : string) :
  ~ In "/"%char (list_ascii_of_string scheme) ->
  ~ In ":"%char (list_ascii_of_string host) ->
  ~ In "/"%char (list_ascii_of_string host) ->
  ~ In ":"%char (list_ascii_of_string rest) ->
  size (scheme +:+ "//" +:+ host +:+ String "/" rest) < npos ->
  breakDownURL (scheme +:+ "//" +:+ host +:+ String "/" rest)
  = Some (host, "80"%string, String "/" rest).
Proof.
  intros Hscheme Hcolon Hslash Hrest Hsize.
  set (hostName := host +:+ String "/" rest) in *.
  rewrite (breakDownURL_host_part _ hostName) by (by apply host_part).
  assert (Hsize' : size hostName < npos).
  { rewrite (size_append scheme), (size_append "//") in Hsize.
    pose proof (size_nonneg scheme). change (size "//") with 2 in Hsize. lia. }
  assert (Hfc : find_char hostName ":" = npos).
  { unfold find_char, find, hostName. apply find_char_absent.
    rewrite chars_append, in_app_iff. cbn. intros [?|[?|?]]; done. }
  assert (Hfs : find_char hostName "/" = size host).
  { unfold find_char, find, hostName. rewrite find_char_app by done. lia. }
  assert (Hpath : substr hostName (size host) npos = Some (String "/" rest)).
  { unfold hostName. by apply substr_app_drop. }
  assert (Hhost : substr hostName 0 (size host) = Some host).
  { unfold hostName. apply substr_app_take. }
  rewrite Hfc, Hfs. change (negb (npos =? npos)) with false. cbv iota.
  rewrite bind_some. cbv beta iota. by rewrite Hpath, bind_some, Hhost.
Qed.

Lemma breakDownURL_default_port_witness :
  breakDownURL ("http:" +:+ "//" +:+ "ceclnx01.cec.miamioh.edu"
                +:+ String "/" "~raodm/ssh_logs/full_logs.txt")
  = Some ("ceclnx01.cec.miamioh.edu", "80",
          String "/" "~raodm/ssh_logs/full_logs.txt")%string.
Proof.
  apply breakDownURL_default_port.
  - vm_compute. intuition discriminate.
  - vm_compute. intuition discriminate.
  - vm_compute. intuition discriminate.
  - vm_compute. intuition discriminate.
  - reflexivity.
Defined.

(** X8: for a URL with the separator "//" (after a scheme free of '/')
    the resolver throws exactly when no '/' follows the separator; with
    one it returns. *)
Theorem breakDownURL_throws_iff (scheme rest : string) :
  ~ In "/"%char (list_ascii_of_string scheme) ->
  size (scheme +:+ "//" +:+ rest) < npos ->
  breakDownURL (scheme +:+ "//" +:+ rest) = None
  <-> ~ In "/"%char (list_ascii_of_string rest).
Proof.
  intros Hscheme Hsize.
  pose proof (host_part scheme rest Hscheme Hsize) as Hhost.
  assert (Hsize' : size rest < npos).
  { rewrite (size_append scheme), (size_append "//") in Hsize.
    pose proof (size_nonneg scheme). change (size "//") with 2 in Hsize. lia. }
  split.
  - intros Hnone.
    apply (find_char_npos "/" rest 0); [lia | lia |].
    destruct (Z.eq_dec (find_char rest "/") npos) as [E|E]; [exact E|].
    destruct (breakDownURL_slash _ rest Hsize' Hhost E) as (h & p & pa & Hsome).
    congruence.
  - intros Hin. apply (breakDownURL_no_slash _ rest Hsize' Hhost).
    by apply find_char_absent.
Qed.

Lemma breakDownURL_throws_iff_witness :
  breakDownURL ("http:" +:+ "//" +:+ "host.example.com:8080") = None
  <-> ~ In "/"%char (list_ascii_of_string "host.example.com:8080").
Proof.
  apply breakDownURL_throws_iff.
  - vm_compute. intuition discriminate.
  - reflexivity.
Defined.

(* ===================================================================== *)
(** ** The login history over a run *)
(* ===================================================================== *)

(** Asking about a user who has a vector leaves the map as it is. *)
Lemma frequencyHacking_keeps_map (lt : LoginTimes) (authorizedUsers : LookupMap)
      userID :
  is_Some (lt !! userID) ->
  (frequencyHacking lt authorizedUsers userID).2 = lt.
Proof.
  intros [vec Hvec]. unfold frequencyHacking, subscript. rewrite Hvec.
  destruct (authorizedUsers !! userID); [done|].
  destruct (3 <? _); [|done]. by destruct (long_sub _ _ <=? 20).
Qed.

(** The history after one line: untouched when the IP is banned, else
    the line's ordinal appended to its user's vector. *)
Lemma processLine_history gmtoff (bannedIPs authorizedUsers : LookupMap) st line :
  let f := parseLine line (fields st) in
  loginTimes (processLine gmtoff bannedIPs authorizedUsers st line)
  = match bannedIPs !! f_ip f with
    | Some _ => loginTimes st
    | None =>
        record_seconds
          (toSeconds gmtoff (f_month f +:+ " " +:+ f_day f +:+ " " +:+ f_time f)
                     2021)
          (f_userID f) (loginTimes st)
    end.
Proof.
  cbv zeta. unfold processLine.
  destruct (bannedIPs !! f_ip (parseLine line (fields st))); [done|].
  unfold loginTime.
  set (lt := record_seconds _ _ _).
  pose proof (frequencyHacking_keeps_map lt authorizedUsers
                (f_userID (parseLine line (fields st)))) as Hkeep.
  destruct (frequencyHacking lt authorizedUsers _) as [[|] lt'];
    cbn in *; apply Hkeep; unfold lt; rewrite record_seconds_lookup; eauto.
Qed.

Lemma run_loop_app gmtoff (bannedIPs authorizedUsers : LookupMap) l1 l2 st :
  run_loop gmtoff bannedIPs authorizedUsers (l1 ++ l2) st
  = run_loop gmtoff bannedIPs authorizedUsers l2
      (run_loop gmtoff bannedIPs authorizedUsers l1 st).
Proof. unfold run_loop. apply fold_left_app. Qed.

Lemma processLine_extends gmtoff (bannedIPs authorizedUsers : LookupMap)
      st line userID vec :
  loginTimes st !! userID = Some vec ->
  exists more,
    loginTimes (processLine gmtoff bannedIPs authorizedUsers st line) !! userID
    = Some (vec ++ more).
Proof.
  intros Hvec. rewrite processLine_history.
  destruct (bannedIPs !! _).
  - exists []. by rewrite app_nil_r.
  - destruct (decide (f_userID (parseLine line (fields st)) = userID)) as [<-|Hne].
    + eexists. rewrite record_seconds_lookup, Hvec. reflexivity.
    + exists []. by rewrite record_seconds_other, app_nil_r.
Qed.

(** X9: the login history is append-only.  Reading more lines never
    removes a user, and never drops, changes or reorders the ordinals
    already recorded for one: what a user's vector held is a prefix of
    what it holds later. *)
Theorem login_history_append_only gmtoff (bannedIPs authorizedUsers : LookupMap)
        (lines more_lines : list string) (userID : string) (vec : list Z) :
  loginTimes (run_loop gmtoff bannedIPs authorizedUsers lines initial_state)
    !! userID = Some vec ->
  exists more,
    loginTimes (run_loop gmtoff bannedIPs authorizedUsers
                         (lines ++ more_lines) initial_state) !! userID
    = Some (vec ++ more).
Proof.
  rewrite run_loop_app.
  generalize (run_loop gmtoff bannedIPs authorizedUsers lines initial_state).
  intros st. revert st vec.
  induction more_lines as [|line more_lines IH]; intros st vec Hvec.
  - exists []. by rewrite app_nil_r.
  - cbn. destruct (processLine_extends gmtoff bannedIPs authorizedUsers st line
                     userID vec Hvec) as [m1 H1].
    destruct (IH _ _ H1) as [m2 H2].
    exists (m1 ++ m2). by rewrite app_assoc.
Qed.

Lemma login_history_append_only_witness :
  exists more,
    loginTimes (run_loop 0 {["10.0.0.5" := true]} ∅
                         (take 2 bob_lines ++ drop 2 bob_lines) initial_state)
      !! "bob"
    = Some ([1623319200; 1623319205] ++ more).
Proof.
  apply (login_history_append_only 0 {["10.0.0.5" := true]} ∅
           (take 2 bob_lines) (drop 2 bob_lines) "bob").
  vm_compute. reflexivity.
Defined.

Lemma total_logins_insert (lt : LoginTimes) userID vec :
  total_logins (<[userID := vec]> lt)
  = Z.of_nat (List.length vec)
    + total_logins lt
    - Z.of_nat (List.length (default [] (lt !! userID))).
Proof.
  unfold total_logins.
  assert (Hcomm : forall (m : LoginTimes) (j1 j2 : string) (z1 z2 : list Z) (y : Z),
             j1 <> j2 -> m !! j1 = Some z1 -> m !! j2 = Some z2 ->
             Z.of_nat (List.length z1) + (Z.of_nat (List.length z2) + y)
             = Z.of_nat (List.length z2) + (Z.of_nat (List.length z1) + y)).
  { intros. lia. }
  destruct (lt !! userID) as [old|] eqn:Hold; cbn [default].
  - rewrite <- insert_delete_eq.
    rewrite map_fold_insert_L; [|apply Hcomm|apply lookup_delete_eq].
    rewrite (map_fold_delete_L _ _ userID old lt);
      [unfold id; lia|apply Hcomm|done].
  - rewrite map_fold_insert_L; [cbn; lia|apply Hcomm|done].
Qed.

Lemma total_logins_record seconds userID (lt : LoginTimes) :
  total_logins (record_seconds seconds userID lt) = total_logins lt + 1.
Proof.
  unfold record_seconds.
  destruct (lt !! userID) as [vec|] eqn:Hvec;
    rewrite total_logins_insert, Hvec; cbn [default]; unfold id;
    rewrite ?List.length_app; cbn [List.length]; lia.
Qed.

(** X10: every line read is accounted for exactly once: it is either
    flagged for its banned IP or recorded as one login.  At the end of a
    stream (of at most INT_MAX lines) the number of lines is the number of
    banned-IP flags plus the number of ordinals held in the history. *)
Theorem lines_are_flagged_or_recorded gmtoff (lines : list string)
        (bannedIPs authorizedUsers : LookupMap) :
  Z.of_nat (List.length lines) <= INT_MAX ->
  let st := processLogs gmtoff lines bannedIPs authorizedUsers in
  lineCount st
  = count_flags is_banned_flag (output st) + total_logins (loginTimes st).
Proof.
  intros Hlen. cbv zeta.
  assert (Hloop :
    let st := run_loop gmtoff bannedIPs authorizedUsers lines initial_state in
    Z.of_nat (List.length lines)
    = count_flags is_banned_flag (output st) + total_logins (loginTimes st)).
  { clear Hlen.
    induction lines as [|line lines IH] using rev_ind; cbv zeta in *; [done|].
    rewrite run_loop_snoc, List.length_app. cbn [List.length].
    set (st := run_loop gmtoff bannedIPs authorizedUsers lines initial_state) in *.
    pose proof (processLine_history gmtoff bannedIPs authorizedUsers st line) as Hh.
    cbv zeta in Hh. rewrite Hh.
    destruct (processLine_cases gmtoff bannedIPs authorizedUsers st line)
      as (_ & _ & [([b Hb] & Hout & _) | [(Hb & Hout & _) | (Hb & Hout & _)]]);
      rewrite Hb, Hout; unfold count_flags in *;
      rewrite ?List.filter_app, ?List.length_app, ?total_logins_record;
      cbn; lia. }
  destruct (run_loop_counts gmtoff bannedIPs authorizedUsers lines Hlen)
    as (Hn & _ & _).
  unfold processLogs. cbn. cbv zeta in Hloop.
  unfold count_flags in *. rewrite List.filter_app, List.length_app. cbn.
  lia.
Qed.

Lemma lines_are_flagged_or_recorded_witness :
  let st := processLogs 0 (sample_line :: bob_lines) {["10.0.0.5" := true]} ∅ in
  lineCount st
  = count_flags is_banned_flag (output st) + total_logins (loginTimes st).
Proof.
  apply (lines_are_flagged_or_recorded 0 (sample_line :: bob_lines)).
  vm_compute. discriminate.
Defined.

(** X11: the flags echo input lines, in input order: the lines printed
    with a flag form a subsequence of the lines read, so no line is
    reported twice, out of order, or altered. *)
Theorem flags_echo_input gmtoff (lines : list string)
        (bannedIPs authorizedUsers : LookupMap) :
  sublist (omap flagged_line
                (output (processLogs gmtoff lines bannedIPs authorizedUsers)))
          lines.
Proof.
  assert (Hloop : sublist
            (omap flagged_line
               (output (run_loop gmtoff bannedIPs authorizedUsers lines
                                 initial_state)))
            lines).
  { induction lines as [|line lines IH] using rev_ind; [done|].
    rewrite run_loop_snoc.
    destruct (processLine_cases gmtoff bannedIPs authorizedUsers
                (run_loop gmtoff bannedIPs authorizedUsers lines initial_state)
                line)
      as (_ & _ & [(_ & Hout & _) | [(_ & Hout & _) | (_ & Hout & _)]]);
      rewrite Hout, ?omap_app.
    - by apply sublist_app.
    - by apply sublist_app.
    - by apply sublist_inserts_r. }
  unfold processLogs. cbn. rewrite omap_app. cbn. by rewrite app_nil_r.
Qed.

(* ===================================================================== *)
(** ** The frequency rule on recorded ordinals *)
(* ===================================================================== *)

(** Whatever the text, [toSeconds] for 2021 stays within 368 days. *)
Lemma toSeconds_window gmtoff ts : in_window gmtoff (toSeconds gmtoff ts 2021).
Proof.
  assert (Hyear : is_int (2021 - 1900)) by (vm_compute; split; discriminate).
  destruct (toSeconds_fields gmtoff ts 2021 Hyear) as (E & Hr & Hy).
  cbv zeta in *.
  set (t := (strptime ts timestamp_format (initial_tm 2021)).2) in *.
  rewrite E, (mktime_second_of_year gmtoff t 2021) by (apply Hr || done).
  destruct Hr as (Hmon & Hday & Hhour & Hmin & Hsec).
  unfold in_window, second_of_year, day_of_year.
  rewrite <- mon_yday_days_before_month by done.
  pose proof (mon_yday_range (leapyear 2021) (tm_mon t) Hmon).
  lia.
Qed.

Lemma in_window_difference gmtoff a b :
  in_window gmtoff a -> in_window gmtoff b -> long_sub a b = a - b.
Proof.
  unfold in_window. intros Ha Hb. unfold long_sub. apply wrap_long_id.
  unfold is_long, LONG_MIN, LONG_MAX. lia.
Qed.

(** Every ordinal in the history of a run came from [toSeconds]. *)
Lemma history_in_window gmtoff (bannedIPs authorizedUsers : LookupMap) lines :
  forall userID vec,
    loginTimes (run_loop gmtoff bannedIPs authorizedUsers lines initial_state)
      !! userID = Some vec ->
    Forall (in_window gmtoff) vec.
Proof.
  induction lines as [|line lines IH] using rev_ind; intros userID vec.
  - cbn. by rewrite lookup_empty.
  - rewrite run_loop_snoc, processLine_history.
    set (st := run_loop gmtoff bannedIPs authorizedUsers lines initial_state) in *.
    destruct (bannedIPs !! _); [apply IH|].
    destruct (decide (f_userID (parseLine line (fields st)) = userID)) as [<-|Hne].
    + rewrite record_seconds_lookup. intros [= <-].
      apply Forall_app. split; [|repeat constructor; apply toSeconds_window].
      destruct (loginTimes st !! _) as [old|] eqn:Hold; [|constructor].
      by apply (IH _ _ Hold).
    + rewrite record_seconds_other by done. apply IH.
Qed.

(** X12: the frequency rule as it works in a run.  For a line whose IP
    is not banned and whose user is not authorized, the line is flagged
    exactly when, with its own ordinal appended, the user's vector has
    more than 3 entries and the last entry minus the entry 3 places
    before it is at most 20.  The ordinals all come from [toSeconds], so
    the [long] subtraction cannot overflow. *)
Theorem frequency_rule_in_runs gmtoff (bannedIPs authorizedUsers : LookupMap)
        (lines : list string) (line : string) :
  let st := run_loop gmtoff bannedIPs authorizedUsers lines initial_state in
  let f := parseLine line (fields st) in
  let seconds :=
    toSeconds gmtoff (f_month f +:+ " " +:+ f_day f +:+ " " +:+ f_time f) 2021 in
  let vec := default [] (loginTimes st !! f_userID f) ++ [seconds] in
  let n := Z.of_nat (List.length vec) in
  bannedIPs !! f_ip f = None ->
  authorizedUsers !! f_userID f = None ->
  output (processLine gmtoff bannedIPs authorizedUsers st line)
  = output st
    ++ (if (3 <? n) && (at_index vec (n - 1) - at_index vec (n - 4) <=? 20)
        then [Frequency line] else []).
Proof.
  cbv zeta. intros Hip Hauth.
  set (st := run_loop gmtoff bannedIPs authorizedUsers lines initial_state) in *.
  set (f := parseLine line (fields st)) in *.
  set (seconds := toSeconds gmtoff _ 2021).
  set (vec := default [] (loginTimes st !! f_userID f) ++ [seconds]).
  assert (Hwin : Forall (in_window gmtoff) vec).
  { apply Forall_app. split; [|repeat constructor; apply toSeconds_window].
    destruct (loginTimes st !! f_userID f) as [old|] eqn:Hold; [|constructor].
    by apply (history_in_window gmtoff bannedIPs authorizedUsers lines _ _ Hold). }
  unfold processLine. fold f. rewrite Hip. unfold loginTime. fold seconds.
  pose proof (frequencyHacking_verdict
                (record_seconds seconds (f_userID f) (loginTimes st))
                authorizedUsers (f_userID f) Hauth) as Hverdict.
  cbv zeta in Hverdict.
  rewrite record_seconds_lookup in Hverdict.
  change (default [] (Some (default [] (loginTimes st !! f_userID f) ++ [seconds])))
    with vec in Hverdict.
  destruct (frequencyHacking _ authorizedUsers (f_userID f)) as [violation lt'].
  cbn [fst] in Hverdict. subst violation.
  replace (Z.of_nat (List.length vec) - 1 - 3)
    with (Z.of_nat (List.length vec) - 4) by lia.
  destruct (3 <? Z.of_nat (List.length vec)) eqn:Hsize.
  - apply Z.ltb_lt in Hsize.
    rewrite (in_window_difference gmtoff).
    + cbn [andb]. destruct (_ <=? 20); cbn; by rewrite ?app_nil_r.
    + rewrite List.Forall_forall in Hwin. apply Hwin, nth_In. lia.
    + rewrite List.Forall_forall in Hwin. apply Hwin, nth_In. lia.
  - cbn. by rewrite app_nil_r.
Qed.

Lemma frequency_rule_in_runs_witness :
  let st := run_loop 0 {["10.0.0.5" := true]} ∅ (take 3 bob_lines) initial_state in
  output (processLine 0 {["10.0.0.5" := true]} ∅ st
            "Jun 10 10:00:18 host sshd[1]: Failed password for bob from 10.0.0.7")
  = output st
    ++ [Frequency "Jun 10 10:00:18 host sshd[1]: Failed password for bob from 10.0.0.7"].
Proof.
  cbv zeta.
  rewrite (frequency_rule_in_runs 0 {["10.0.0.5" := true]} ∅ (take 3 bob_lines)
             "Jun 10 10:00:18 host sshd[1]: Failed password for bob from 10.0.0.7");
    reflexivity.
Defined.

(* ===================================================================== *)
(** * The group lookup program *)
(* ===================================================================== *)

Import Homework2.

(* ===================================================================== *)
(** ** Numbers as text *)
(* ===================================================================== *)

Lemma pretty_N_char_digit d :
  (d < 10)%N ->
  is_digit (pretty_N_char d) = true
  /\ digit_val (pretty_N_char d) = Z.of_N d
  /\ isspace (pretty_N_char d) = false
  /\ pretty_N_char d <> ":"%char /\ pretty_N_char d <> ","%char
  /\ pretty_N_char d <> "-"%char /\ pretty_N_char d <> "+"%char.
Proof.
  intros Hd.
  assert (d = 0 \/ d = 1 \/ d = 2 \/ d = 3 \/ d = 4 \/ d = 5 \/ d = 6
          \/ d = 7 \/ d = 8 \/ d = 9)%N as Hcases by lia.
  repeat (destruct Hcases as [-> | Hcases]); try subst d;
    vm_compute; repeat split; discriminate.
Qed.

(** Reading the digits that [pretty] wrote gives the number back. *)
Lemma read_digits_pretty_go x :
  exists p, forall acc s,
    read_digits acc (pretty_N_go x s) = read_digits (acc * p + Z.of_N x) s.
Proof.
  induction (N.lt_wf_0 x) as [x _ IH].
  destruct (decide (x = 0)%N) as [->|Hx].
  - exists 1. intros acc s. rewrite pretty_N_go_0. f_equal. lia.
  - destruct (IH (x `div` 10)%N) as [p Hp]; [apply N.div_lt; lia|].
    exists (p * 10). intros acc s.
    rewrite pretty_N_go_step by lia. rewrite Hp.
    destruct (pretty_N_char_digit (x `mod` 10)%N) as (Hd & Hv & _).
    { apply N.mod_lt. lia. }
    cbn [read_digits]. rewrite Hd, Hv. f_equal.
    rewrite (N.div_mod x 10) at 3 by lia. lia.
Qed.

Lemma pretty_N_go_app x : forall s r,
  pretty_N_go x s +:+ r = pretty_N_go x (s +:+ r).
Proof.
  induction (N.lt_wf_0 x) as [x _ IH]; intros s r.
  destruct (decide (x = 0)%N) as [->|Hx]. { by rewrite !pretty_N_go_0. }
  rewrite (pretty_N_go_step x s), (pretty_N_go_step x (s +:+ r)) by lia.
  rewrite IH by (apply N.div_lt; lia). reflexivity.
Qed.

(** What a positive number starts with, and what it is made of. *)
Lemma pretty_N_go_head x s :
  (0 < x)%N ->
  exists c r, pretty_N_go x s = String c r /\ is_digit c = true.
Proof.
  induction (N.lt_wf_0 x) as [x _ IH] in s |- *; intros Hx.
  rewrite pretty_N_go_step by done.
  destruct (decide (x `div` 10 = 0)%N) as [->|Hq].
  - rewrite pretty_N_go_0. eexists _, _. split; [done|].
    apply pretty_N_char_digit, N.mod_lt. lia.
  - apply IH; [apply N.div_lt; lia | by apply N.neq_0_lt_0].
Qed.

Lemma digit_not_space c : is_digit c = true -> isspace c = false.
Proof.
  unfold is_digit, isspace. intros H.
  apply andb_true_iff in H as [H1 H2]. apply N.leb_le in H1, H2.
  apply orb_false_iff. split; [apply N.eqb_neq; lia|].
  apply andb_false_iff. right. apply N.leb_gt. lia.
Qed.

Lemma digit_not_sign c :
  is_digit c = true -> Ascii.eqb c "-" = false /\ Ascii.eqb c "+" = false.
Proof.
  intros H. split; apply Ascii.eqb_neq; intros ->; discriminate.
Qed.

Lemma read_digits_stop acc r :
  starts_with_digit r = false -> read_digits acc r = (acc, r).
Proof. destruct r as [|c r]; [done|]. cbn. by intros ->. Qed.

Lemma pretty_N_go_plain x : forall s,
  Forall plain (list_ascii_of_string s) ->
  Forall plain (list_ascii_of_string (pretty_N_go x s)).
Proof.
  induction (N.lt_wf_0 x) as [x _ IH]; intros s Hs.
  destruct (decide (x = 0)%N) as [->|Hx]; [by rewrite pretty_N_go_0|].
  rewrite pretty_N_go_step by lia. apply IH; [apply N.div_lt; lia|].
  cbn. constructor; [|done].
  destruct (pretty_N_char_digit (x `mod` 10)%N) as (_ & _ & ? & ? & ? & _);
    [apply N.mod_lt; lia | done].
Qed.

(** A number in decimal is not empty and holds no white space, colon or
    comma. *)
Lemma pretty_Z_plain (z : Z) :
  pretty z <> EmptyString /\ Forall plain (list_ascii_of_string (pretty z)).
Proof.
  assert (Hpos : forall p : positive,
             pretty (N.pos p) <> EmptyString
             /\ Forall plain (list_ascii_of_string (pretty (N.pos p)))).
  { intros p. unfold pretty, pretty_N.
    destruct (decide (N.pos p = 0)%N); [done|]. split.
    - destruct (pretty_N_go_head (N.pos p) "") as (c & r & -> & _); [lia|done].
    - apply pretty_N_go_plain. constructor. }
  destruct z as [|p|p].
  - split; [done|]. repeat constructor; discriminate.
  - apply Hpos.
  - change (pretty (Z.neg p)) with ("-" +:+ pretty (N.pos p)). split; [done|].
    cbn. constructor; [repeat split; discriminate | apply Hpos].
Qed.

(** The digits of a positive number, read back. *)
Lemma pretty_pos_digits (p : positive) (r : string) :
  starts_with_digit r = false ->
  exists c s,
    pretty (N.pos p) +:+ r = String c s /\ is_digit c = true
    /\ read_digits 0 (String c s) = (Z.pos p, r).
Proof.
  intros Hr. unfold pretty, pretty_N.
  destruct (decide (N.pos p = 0)%N); [done|].
  rewrite pretty_N_go_app.
  destruct (pretty_N_go_head (N.pos p) (EmptyString +:+ r)) as (c & s & E & Hc);
    [lia|].
  exists c, s. split; [done|]. split; [done|]. rewrite <- E.
  destruct (read_digits_pretty_go (N.pos p)) as [q Hq]. rewrite Hq.
  by apply read_digits_stop.
Qed.

(** [is >> id] on a number written in decimal and followed by something
    that is not a digit reads the number back. *)
Lemma get_int_pretty (z : Z) (r : string) (var : option Z) :
  is_int z -> starts_with_digit r = false ->
  get_int (mk_is (pretty z +:+ r) false) var = (mk_is r false, Some z).
Proof.
  intros Hz Hr.
  assert (Hrange : (INT_MIN <=? z) && (z <=? INT_MAX) = true).
  { unfold is_int in Hz. apply andb_true_iff. split; apply Z.leb_le; lia. }
  pose proof (fun p (b : bool) => pretty_pos_digits p r Hr) as Hpos.
  unfold get_int. cbn [failed unread].
  destruct z as [|p|p].
  - change (pretty 0 +:+ r) with (String "0" r).
    cbn [skip_space]. change (isspace "0") with false. cbv iota.
    unfold read_sign. change (Ascii.eqb "0" "-") with false.
    change (Ascii.eqb "0" "+") with false. cbv iota.
    cbn [starts_with_digit read_digits]. change (is_digit "0") with true.
    cbv iota. change (0 * 10 + digit_val "0") with 0.
    by rewrite (read_digits_stop 0 r Hr).
  - destruct (Hpos p false) as (c & s & E & Hc & Hread).
    change (pretty (Z.pos p)) with (pretty (N.pos p)). rewrite E.
    cbn [skip_space]. rewrite (digit_not_space c Hc).
    unfold read_sign. destruct (digit_not_sign c Hc) as [-> ->].
    cbn [starts_with_digit]. rewrite Hc, Hread. by rewrite Hrange.
  - destruct (Hpos p true) as (c & s & E & Hc & Hread).
    change (pretty (Z.neg p) +:+ r) with (String "-" (pretty (N.pos p) +:+ r)).
    rewrite E. cbn [skip_space]. change (isspace "-") with false. cbv iota.
    unfold read_sign. change (Ascii.eqb "-" "-") with true. cbv iota.
    cbn [starts_with_digit]. rewrite Hc, Hread.
    change (- Z.pos p) with (Z.neg p). by rewrite Hrange.
Qed.

(* ===================================================================== *)
(** ** Fields of a line *)
(* ===================================================================== *)

Lemma replace_app from to a b :
  replace from to (a +:+ b) = replace from to a +:+ replace from to b.
Proof. induction a as [|c a IH]; [done|]. rewrite append_cons. cbn. by rewrite IH. Qed.

Lemma replace_plain from to w :
  (from = ":"%char \/ from = ","%char) ->
  Forall plain (list_ascii_of_string w) -> replace from to w = w.
Proof.
  intros Hfrom. induction w as [|c w IH]; intros Hw; [done|].
  apply Forall_cons in Hw as [(_ & Hc1 & Hc2) Hw]. cbn. rewrite IH by done.
  replace (Ascii.eqb c from) with false; [done|].
  symmetry. apply Ascii.eqb_neq. by destruct Hfrom as [-> | ->].
Qed.

Lemma read_word_field w : forall r,
  Forall plain (list_ascii_of_string w) ->
  read_word (w +:+ String " " r) = (w, String " " r).
Proof.
  induction w as [|c w IH]; intros r Hw; [done|].
  apply Forall_cons in Hw as [(Hc & _) Hw].
  rewrite append_cons. cbn [read_word]. by rewrite Hc, IH.
Qed.

Lemma read_word_last w :
  Forall plain (list_ascii_of_string w) ->
  read_word w = (w, EmptyString).
Proof.
  induction w as [|c w IH]; intros Hw; [done|].
  apply Forall_cons in Hw as [(Hc & _) Hw].
  cbn [read_word]. by rewrite Hc, IH.
Qed.

Lemma skip_space_field w r :
  is_field w -> skip_space (w +:+ r) = w +:+ r.
Proof.
  intros [Hne Hw]. destruct w as [|c w]; [done|].
  apply Forall_cons in Hw as [(Hc & _) _]. rewrite append_cons. cbn.
  by rewrite Hc.
Qed.

(** [is >> var] on a field that a space follows. *)
Lemma get_string_field w r var :
  is_field w ->
  get_string (mk_is (w +:+ String " " r) false) var
  = (mk_is (String " " r) false, w).
Proof.
  intros Hw. unfold get_string. cbn [failed unread].
  rewrite skip_space_field by done.
  destruct Hw as [Hne Hw]. pose proof (read_word_field w r Hw) as Hrw.
  destruct w; [done|]. rewrite append_cons in *. by rewrite Hrw.
Qed.

Lemma get_string_field_sp w r var :
  is_field w ->
  get_string (mk_is (String " " (w +:+ String " " r)) false) var
  = (mk_is (String " " r) false, w).
Proof. intros Hw. rewrite <- (get_string_field w r var Hw). reflexivity. Qed.

Lemma get_int_pretty_sp (z : Z) (r : string) (var : option Z) :
  is_int z -> starts_with_digit r = false ->
  get_int (mk_is (String " " (pretty z +:+ r)) false) var
  = (mk_is r false, Some z).
Proof. intros Hz Hr. rewrite <- (get_int_pretty z r var Hz Hr). reflexivity. Qed.

(* ===================================================================== *)
(** ** The files as maps *)
(* ===================================================================== *)

Lemma replace_colon_entry (e : Entry) :
  well_formed_entry e ->
  replace ":" " " (entry_line e)
  = e_name e +:+ String " " (e_pass e +:+ String " " (pretty (e_id e)
      +:+ replace ":" " " (e_rest e))).
Proof.
  intros ([_ Hn] & [_ Hp] & _ & _). unfold entry_line.
  rewrite !replace_app.
  rewrite (replace_plain ":" " " (e_name e)), (replace_plain ":" " " (e_pass e)),
    (replace_plain ":" " " (pretty (e_id e)));
    [reflexivity | by left | apply pretty_Z_plain | by left | done | by left | done].
Qed.

Lemma memberInfo_line_entry (e : Entry) (userMap : gmap Z string) :
  well_formed_entry e ->
  memberInfo_line (entry_line e) userMap
  = Some (<[e_id e := e_name e]> userMap).
Proof.
  intros He. unfold memberInfo_line, istringstream.
  rewrite (replace_colon_entry e He).
  destruct He as (Hn & Hp & Hi & Hr).
  rewrite get_string_field by done.
  rewrite get_string_field_sp by done.
  rewrite get_int_pretty_sp; [done | done |].
  destruct Hr as [-> | [r ->]]; done.
Qed.

Lemma memberInfo_loop_entries (es : list Entry) : forall userMap,
  Forall well_formed_entry es ->
  memberInfo_loop (entry_line <$> es) userMap
  = Some (foldl (fun m e => <[e_id e := e_name e]> m) userMap es).
Proof.
  induction es as [|e es IH]; intros userMap Hes; [done|].
  apply Forall_cons in Hes as [He Hes]. cbn.
  rewrite memberInfo_line_entry by done. by apply IH.
Qed.

Lemma names_of_lookup (es : list Entry) (id : Z) : forall m0 : gmap Z string,
  foldl (fun m e => <[e_id e := e_name e]> m) m0 es !! id
  = match last (filter (fun e => e_id e = id) es) with
    | Some e => Some (e_name e)
    | None => m0 !! id
    end.
Proof.
  induction es as [|e es IH]; intros m0; [done|].
  cbn [foldl]. rewrite IH, filter_cons.
  destruct (decide (e_id e = id)) as [<-|Hne].
  - rewrite last_cons. destruct (last _); [done|]. by rewrite lookup_insert_eq.
  - destruct (last _); [done|]. by rewrite lookup_insert_ne.
Qed.

(** X15: [memberInfo] on well-formed lines (name:pass:id, then nothing
    or a colon and anything): every line is read, and an id is mapped to
    the name on the LAST line that carries it; an id on no line is not in
    the map. *)
Theorem memberInfo_last_line_wins (es : list Entry) :
  Forall well_formed_entry es ->
  memberInfo (entry_line <$> es) = Some (names_of es)
  /\ forall id,
       names_of es !! id = e_name <$> last (filter (fun e => e_id e = id) es).
Proof.
  intros Hes. split.
  - by apply memberInfo_loop_entries.
  - intros id. unfold names_of. rewrite names_of_lookup.
    by destruct (last _).
Qed.

(** Well-formedness of concrete entries, by evaluation. *)
Ltac well_formed :=
  repeat match goal with
         | |- well_formed_entry _ =>
             unfold well_formed_entry, is_field, is_int; cbn
         | |- well_formed_group _ =>
             unfold well_formed_group, is_field, is_int; cbn
         | |- is_field _ => unfold is_field; cbn
         | |- is_int _ => unfold is_int
         | |- plain _ => unfold plain
         | |- _ /\ _ => split
         | |- Forall _ _ => constructor
         | |- _ \/ _ => first [left; reflexivity | right; eexists; reflexivity]
         | |- _ <> _ => discriminate
         | |- _ = _ => reflexivity
         | |- (_ <= _)%Z => vm_compute; discriminate
         end.

Lemma memberInfo_last_line_wins_witness :
  memberInfo (entry_line <$> [mk_entry "root" "x" 0 ":0:root:/root:/bin/bash";
                              mk_entry "bob" "x" 1000 "";
                              mk_entry "toor" "x" 0 ":0::/root:/bin/sh"])
  = Some (names_of [mk_entry "root" "x" 0 ":0:root:/root:/bin/bash";
                    mk_entry "bob" "x" 1000 "";
                    mk_entry "toor" "x" 0 ":0::/root:/bin/sh"]).
Proof.
  apply memberInfo_last_line_wins. well_formed.
Defined.

(* ===================================================================== *)
(** ** The members of a group *)
(* ===================================================================== *)

Lemma read_ids_end fuel acc : read_ids (S fuel) (mk_is EmptyString false) acc = acc.
Proof. reflexivity. Qed.

Lemma read_ids_members (ms : list Z) : forall fuel acc,
  Forall is_int ms -> (List.length ms < fuel)%nat ->
  read_ids fuel (mk_is (String " " (String.concat " " (pretty <$> ms))) false) acc
  = acc ++ ms.
Proof.
  induction ms as [|x ms IH]; intros fuel acc Hms Hfuel.
  - destruct fuel; [cbn in Hfuel; lia|]. cbn. by rewrite app_nil_r.
  - apply Forall_cons in Hms as [Hx Hms]. cbn [List.length] in Hfuel.
    destruct fuel as [|fuel]; [lia|].
    destruct ms as [|y ms].
    + cbn [fmap list_fmap String.concat read_ids].
      rewrite <- (append_nil_r (pretty x)).
      rewrite get_int_pretty_sp by done. cbn [failed].
      destruct fuel; [cbn in Hfuel; lia|]. by rewrite read_ids_end.
    + change (String.concat " " (pretty <$> x :: y :: ms))
        with (pretty x +:+ String " " (String.concat " " (pretty <$> y :: ms))).
      cbn [read_ids]. rewrite get_int_pretty_sp by done. cbn [failed].
      rewrite IH; [by rewrite <- app_assoc | done | cbn [List.length] in *; lia].
Qed.

Lemma replace_comma_members (ms : list Z) :
  replace "," " " (String.concat "," (pretty <$> ms))
  = String.concat " " (pretty <$> ms).
Proof.
  induction ms as [|x ms IH]; [done|].
  destruct ms as [|y ms].
  - cbn. apply replace_plain; [by right | apply pretty_Z_plain].
  - change (String.concat "," (pretty <$> x :: y :: ms))
      with (pretty x +:+ String "," (String.concat "," (pretty <$> y :: ms))).
    rewrite replace_app. cbn [replace]. rewrite IH.
    by rewrite (replace_plain "," " " (pretty x));
      [| by right | apply pretty_Z_plain].
Qed.

Lemma replace_colon_members (ms : list Z) :
  replace ":" " " (String.concat "," (pretty <$> ms))
  = String.concat "," (pretty <$> ms).
Proof.
  induction ms as [|x ms IH]; [done|].
  destruct ms as [|y ms].
  - cbn. apply replace_plain; [by left | apply pretty_Z_plain].
  - change (String.concat "," (pretty <$> x :: y :: ms))
      with (pretty x +:+ String "," (String.concat "," (pretty <$> y :: ms))).
    rewrite replace_app. cbn [replace]. rewrite IH.
    by rewrite (replace_plain ":" " " (pretty x));
      [| by left | apply pretty_Z_plain].
Qed.

Lemma concat_members_length (ms : list Z) :
  (List.length ms <= S (String.length (String.concat " " (pretty <$> ms))))%nat.
Proof.
  induction ms as [|x ms IH]; [cbn; lia|].
  destruct ms as [|y ms]; [cbn; lia|].
  change (String.concat " " (pretty <$> x :: y :: ms))
    with (pretty x +:+ String " " (String.concat " " (pretty <$> y :: ms))).
  assert (Hlen : forall a b, String.length (a +:+ b)
                             = (String.length a + String.length b)%nat).
  { induction a as [|c a IHa]; intros b; [done|].
    rewrite append_cons. cbn. by rewrite IHa. }
  rewrite Hlen. cbn [String.length List.length] in *. lia.
Qed.

Lemma groupMembers_line_group (g : Group) (userIDs : gmap Z (list Z)) :
  well_formed_group g ->
  groupMembers_line (group_line g) userIDs
  = Some (<[g_id g := g_members g]> userIDs).
Proof.
  intros ([Hn1 Hn] & [Hp1 Hp] & Hi & Hms).
  unfold groupMembers_line, istringstream, group_line. cbv zeta.
  rewrite !replace_app.
  rewrite (replace_plain ":" " " (g_name g)), (replace_plain ":" " " (g_pass g)),
    (replace_plain ":" " " (pretty (g_id g))), replace_colon_members;
    [| by left | apply pretty_Z_plain | by left | done | by left | done].
  rewrite (replace_plain "," " " (g_name g)), (replace_plain "," " " (g_pass g)),
    (replace_plain "," " " (pretty (g_id g))), replace_comma_members;
    [| by right | apply pretty_Z_plain | by right | done | by right | done].
  change (replace "," " " (replace ":" " " ":")) with " "%string.
  change (g_name g +:+ " " +:+ g_pass g +:+ " " +:+ pretty (g_id g) +:+ " "
          +:+ String.concat " " (pretty <$> g_members g))
    with (g_name g +:+ String " " (g_pass g +:+ String " " (pretty (g_id g)
          +:+ String " " (String.concat " " (pretty <$> g_members g))))).
  rewrite get_string_field by done.
  rewrite get_string_field_sp by done.
  rewrite get_int_pretty_sp by done.
  cbn [unread]. rewrite read_ids_members; [done | done |].
  pose proof (concat_members_length (g_members g)).
  cbn [String.length]. lia.
Qed.

Lemma groupMembers_loop_groups (gs : list Group) : forall userIDs,
  Forall well_formed_group gs ->
  groupMembers_loop (group_line <$> gs) userIDs
  = Some (foldl (fun m g => <[g_id g := g_members g]> m) userIDs gs).
Proof.
  induction gs as [|g gs IH]; intros userIDs Hgs; [done|].
  apply Forall_cons in Hgs as [Hg Hgs]. cbn.
  rewrite groupMembers_line_group by done. by apply IH.
Qed.

Lemma members_of_lookup (gs : list Group) (id : Z) : forall m0 : gmap Z (list Z),
  foldl (fun m g => <[g_id g := g_members g]> m) m0 gs !! id
  = match last (filter (fun g => g_id g = id) gs) with
    | Some g => Some (g_members g)
    | None => m0 !! id
    end.
Proof.
  induction gs as [|g gs IH]; intros m0; [done|].
  cbn [foldl]. rewrite IH, filter_cons.
  destruct (decide (g_id g = id)) as [<-|Hne].
  - rewrite last_cons. destruct (last _); [done|]. by rewrite lookup_insert_eq.
  - destruct (last _); [done|]. by rewrite lookup_insert_ne.
Qed.

(** X16: [groupMembers] on well-formed lines (name:pass:gid:uid,uid,...):
    a group id is mapped to the member ids of the LAST line that carries
    it, in the order written and with repetitions kept. *)
Theorem groupMembers_last_line_wins (gs : list Group) :
  Forall well_formed_group gs ->
  groupMembers (group_line <$> gs) = Some (members_of gs)
  /\ forall id,
       members_of gs !! id
       = g_members <$> last (filter (fun g => g_id g = id) gs).
Proof.
  intros Hgs. split.
  - by apply groupMembers_loop_groups.
  - intros id. unfold members_of. rewrite members_of_lookup.
    by destruct (last _).
Qed.

Lemma groupMembers_last_line_wins_witness :
  groupMembers (group_line <$> [mk_group "wheel" "x" 10 [1000; 0; 1000];
                                mk_group "none" "x" 30 []])
  = Some (members_of [mk_group "wheel" "x" 10 [1000; 0; 1000];
                      mk_group "none" "x" 30 []]).
Proof.
  apply groupMembers_last_line_wins. well_formed.
Defined.

(* ===================================================================== *)
(** ** The member loop comes to an end *)
(* ===================================================================== *)

Lemma skip_space_length s : (String.length (skip_space s) <= String.length s)%nat.
Proof.
  induction s as [|c s IH]; [done|]. cbn.
  destruct (isspace c); cbn; lia.
Qed.

Lemma read_sign_length s : (String.length (read_sign s).2 <= String.length s)%nat.
Proof.
  destruct s as [|c s]; [done|]. cbn.
  destruct (Ascii.eqb c "-"); [cbn; lia|].
  destruct (Ascii.eqb c "+"); cbn; lia.
Qed.

Lemma read_digits_length s : forall acc,
  (String.length (read_digits acc s).2 <= String.length s)%nat.
Proof.
  induction s as [|c s IH]; intros acc; [done|]. cbn.
  destruct (is_digit c); [|done]. specialize (IH (acc * 10 + digit_val c)). lia.
Qed.

(** An extraction that leaves the stream good has read a character. *)
Lemma get_int_consumes strm var :
  failed (get_int strm var).1 = false ->
  (String.length (unread (get_int strm var).1) < String.length (unread strm))%nat.
Proof.
  unfold get_int. destruct (failed strm) eqn:Hf; [cbn [fst]; congruence|].
  pose proof (skip_space_length (unread strm)) as Hskip.
  destruct (skip_space (unread strm)) as [|c s] eqn:Es; [done|].
  pose proof (read_sign_length (String c s)) as Hsign.
  destruct (read_sign (String c s)) as [negative body]. cbn [snd] in Hsign.
  destruct body as [|d body]; [done|]. cbn [starts_with_digit].
  destruct (is_digit d) eqn:Hd; [|done].
  cbn [read_digits]. rewrite Hd.
  pose proof (read_digits_length body (0 * 10 + digit_val d)) as Hdig.
  destruct (read_digits (0 * 10 + digit_val d) body) as [v r]. cbn [snd] in Hdig.
  destruct ((INT_MIN <=? _) && _); [|done].
  cbn in *. lia.
Qed.

(** The bound on the rounds of the member loop is never reached: any
    number of rounds above the length of the text gives the same list. *)
Lemma read_ids_fuel (fuel : nat) : forall fuel' strm uids,
  (String.length (unread strm) < fuel)%nat ->
  (String.length (unread strm) < fuel')%nat ->
  read_ids fuel strm uids = read_ids fuel' strm uids.
Proof.
  induction fuel as [|fuel IH]; intros fuel' strm uids H1 H2; [lia|].
  destruct fuel' as [|fuel']; [lia|]. cbn [read_ids].
  pose proof (get_int_consumes strm None) as Hcons.
  destruct (get_int strm None) as [strm' id]. cbn [fst] in Hcons.
  destruct (failed strm'); [done|]. specialize (Hcons eq_refl).
  destruct id as [id|]; [|done]. apply IH; lia.
Qed.

(* ===================================================================== *)
(** ** Lines with too few fields *)
(* ===================================================================== *)

(** [words] one word at a time. *)
Lemma words_from_read_word s : forall cur,
  words_from cur s
  = match rev cur ++ list_ascii_of_string (read_word s).1 with
    | [] => words_from [] (read_word s).2
    | l => string_of_list_ascii l :: words_from [] (read_word s).2
    end.
Proof.
  induction s as [|c s IH]; intros cur.
  - cbn. rewrite app_nil_r. destruct cur as [|a cur]; [done|].
    cbn.
      destruct (rev cur ++ [a]) eqn:E; [|done].
      apply app_eq_nil in E as [_ E]. discriminate.
  - cbn [words_from read_word]. destruct (isspace c) eqn:Hc.
    + cbn [fst snd list_ascii_of_string]. rewrite app_nil_r.
      cbn [words_from]. rewrite Hc.
      destruct cur as [|a cur]; [done|]. cbn.
      destruct (rev cur ++ [a]) eqn:E; [|done].
      apply app_eq_nil in E as [_ E]. discriminate.
    + rewrite IH. destruct (read_word s) as [w r]. cbn [fst snd rev].
      cbn [list_ascii_of_string]. by rewrite <- app_assoc.
Qed.

Lemma words_skip_space s : words (skip_space s) = words s.
Proof.
  unfold words. induction s as [|c s IH]; [done|]. cbn.
  destruct (isspace c) eqn:Hc; [done|]. cbn. by rewrite Hc.
Qed.

Lemma skip_space_head s c r : skip_space s = String c r -> isspace c = false.
Proof.
  induction s as [|d s IH]; [done|]. cbn.
  destruct (isspace d) eqn:Hd; [done|]. by intros [= <- <-].
Qed.

Lemma skip_space_nil s : skip_space s = EmptyString -> words s = [].
Proof. intros H. by rewrite <- words_skip_space, H. Qed.

Lemma skip_space_cons s c r :
  skip_space s = String c r ->
  words s = (read_word (String c r)).1 :: words (read_word (String c r)).2.
Proof.
  intros H. pose proof (skip_space_head s c r H) as Hc.
  rewrite <- words_skip_space, H. unfold words.
  rewrite words_from_read_word. cbn [rev app read_word]. rewrite Hc.
  destruct (read_word r) as [w r']. cbn [fst snd list_ascii_of_string].
  cbn [string_of_list_ascii]. by rewrite string_of_list_ascii_of_string.
Qed.

(** [is >> var] takes the first word, when there is one. *)
Lemma get_string_words strm var :
  failed strm = false ->
  match words (unread strm) with
  | [] => get_string strm var = (mk_is EmptyString true, var)
  | w :: ws =>
      exists r, get_string strm var = (mk_is r false, w) /\ words r = ws
  end.
Proof.
  intros Hf. unfold get_string. rewrite Hf.
  destruct (skip_space (unread strm)) as [|c r] eqn:Es.
  - by rewrite (skip_space_nil _ Es).
  - rewrite (skip_space_cons _ _ _ Es).
    destruct (read_word (String c r)) as [w r']. by exists r'.
Qed.

(** [is >> id] stores a value exactly when a word is left to read. *)
Lemma get_int_words strm :
  (get_int strm None).2 = None
  <-> failed strm = true \/ words (unread strm) = [].
Proof.
  unfold get_int. destruct (failed strm) eqn:Hf; [cbn; tauto|].
  destruct (skip_space (unread strm)) as [|c r] eqn:Es.
  - rewrite (skip_space_nil _ Es). cbn. tauto.
  - rewrite (skip_space_cons _ _ _ Es).
    destruct (read_sign (String c r)) as [negative body].
    destruct (starts_with_digit body); [|cbn; intuition discriminate].
    destruct (read_digits 0 body) as [v r'].
    destruct (_ && _); cbn; intuition discriminate.
Qed.

Lemma memberInfo_line_undefined copy (userMap : gmap Z string) :
  memberInfo_line copy userMap = None
  <-> (List.length (words (replace ":" " " copy)) < 3)%nat.
Proof.
  unfold memberInfo_line, istringstream.
  set (text := replace ":" " " copy).
  pose proof (get_string_words (mk_is text false) EmptyString eq_refl) as H1.
  cbn [unread] in H1.
  destruct (words text) as [|w1 ws1].
  { rewrite H1. cbn. split; [lia | done]. }
  destruct H1 as (r1 & -> & Hr1).
  pose proof (get_string_words (mk_is r1 false) EmptyString eq_refl) as H2.
  cbn [unread] in H2. rewrite Hr1 in H2.
  destruct ws1 as [|w2 ws2].
  { rewrite H2. cbn. split; [lia | done]. }
  destruct H2 as (r2 & -> & Hr2).
  pose proof (get_int_words (mk_is r2 false)) as H3. cbn [failed unread] in H3.
  rewrite Hr2 in H3.
  destruct (get_int (mk_is r2 false) None) as [strm id]. cbn [snd] in H3.
  destruct id as [id|]; cbn [List.length].
  - split; [done|]. intros Hlen.
    assert (ws2 = []) as -> by (destruct ws2; [done | cbn in Hlen; lia]).
    destruct H3 as [_ H3]. by discriminate H3; right.
  - split; [|done]. intros _. destruct H3 as [H3 _].
    destruct (H3 eq_refl) as [?| ->]; [done | cbn; lia].
Qed.

Lemma groupMembers_line_undefined copy (userIDs : gmap Z (list Z)) :
  groupMembers_line copy userIDs = None
  <-> (List.length (words (replace "," " " (replace ":" " " copy))) < 3)%nat.
Proof.
  unfold groupMembers_line, istringstream. cbv zeta.
  set (text := replace "," " " (replace ":" " " copy)).
  pose proof (get_string_words (mk_is text false) EmptyString eq_refl) as H1.
  cbn [unread] in H1.
  destruct (words text) as [|w1 ws1].
  { rewrite H1. cbn. split; [lia | done]. }
  destruct H1 as (r1 & -> & Hr1).
  pose proof (get_string_words (mk_is r1 false) EmptyString eq_refl) as H2.
  cbn [unread] in H2. rewrite Hr1 in H2.
  destruct ws1 as [|w2 ws2].
  { rewrite H2. cbn. split; [lia | done]. }
  destruct H2 as (r2 & -> & Hr2).
  pose proof (get_int_words (mk_is r2 false)) as H3. cbn [failed unread] in H3.
  rewrite Hr2 in H3.
  destruct (get_int (mk_is r2 false) None) as [strm id]. cbn [snd] in H3.
  destruct id as [id|]; cbn [List.length].
  - split; [done|]. intros Hlen.
    assert (ws2 = []) as -> by (destruct ws2; [done | cbn in Hlen; lia]).
    destruct H3 as [_ H3]. by discriminate H3; right.
  - split; [|done]. intros _. destruct H3 as [H3 _].
    destruct (H3 eq_refl) as [?| ->]; [done | cbn; lia].
Qed.

Lemma memberInfo_loop_undefined lines : forall userMap,
  memberInfo_loop lines userMap = None
  <-> Exists (fun l => (List.length (words (replace ":" " " l)) < 3)%nat) lines.
Proof.
  induction lines as [|l lines IH]; intros userMap; cbn.
  - split; [done | by intros ?%Exists_nil].
  - rewrite Exists_cons.
    pose proof (memberInfo_line_undefined l userMap) as Hl.
    destruct (memberInfo_line l userMap) as [m|].
    + rewrite IH. split; [tauto|]. intros [H|H]; [|done].
      apply Hl in H. discriminate.
    + split; [|done]. intros _. left. by apply Hl.
Qed.

Lemma groupMembers_loop_undefined lines : forall userIDs,
  groupMembers_loop lines userIDs = None
  <-> Exists (fun l => (List.length
                          (words (replace "," " " (replace ":" " " l))) < 3)%nat)
             lines.
Proof.
  induction lines as [|l lines IH]; intros userIDs; cbn.
  - split; [done | by intros ?%Exists_nil].
  - rewrite Exists_cons.
    pose proof (groupMembers_line_undefined l userIDs) as Hl.
    destruct (groupMembers_line l userIDs) as [m|].
    + rewrite IH. split; [tauto|]. intros [H|H]; [|done].
      apply Hl in H. discriminate.
    + split; [|done]. intros _. left. by apply Hl.
Qed.

Lemma print_members_defined memberUID uniqueID : forall out,
  print_members memberUID uniqueID out <> Undefined.
Proof.
  induction uniqueID as [|u us IH]; intros out; cbn; [done|].
  destruct (memberUID !! u); [apply IH | done].
Qed.

Lemma print_groups_defined memberUID members theGroups groupIds : forall out,
  print_groups memberUID members theGroups groupIds out <> Undefined.
Proof.
  induction groupIds as [|g gs IH]; intros out; cbn; [done|].
  destruct (theGroups !! g) as [name|]; [|apply IH].
  destruct (members !! g) as [us|]; [|done].
  pose proof (print_members_defined memberUID us
                (out +:+ pretty g +:+ " = " +:+ name +:+ ":")) as H.
  destruct (print_members _ _ _); [done | done | apply IH].
Qed.

(** X17: the program reads an [int] that was never given a value
    exactly when some line has too few fields: fewer than three words in
    a line of passwd or of groups once every ':' is a space, or fewer than
    three words in a line of groups once every ':' and ',' is a space.  An
    empty line is such a line.  A file that cannot be opened has no lines
    and is harmless. *)
Theorem processInput_undefined_iff (fs : string -> option string)
        (groupIds : list Z) :
  processInput fs groupIds = Undefined
  <-> Exists (fun l => (List.length (words (replace ":" " " l)) < 3)%nat)
             (file_lines fs "passwd" ++ file_lines fs "groups")
      \/ Exists (fun l => (List.length
                             (words (replace "," " " (replace ":" " " l))) < 3)%nat)
                (file_lines fs "groups").
Proof.
  unfold processInput, memberInfo, groupMembers. rewrite Exists_app.
  pose proof (memberInfo_loop_undefined (file_lines fs "passwd") ∅) as Hp.
  pose proof (groupMembers_loop_undefined (file_lines fs "groups") ∅) as Hg.
  pose proof (memberInfo_loop_undefined (file_lines fs "groups") ∅) as Hn.
  destruct (memberInfo_loop (file_lines fs "passwd") ∅) as [memberUID|];
    [|split; [intros _; left; left; by apply Hp | done]].
  destruct (groupMembers_loop (file_lines fs "groups") ∅) as [members|];
    [|split; [intros _; right; by apply Hg | done]].
  destruct (memberInfo_loop (file_lines fs "groups") ∅) as [theGroups|];
    [|split; [intros _; left; right; by apply Hn | done]].
  split.
  - intros H. by apply print_groups_defined in H.
  - intros [[H|H]|H]; [apply Hp in H | apply Hn in H | apply Hg in H];
      discriminate.
Qed.

(* ===================================================================== *)
(** ** What is printed *)
(* ===================================================================== *)

Lemma after_after a b r : after a (after b r) = after (a +:+ b) r.
Proof. destruct r; cbn; by rewrite ?append_assoc. Qed.

Lemma after_nil r : after EmptyString r = r.
Proof. by destruct r. Qed.

Lemma print_members_after memberUID uniqueID : forall out,
  print_members memberUID uniqueID out
  = after out (print_members memberUID uniqueID EmptyString).
Proof.
  induction uniqueID as [|u us IH]; intros out; cbn.
  - by rewrite append_nil_r.
  - destruct (memberUID !! u) as [name|]; [|cbn; by rewrite append_nil_r].
    rewrite IH. rewrite (IH (EmptyString +:+ _)). by rewrite after_after.
Qed.

Lemma print_groups_after memberUID members theGroups groupIds : forall out,
  print_groups memberUID members theGroups groupIds out
  = after out (print_groups memberUID members theGroups groupIds EmptyString).
Proof.
  induction groupIds as [|g gs IH]; intros out; cbn.
  - by rewrite append_nil_r.
  - destruct (theGroups !! g) as [name|].
    + destruct (members !! g) as [us|]; [|cbn; by rewrite append_nil_r].
      rewrite (print_members_after _ _ (out +:+ _)).
      rewrite (print_members_after _ _ (EmptyString +:+ _)).
      destruct (print_members memberUID us EmptyString) as [|o|o]; cbn.
      * done.
      * by rewrite !append_assoc.
      * rewrite IH, (IH ((_ +:+ _) +:+ _)), after_after.
        by rewrite !append_assoc.
    + rewrite IH, (IH (EmptyString +:+ _)). by rewrite after_after.
Qed.

Lemma print_groups_app memberUID members theGroups ids1 : forall ids2 out,
  print_groups memberUID members theGroups (ids1 ++ ids2) out
  = match print_groups memberUID members theGroups ids1 out with
    | Done out' => print_groups memberUID members theGroups ids2 out'
    | stopped => stopped
    end.
Proof.
  induction ids1 as [|g gs IH]; intros ids2 out; cbn; [done|].
  destruct (theGroups !! g) as [name|]; [|apply IH].
  destruct (members !! g) as [us|]; [|done].
  destruct (print_members _ _ _); [done | done | apply IH].
Qed.

(** X18: requests are answered one after the other and do not affect
    each other: the output for a list of group ids is the output for its
    first part followed by the output for the rest; once a request
    throws, nothing of the later ones is printed. *)
Theorem processInput_app (fs : string -> option string) (ids1 ids2 : list Z) :
  processInput fs (ids1 ++ ids2)
  = match processInput fs ids1 with
    | Done out => after out (processInput fs ids2)
    | stopped => stopped
    end.
Proof.
  unfold processInput.
  destruct (memberInfo (file_lines fs "passwd")) as [memberUID|]; [|done].
  destruct (groupMembers (file_lines fs "groups")) as [members|]; [|done].
  destruct (memberInfo (file_lines fs "groups")) as [theGroups|]; [|done].
  rewrite print_groups_app.
  destruct (print_groups memberUID members theGroups ids1 EmptyString);
    [done | done |].
  apply print_groups_after.
Qed.

Lemma group_entry_line g : entry_line (group_entry g) = group_line g.
Proof. reflexivity. Qed.

Lemma group_entry_well_formed g :
  well_formed_group g -> well_formed_entry (group_entry g).
Proof.
  intros (Hn & Hp & Hi & _). repeat split; try apply Hn; try apply Hp;
    try apply Hi. right. by eexists.
Qed.

(** The three maps [processInput] builds from well-formed files. *)
Lemma processInput_well_formed (fs : string -> option string)
      (us : list Entry) (gs : list Group) (groupIds : list Z) :
  file_lines fs "passwd" = entry_line <$> us ->
  file_lines fs "groups" = group_line <$> gs ->
  Forall well_formed_entry us ->
  Forall well_formed_group gs ->
  processInput fs groupIds
  = print_groups (names_of us) (members_of gs) (names_of (group_entry <$> gs))
                 groupIds EmptyString.
Proof.
  intros Hp Hg Hus Hgs. unfold processInput, memberInfo, groupMembers.
  rewrite Hp, Hg.
  rewrite (memberInfo_loop_entries us ∅ Hus).
  rewrite (groupMembers_loop_groups gs ∅ Hgs).
  replace (group_line <$> gs) with (entry_line <$> (group_entry <$> gs)).
  - rewrite memberInfo_loop_entries; [done|].
    apply Forall_fmap. eapply Forall_impl; [exact Hgs|].
    apply group_entry_well_formed.
  - rewrite <- list_fmap_compose. apply list_fmap_ext. intros ? g _.
    apply group_entry_line.
Qed.

Lemma group_names_lookup (gs : list Group) (id : Z) :
  names_of (group_entry <$> gs) !! id
  = g_name <$> last (filter (fun g => g_id g = id) gs).
Proof.
  unfold names_of.
  assert (Hgen : forall m0 : gmap Z string,
             foldl (fun m e => <[e_id e := e_name e]> m) m0 (group_entry <$> gs)
               !! id
             = match last (filter (fun g => g_id g = id) gs) with
               | Some g => Some (g_name g)
               | None => m0 !! id
               end).
  { induction gs as [|g gs IH]; intros m0; [done|].
    cbn [fmap list_fmap foldl]. rewrite IH, filter_cons. cbn [group_entry e_id e_name].
    destruct (decide (g_id g = id)) as [<-|Hne].
    - rewrite last_cons. destruct (last _); [done|]. by rewrite lookup_insert_eq.
    - destruct (last _); [done|]. by rewrite lookup_insert_ne. }
  rewrite Hgen. by destruct (last _).
Qed.

Lemma members_lookup (gs : list Group) (id : Z) :
  members_of gs !! id = g_members <$> last (filter (fun g => g_id g = id) gs).
Proof. unfold members_of. rewrite members_of_lookup. by destruct (last _). Qed.

Lemma print_groups_not_found (memberUID : gmap Z string)
      (members : gmap Z (list Z)) (gs : list Group) (groupIds : list Z) :
  Forall (fun gid => Forall (fun g => g_id g <> gid) gs) groupIds ->
  forall out,
    print_groups memberUID members (names_of (group_entry <$> gs)) groupIds out
    = Done (foldl (fun out gid =>
                     out +:+ pretty gid +:+ " = Group not found." +:+ NL)
                  out groupIds).
Proof.
  induction groupIds as [|gid ids IH]; intros Hids out; [done|].
  apply Forall_cons in Hids as [Hgid Hids]. cbn [print_groups].
  rewrite group_names_lookup.
  assert (filter (fun g => g_id g = gid) gs = []) as ->.
  { clear -Hgid. induction gs as [|g gs IH]; [done|].
    apply Forall_cons in Hgid as [Hg Hgs]. rewrite filter_cons.
    destruct (decide (g_id g = gid)); [done | by apply IH]. }
  change (g_name <$> last []) with (@None string). cbv iota.
  exact (IH Hids (out +:+ pretty gid +:+ " = Group not found." +:+ NL)).
Qed.

(** X19: a group id that is on no line of the groups file is answered by
    "<id> = Group not found."; with no groups file at all, or an empty
    one, that is the answer to every request, and nothing throws. *)
Theorem unknown_groups_not_found (fs : string -> option string)
        (us : list Entry) (gs : list Group) (groupIds : list Z) :
  file_lines fs "passwd" = entry_line <$> us ->
  file_lines fs "groups" = group_line <$> gs ->
  Forall well_formed_entry us ->
  Forall well_formed_group gs ->
  Forall (fun gid => Forall (fun g => g_id g <> gid) gs) groupIds ->
  processInput fs groupIds
  = Done (foldl (fun out gid => out +:+ pretty gid +:+ " = Group not found." +:+ NL)
                EmptyString groupIds).
Proof.
  intros Hp Hg Hus Hgs Hids.
  rewrite (processInput_well_formed fs us gs groupIds Hp Hg Hus Hgs).
  by apply print_groups_not_found.
Qed.

Lemma unknown_groups_not_found_witness :
  processInput (fun _ => None) [7; -3]
  = Done (foldl (fun out gid => out +:+ pretty gid +:+ " = Group not found." +:+ NL)
                EmptyString [7; -3]).
Proof.
  apply (unknown_groups_not_found (fun _ => None) [] []); try done.
  repeat constructor.
Defined.

(** The members of a group as the inner loop prints them. *)
Lemma print_members_known (memberUID : gmap Z string) (uniqueID : list Z) :
  forall out,
    Forall (fun u => is_Some (memberUID !! u)) uniqueID ->
    print_members memberUID uniqueID out
    = Done (foldl (fun out u => out +:+ " " +:+ default EmptyString (memberUID !! u)
                                    +:+ "(" +:+ pretty u +:+ ")")
                  out uniqueID).
Proof.
  induction uniqueID as [|u us IH]; intros out Hall; [done|].
  apply Forall_cons in Hall as [[name Hu] Hall]. cbn. rewrite Hu. cbn.
  by apply IH.
Qed.

Lemma print_members_unknown (memberUID : gmap Z string) (known : list Z)
      (u : Z) (others : list Z) :
  forall out,
    Forall (fun u => is_Some (memberUID !! u)) known ->
    memberUID !! u = None ->
    print_members memberUID (known ++ u :: others) out
    = Threw (foldl (fun out u => out +:+ " "
                                 +:+ default EmptyString (memberUID !! u)
                                 +:+ "(" +:+ pretty u +:+ ")")
                   out known).
Proof.
  induction known as [|k known IH]; intros out Hknown Hu.
  - cbn. by rewrite Hu.
  - apply Forall_cons in Hknown as [[name Hk] Hknown].
    cbn [app print_members]. rewrite Hk.
    rewrite IH by done. cbn [foldl]. by rewrite Hk.
Qed.

(** X20: for well-formed files, a request for a group all of whose
    members are in passwd prints one line: the id, " = ", the group's
    name, ":", and for every member, in the order of the groups file and
    as often as listed there, " name(uid)". *)
Theorem group_is_listed (fs : string -> option string)
        (us : list Entry) (gs : list Group) (gid : Z) (g : Group) :
  file_lines fs "passwd" = entry_line <$> us ->
  file_lines fs "groups" = group_line <$> gs ->
  Forall well_formed_entry us ->
  Forall well_formed_group gs ->
  last (filter (fun g => g_id g = gid) gs) = Some g ->
  Forall (fun u => is_Some (names_of us !! u)) (g_members g) ->
  processInput fs [gid]
  = Done (foldl (fun out u => out +:+ " "
                              +:+ default EmptyString (names_of us !! u)
                              +:+ "(" +:+ pretty u +:+ ")")
                (pretty gid +:+ " = " +:+ g_name g +:+ ":") (g_members g)
          +:+ NL).
Proof.
  intros Hp Hg Hus Hgs Hlast Hknown.
  rewrite (processInput_well_formed fs us gs [gid] Hp Hg Hus Hgs).
  cbn [print_groups]. rewrite group_names_lookup, members_lookup, Hlast. cbn.
  by rewrite print_members_known.
Qed.

(** X21: when a member of the requested group is on no line of passwd,
    [at] throws: the run ends there, after the group's name and the
    members before the missing one were written. *)
Theorem unknown_member_throws (fs : string -> option string)
        (us : list Entry) (gs : list Group) (gid : Z) (g : Group)
        (known : list Z) (u : Z) (others : list Z) :
  file_lines fs "passwd" = entry_line <$> us ->
  file_lines fs "groups" = group_line <$> gs ->
  Forall well_formed_entry us ->
  Forall well_formed_group gs ->
  last (filter (fun g => g_id g = gid) gs) = Some g ->
  g_members g = known ++ u :: others ->
  Forall (fun u => is_Some (names_of us !! u)) known ->
  names_of us !! u = None ->
  processInput fs [gid]
  = Threw (foldl (fun out u => out +:+ " "
                               +:+ default EmptyString (names_of us !! u)
                               +:+ "(" +:+ pretty u +:+ ")")
                 (pretty gid +:+ " = " +:+ g_name g +:+ ":") known).
Proof.
  intros Hp Hg Hus Hgs Hlast Hmem Hknown Hu.
  rewrite (processInput_well_formed fs us gs [gid] Hp Hg Hus Hgs).
  cbn [print_groups]. rewrite group_names_lookup, members_lookup, Hlast. cbn.
  rewrite Hmem. by rewrite print_members_unknown.
Qed.

Lemma group_is_listed_witness :
  processInput sample_fs [10]
  = Done (foldl (fun out u => out +:+ " "
                              +:+ default EmptyString (names_of sample_users !! u)
                              +:+ "(" +:+ pretty u +:+ ")")
                (pretty 10 +:+ " = " +:+ "wheel" +:+ ":") [0; 1000]
          +:+ NL).
Proof.
  apply (group_is_listed sample_fs sample_users sample_groups 10
           (mk_group "wheel" "x" 10 [0; 1000])).
  - reflexivity.
  - reflexivity.
  - unfold sample_users. well_formed.
  - unfold sample_groups. well_formed.
  - reflexivity.
  - repeat constructor; by eexists.
Defined.

Lemma unknown_member_throws_witness :
  processInput sample_fs [20]
  = Threw (foldl (fun out u => out +:+ " "
                               +:+ default EmptyString (names_of sample_users !! u)
                               +:+ "(" +:+ pretty u +:+ ")")
                 (pretty 20 +:+ " = " +:+ "staff" +:+ ":") [1000; 1001]).
Proof.
  apply (unknown_member_throws sample_fs sample_users sample_groups 20
           (mk_group "staff" "x" 20 [1000; 1001; 7; 0]) [1000; 1001] 7 [0]).
  - reflexivity.
  - reflexivity.
  - unfold sample_users. well_formed.
  - unfold sample_groups. well_formed.
  - reflexivity.
  - reflexivity.
  - repeat constructor; by eexists.
  - reflexivity.
Defined.

(* ===================================================================== *)
(** ** The command line *)
(* ===================================================================== *)

Lemma atoi_pretty (z : Z) : is_int z -> atoi (pretty z) = Some z.
Proof.
  intros Hz.
  assert (Hrange : (INT_MIN <=? z) && (z <=? INT_MAX) = true).
  { unfold is_int in Hz. apply andb_true_iff. split; apply Z.leb_le; lia. }
  unfold atoi. destruct z as [|p|p].
  - reflexivity.
  - destruct (pretty_pos_digits p EmptyString eq_refl) as (c & s & E & Hc & Hread).
    rewrite append_nil_r in E.
    change (pretty (Z.pos p)) with (pretty (N.pos p)). rewrite E.
    cbn [skip_space]. rewrite (digit_not_space c Hc).
    unfold read_sign. destruct (digit_not_sign c Hc) as [-> ->].
    rewrite Hread. by rewrite Hrange.
  - destruct (pretty_pos_digits p EmptyString eq_refl) as (c & s & E & Hc & Hread).
    rewrite append_nil_r in E.
    change (pretty (Z.neg p)) with (String "-" (pretty (N.pos p))).
    rewrite E. cbn [skip_space]. change (isspace "-") with false. cbv iota.
    unfold read_sign. change (Ascii.eqb "-" "-") with true. cbv iota.
    rewrite Hread. change (- Z.pos p) with (Z.neg p). by rewrite Hrange.
Qed.

(** X22: [main] turns its arguments into group ids with [atoi]: given
    the decimal text of ids that fit an [int], it answers exactly those
    ids, in order; the program name is not looked at. *)
Theorem main_reads_ids (fs : string -> option string) (prog : string)
        (groupIds : list Z) :
  Forall is_int groupIds ->
  main fs (prog :: (pretty <$> groupIds)) = processInput fs groupIds.
Proof.
  intros Hids. unfold main. cbn [tail].
  assert (atoi_all (pretty <$> groupIds) = Some groupIds) as ->; [|done].
  induction groupIds as [|z ids IH]; [done|].
  apply Forall_cons in Hids as [Hz Hids]. cbn.
  by rewrite atoi_pretty, IH.
Qed.

Lemma main_reads_ids_witness :
  main sample_fs ("groups" :: (pretty <$> [10; -4; 30]))
  = processInput sample_fs [10; -4; 30].
Proof.
  apply main_reads_ids. repeat constructor; vm_compute; discriminate.
Defined.

(* ===================================================================== *)
(** ** Lines that are not as expected *)
(* ===================================================================== *)

Lemma replaced_rest_no_digit rest :
  rest = EmptyString \/ (exists r, rest = String ":" r) ->
  starts_with_digit (replace ":" " " rest) = false.
Proof. by intros [-> | [r ->]]. Qed.

(** X23: an empty password field moves every later field one place to
    the left: in name::uid:gid... the two colons become one gap, the uid
    is read as the password and the GID is taken for the id. *)
Theorem empty_password_shifts_fields (name : string) (uid gid : Z)
        (rest : string) (userMap : gmap Z string) :
  is_field name -> is_int gid ->
  rest = EmptyString \/ (exists r, rest = String ":" r) ->
  memberInfo_line (name +:+ "::" +:+ pretty uid +:+ ":" +:+ pretty gid +:+ rest)
                  userMap
  = Some (<[gid := name]> userMap).
Proof.
  intros Hname Hgid Hrest. unfold memberInfo_line, istringstream.
  rewrite !replace_app.
  rewrite (replace_plain ":" " " name), (replace_plain ":" " " (pretty uid)),
    (replace_plain ":" " " (pretty gid));
    [| by left | apply pretty_Z_plain | by left | apply pretty_Z_plain
     | by left | apply Hname].
  change (name +:+ replace ":" " " "::" +:+ pretty uid +:+ replace ":" " " ":"
          +:+ pretty gid +:+ replace ":" " " rest)
    with (name +:+ String " " (String " " (pretty uid
            +:+ String " " (pretty gid +:+ replace ":" " " rest)))).
  rewrite get_string_field by done.
  change (get_string (mk_is (String " " (String " " ?s)) false) ?v)
    with (get_string (mk_is (String " " s) false) v).
  rewrite get_string_field_sp by (split; apply pretty_Z_plain).
  rewrite get_int_pretty_sp; [done | done |].
  by apply replaced_rest_no_digit.
Qed.

Lemma empty_password_shifts_fields_witness :
  memberInfo_line ("eve" +:+ "::" +:+ pretty 1001 +:+ ":" +:+ pretty 50
                   +:+ ":Eve:/home/eve:/bin/sh") ∅
  = Some (<[50 := "eve"%string]> ∅).
Proof.
  apply empty_password_shifts_fields.
  - well_formed.
  - well_formed.
  - right. by eexists.
Defined.

(** X24: an id field that is not a number is read as 0: the line is
    filed under id 0, replacing whatever was there. *)
Theorem id_that_is_no_number_is_zero (name pass word rest : string)
        (userMap : gmap Z string) :
  is_field name -> is_field pass -> is_field word ->
  starts_with_digit (read_sign word).2 = false ->
  rest = EmptyString \/ (exists r, rest = String ":" r) ->
  memberInfo_line (name +:+ ":" +:+ pass +:+ ":" +:+ word +:+ rest) userMap
  = Some (<[0 := name]> userMap).
Proof.
  intros Hname Hpass Hword Hnum Hrest. unfold memberInfo_line, istringstream.
  rewrite !replace_app.
  rewrite (replace_plain ":" " " name), (replace_plain ":" " " pass),
    (replace_plain ":" " " word);
    [| by left | apply Hword | by left | apply Hpass | by left | apply Hname].
  change (name +:+ replace ":" " " ":" +:+ pass +:+ replace ":" " " ":"
          +:+ word +:+ replace ":" " " rest)
    with (name +:+ String " " (pass
            +:+ String " " (word +:+ replace ":" " " rest))).
  rewrite get_string_field by done.
  rewrite get_string_field_sp by done.
  pose proof (replaced_rest_no_digit rest Hrest) as Hr.
  unfold get_int. cbn [failed unread skip_space].
  change (isspace " ") with true. cbv iota.
  rewrite skip_space_field by done.
  destruct Hword as [Hne Hplain]. destruct word as [|c word]; [done|].
  rewrite append_cons. unfold read_sign in *.
  destruct (Ascii.eqb c "-"); [|destruct (Ascii.eqb c "+")]; cbn [snd] in Hnum.
  - destruct word as [|d word].
    + change (EmptyString +:+ ?s) with s. by rewrite Hr.
    + rewrite append_cons. cbn [starts_with_digit] in *. by rewrite Hnum.
  - destruct word as [|d word].
    + change (EmptyString +:+ ?s) with s. by rewrite Hr.
    + rewrite append_cons. cbn [starts_with_digit] in *. by rewrite Hnum.
  - cbn [starts_with_digit] in *. by rewrite Hnum.
Qed.

Lemma id_that_is_no_number_is_zero_witness :
  memberInfo_line ("guest" +:+ ":" +:+ "x" +:+ ":" +:+ "none" +:+ ":100:")
                  (<[0 := "root"%string]> ∅)
  = Some (<[0 := "guest"%string]> (<[0 := "root"%string]> ∅)).
Proof.
  apply id_that_is_no_number_is_zero.
  - well_formed.
  - well_formed.
  - well_formed.
  - reflexivity.
  - right. by eexists.
Defined.
